(** * Payment-Remainder-App: the ledger reader, the reminder engine, the
      notifier and the write path, embedded from the Python sources.

    - [ExcelManager]   src/excel_manager/excel_manager.py (get_payment_entries)
    - [ReminderEngine] src/reminder_engine/reminder_engine.py
    - [LedgerWriter]   src/excel_manager/excel_manager.py (update_payment)
    - [EmailNotifier]  src/email_notifier/email_notifier.py
    - [UIHandler]      src/ui_handler/ui_handler.py (mark_as_paid, reschedule_payment)
    - [LogWriter]      src/excel_manager/excel_manager.py (append_log)
    - [Paths]          the functions of os.path the sources call (posixpath)
    - [FileManager]    src/file_manager/file_manager.py
    - [ListView]       src/ui_handler/ui_handler.py (update_list_view,
                       update_city_filter_combo, filter_entries,
                       check_due_payments), src/main.py
                       (check_due_payments_on_startup)

    Python values are a tagged union, a row (dict) is a [gmap string pyval],
    amounts are IEEE binary64 floats (the kernel's primitive floats), dates are
    day ordinals in [Z].  Exceptions are explicit results; a loop body runs in a
    small state monad whose state survives a raise, as a Python accumulator
    mutated before the exception does. *)

From Stdlib Require Import Floats.PrimFloat.
From Stdlib Require Floats.SpecFloat Floats.FloatOps.
From Stdlib Require Import ZArith String Ascii Lia.
From stdpp Require Import gmap strings list fin_maps functions sorting.

Set Warnings "-inexact-float".
Local Open Scope string_scope.
Local Open Scope Z_scope.

(** ** Python values *)

Module Py.

(** The exceptions the modelled code can meet. *)
Inductive pyexc :=
| ValueError | TypeError | AttributeError | KeyError | IndexError | OSError
| OverflowError.

(** What a cell of a sheet, or a value stored in a row dict, can be.  A blank
    cell of a text or number column is the float NaN; [PDatetime] stands for
    [datetime.datetime] and pandas' [Timestamp] (a day and a time of day). *)
Inductive pyval :=
| PNone
| PInt (z : Z)
| PFloat (f : PrimFloat.float)
| PStr (s : string)
| PDate (d : Z)
| PDatetime (d : Z) (secs : Z).

Inductive result (A : Type) :=
| Ok (a : A)
| Raise (e : pyexc).
Arguments Ok {A} a.
Arguments Raise {A} e.

#[export] Instance result_ret : MRet result := λ A a, Ok a.
#[export] Instance result_bind : MBind result := λ A B k r,
  match r with
  | Ok a => k a
  | Raise e => Raise e
  end.

Definition nan : PrimFloat.float := PrimFloat.nan.

(** [bool(v)], the test behind [if v:] and [not v]. *)
Definition truthy (v : pyval) : bool :=
  match v with
  | PNone => false
  | PInt z => negb (Z.eqb z 0)
  | PFloat f => negb (PrimFloat.eqb f PrimFloat.zero)
  | PStr s => negb (String.eqb s "")
  | PDate _ | PDatetime _ _ => true
  end.

(** [pd.isna(v)] on a scalar. *)
Definition isna (v : pyval) : bool :=
  match v with
  | PNone => true
  | PFloat f => PrimFloat.is_nan f
  | _ => false
  end.

(** [str.lower] on the ASCII letters (other bytes are left as they are). *)
Definition lower_ascii (c : ascii) : ascii :=
  let n := N_of_ascii c in
  if ((65 <=? n) && (n <=? 90))%N then ascii_of_N (n + 32) else c.

Fixpoint lower (s : string) : string :=
  match s with
  | EmptyString => EmptyString
  | String c s' => String (lower_ascii c) (lower s')
  end.

(** [v.lower()]: only a str has the method. *)
Definition py_lower (v : pyval) : result string :=
  match v with
  | PStr s => Ok (lower s)
  | _ => Raise AttributeError
  end.

(** [float(n)] for an int: the nearest binary64, ties to even. *)
Definition float_of_int (z : Z) : PrimFloat.float :=
  FloatOps.SF2Prim
    (SpecFloat.binary_normalize FloatOps.prec FloatOps.emax z 0 false).

(** [float(v)]; [float_of_str] is Python's parser of float literals. *)
Definition py_float (float_of_str : string → option PrimFloat.float)
    (v : pyval) : result PrimFloat.float :=
  match v with
  | PInt z =>
      let f := float_of_int z in
      if PrimFloat.is_infinity f then Raise OverflowError else Ok f
  | PFloat f => Ok f
  | PStr s =>
      match float_of_str s with
      | Some f => Ok f
      | None => Raise ValueError
      end
  | PNone | PDate _ | PDatetime _ _ => Raise TypeError
  end.

(** The day of a value that is ordered against a [datetime.date]: [<], [<=]
    and [>] between a date and anything else raise TypeError. *)
Definition as_date (v : pyval) : result Z :=
  match v with
  | PDate d => Ok d
  | _ => Raise TypeError
  end.

(** [list.sort(key=..., reverse=...)]: stable, also when reversed.  The keys
    the engine sorts by are ints or dates, both read as [Z]. *)
Fixpoint insert_sorted {A} (before : A → A → bool) (x : A) (l : list A)
  : list A :=
  match l with
  | [] => [x]
  | y :: l' =>
      if before x y then x :: y :: l' else y :: insert_sorted before x l'
  end.

Definition sort_before {A} (key : A → Z) (reverse : bool) (x y : A) : bool :=
  if reverse then key y <=? key x else key x <=? key y.

Definition list_sort {A} (key : A → Z) (reverse : bool) (l : list A) : list A :=
  foldr (insert_sorted (sort_before key reverse)) [] l.

(** The order [list_sort key reverse] establishes between an element and
    every later one. *)
Definition in_order {A} (key : A → Z) (reverse : bool) (x y : A) : Prop :=
  if reverse then key y ≤ key x else key x ≤ key y.

(** [d.get(k, dflt)] and [d[k]] on a row dict. *)
Definition dict_get (d : gmap string pyval) (k : string) (dflt : pyval)
  : pyval :=
  default dflt (d !! k).

Definition dict_item (d : gmap string pyval) (k : string) : result pyval :=
  match d !! k with
  | Some v => Ok v
  | None => Raise KeyError
  end.

End Py.
Export Py.

(** ** The ledger reader (ExcelManager.get_payment_entries) *)

(** A sheet as pandas reads it: its column labels and its rows.  A row that
    lacks a cell of a listed column reads as NaN there. *)
Record dataframe := DataFrame {
  columns : list string;
  rows : list (gmap string pyval)
}.

(** A path on disk: nothing there, something [pd.read_excel] cannot read, or
    a workbook. *)
Inductive file_state :=
| NoFile
| Unreadable
| Workbook (df : dataframe).

Module ExcelManager.

Definition required_columns : list string := ["Name"; "Amount"; "Due Date"].
Definition optional_columns : list string :=
  ["Email"; "Status"; "Remarks"; "Payment Date"].

Definition has_column (df : dataframe) (col : string) : bool :=
  bool_decide (col ∈ columns df).

(** [df[col] = ""] for a column the sheet lacks. *)
Definition add_blank_column (col : string) (df : dataframe) : dataframe :=
  {| columns := (columns df ++ [col])%list;
     rows := (λ r, <[col := PStr ""]> r) <$> rows df |}.

(** [df.to_dict('records')]: one dict per row, keyed by the column labels. *)
Definition cell (r : gmap string pyval) (col : string) : pyval :=
  default (PFloat nan) (r !! col).

Definition record_of (cols : list string) (r : gmap string pyval)
  : gmap string pyval :=
  list_to_map ((λ c, (c, cell r c)) <$> cols).

Definition to_dict_records (df : dataframe) : list (gmap string pyval) :=
  record_of (columns df) <$> rows df.

(** Lines 42-43: the required columns the sheet lacks. *)
Definition missing_columns (df : dataframe) : list string :=
  filter (λ col, has_column df col = false) required_columns.

(** Lines 48-51: every optional column the sheet lacks is added, blank. *)
Definition add_if_missing (df : dataframe) (col : string) : dataframe :=
  if has_column df col then df else add_blank_column col df.

Definition with_optional_columns (df : dataframe) : dataframe :=
  fold_left add_if_missing optional_columns df.

Section Reader.
(** [pd.to_datetime(s).date()]: the day a string names, [None] when the
    parser raises. *)
Variable to_datetime : string → option Z.
Variable disk : string → file_state.

Definition read_excel (file_path : string) : result dataframe :=
  match disk file_path with
  | Workbook df => Ok df
  | NoFile | Unreadable => Raise OSError
  end.

(** The date clean-up of one entry (lines 64-70). *)
Definition clean_due_date (entry : gmap string pyval)
  : result (gmap string pyval) :=
  due ← dict_item entry "Due Date";
  match due with
  | PStr s =>
      match to_datetime s with
      | Some d => Ok (<["Due Date" := PDate d]> entry)
      | None => Ok entry
      end
  | PDatetime d _ => Ok (<["Due Date" := PDate d]> entry)
  | _ => Ok entry
  end.

(** The status default of one entry (lines 72-74). *)
Definition clean_status (entry : gmap string pyval)
  : result (gmap string pyval) :=
  status ← dict_item entry "Status";
  if negb (truthy status) || isna status
  then Ok (<["Status" := PStr "Unpaid"]> entry)
  else Ok entry.

(** The body of [for entry in entries] (lines 57-74); [i] is the position
    [entries.index(entry)] finds: the entry itself, since every entry before
    it already carries the extra keys. *)
Definition annotate_entry (file_path : string) (city_name : option string)
    (i : nat) (entry : gmap string pyval) : result (gmap string pyval) :=
  let entry := <["file_path" := PStr file_path]> entry in
  let entry := <["row_index" := PInt (Z.of_nat i)]> entry in
  let entry :=
    match city_name with
    | Some c => if String.eqb c "" then entry else <["city" := PStr c]> entry
    | None => entry
    end in
  entry ← clean_due_date entry;
  clean_status entry.

Fixpoint annotate_from (file_path : string) (city_name : option string)
    (i : nat) (entries : list (gmap string pyval))
  : result (list (gmap string pyval)) :=
  match entries with
  | [] => Ok []
  | entry :: rest =>
      e ← annotate_entry file_path city_name i entry;
      es ← annotate_from file_path city_name (S i) rest;
      Ok (e :: es)
  end.

Definition get_payment_entries (file_path : string)
    (city_name : option string) : result (list (gmap string pyval)) :=
  df ← read_excel file_path;
  match missing_columns df with
  | _ :: _ => Raise ValueError
  | [] =>
      let df := with_optional_columns df in
      annotate_from file_path city_name 0 (to_dict_records df)
  end.
End Reader.

End ExcelManager.

(** ** Loop bodies: state, [continue] and exceptions *)

Module Loop.

Inductive outcome (A : Type) :=
| Next (a : A)
| Continue
| Raised (e : pyexc).
Arguments Next {A} a.
Arguments Continue {A}.
Arguments Raised {A} e.

(** A statement of a loop body over the accumulator [St]: the accumulator is
    threaded through and keeps what was done to it before a raise. *)
Definition body (St A : Type) : Type := St → outcome A * St.

#[export] Instance body_ret {St} : MRet (body St) := λ A a s, (Next a, s).
#[export] Instance body_bind {St} : MBind (body St) := λ A B k m s,
  match m s with
  | (Next a, s') => k a s'
  | (Continue, s') => (Continue, s')
  | (Raised e, s') => (Raised e, s')
  end.

Definition continue {St A} : body St A := λ s, (Continue, s).
Definition modify {St} (f : St → St) : body St unit := λ s, (Next tt, f s).
Definition try_ {St A} (r : result A) : body St A := λ s,
  match r with
  | Ok a => (Next a, s)
  | Raise e => (Raised e, s)
  end.

(** [for x in xs: f x] up to the first exception, which is handed to the
    enclosing [except]. *)
Fixpoint for_each {St A} (f : A → body St unit) (xs : list A) (s : St)
  : option pyexc * St :=
  match xs with
  | [] => (None, s)
  | x :: rest =>
      match f x s with
      | (Raised e, s') => (Some e, s')
      | (_, s') => for_each f rest s'
      end
  end.

End Loop.
Export Loop.

(** ** The reminder engine (ReminderEngine) *)

Module ReminderEngine.

(** The summary dict: eight counters.  Its amount starts as the int 0 and is
    a float from the first addition on (0 == 0.0 in Python). *)
Record summary := Summary {
  total_payments : Z;
  paid_payments : Z;
  partial_payments : Z;
  unpaid_payments : Z;
  overdue_payments : Z;
  due_today : Z;
  upcoming_payments : Z;
  total_amount_due : PrimFloat.float
}.

Definition summary0 : summary := Summary 0 0 0 0 0 0 0 PrimFloat.zero.

Definition incr_total (s : summary) : summary :=
  Summary (total_payments s + 1) (paid_payments s) (partial_payments s)
    (unpaid_payments s) (overdue_payments s) (due_today s)
    (upcoming_payments s) (total_amount_due s).
Definition incr_paid (s : summary) : summary :=
  Summary (total_payments s) (paid_payments s + 1) (partial_payments s)
    (unpaid_payments s) (overdue_payments s) (due_today s)
    (upcoming_payments s) (total_amount_due s).
Definition incr_partial (s : summary) : summary :=
  Summary (total_payments s) (paid_payments s) (partial_payments s + 1)
    (unpaid_payments s) (overdue_payments s) (due_today s)
    (upcoming_payments s) (total_amount_due s).
Definition incr_unpaid (s : summary) : summary :=
  Summary (total_payments s) (paid_payments s) (partial_payments s)
    (unpaid_payments s + 1) (overdue_payments s) (due_today s)
    (upcoming_payments s) (total_amount_due s).
Definition incr_overdue (s : summary) : summary :=
  Summary (total_payments s) (paid_payments s) (partial_payments s)
    (unpaid_payments s) (overdue_payments s + 1) (due_today s)
    (upcoming_payments s) (total_amount_due s).
Definition incr_due_today (s : summary) : summary :=
  Summary (total_payments s) (paid_payments s) (partial_payments s)
    (unpaid_payments s) (overdue_payments s) (due_today s + 1)
    (upcoming_payments s) (total_amount_due s).
Definition incr_upcoming (s : summary) : summary :=
  Summary (total_payments s) (paid_payments s) (partial_payments s)
    (unpaid_payments s) (overdue_payments s) (due_today s)
    (upcoming_payments s + 1) (total_amount_due s).
Definition add_amount (x : PrimFloat.float) (s : summary) : summary :=
  Summary (total_payments s) (paid_payments s) (partial_payments s)
    (unpaid_payments s) (overdue_payments s) (due_today s)
    (upcoming_payments s) (PrimFloat.add (total_amount_due s) x).

(** Lines 83-88. *)
Definition priority_of (days_overdue : Z) : string :=
  if 30 <? days_overdue then "High"
  else if 7 <? days_overdue then "Medium"
  else "Low".

(** The sort keys: [x.get('days_overdue', 0)] and [x.get('Due Date')]. *)
Definition days_overdue_key (x : gmap string pyval) : Z :=
  match dict_get x "days_overdue" (PInt 0) with
  | PInt n => n
  | _ => 0
  end.

Definition due_date_key (x : gmap string pyval) : Z :=
  match dict_get x "Due Date" PNone with
  | PDate d => d
  | _ => 0
  end.

Section Engine.
Variable to_datetime : string → option Z.
Variable float_of_str : string → option PrimFloat.float.
Variable disk : string → file_state.
(** [self.today] *)
Variable today : Z.

(** [os.path.exists(file_path)] *)
Definition path_exists (file_path : string) : bool :=
  match disk file_path with
  | NoFile => false
  | _ => true
  end.

(** The due date of an entry, as each of the three scans works it out: a
    missing or falsy one and a string that does not parse skip the entry; a
    value with a [date] method is replaced by its date. *)
Definition due_date_of {St} (entry : gmap string pyval) : body St pyval :=
  let due_date := dict_get entry "Due Date" PNone in
  if negb (truthy due_date) then continue
  else
    due_date ←
      match due_date with
      | PStr s =>
          match to_datetime s with
          | Some d => mret (PDate d)
          | None => continue
          end
      | _ => mret due_date
      end;
    mret (match due_date with
          | PDatetime d _ => PDate d
          | _ => due_date
          end).

(** The body of the inner loop of [get_due_payments] (lines 52-90). *)
Definition due_body (entry : gmap string pyval)
  : body (list (gmap string pyval)) unit :=
  status ← try_ (py_lower (dict_get entry "Status" (PStr "")));
  if String.eqb status "paid" then continue
  else
    due_date ← due_date_of entry;
    d ← try_ (as_date due_date);
    if d <=? today then
      let days_overdue := today - d in
      let entry := <["days_overdue" := PInt days_overdue]> entry in
      let entry := <["priority" := PStr (priority_of days_overdue)]> entry in
      modify (λ due_payments, (due_payments ++ [entry])%list)
    else mret ().

(** The body of the inner loop of [get_upcoming_payments] (lines 125-153). *)
Definition upcoming_body (future_date : Z) (entry : gmap string pyval)
  : body (list (gmap string pyval)) unit :=
  status ← try_ (py_lower (dict_get entry "Status" (PStr "")));
  if String.eqb status "paid" then continue
  else
    due_date ← due_date_of entry;
    d ← try_ (as_date due_date);
    if (today <? d) && (d <=? future_date) then
      let days_until_due := d - today in
      let entry := <["days_until_due" := PInt days_until_due]> entry in
      modify (λ upcoming_payments, (upcoming_payments ++ [entry])%list)
    else mret ().

(** The body of the inner loop of [get_payment_summary] (lines 192-227). *)
Definition summary_body (entry : gmap string pyval) : body summary unit :=
  modify incr_total;;
  status ← try_ (py_lower (dict_get entry "Status" (PStr "")));
  (if String.eqb status "paid" then modify incr_paid
   else if String.eqb status "partial" then
     modify incr_partial;;
     amount ← try_ (py_float float_of_str (dict_get entry "Amount" (PInt 0)));
     modify (add_amount amount)
   else
     modify incr_unpaid;;
     amount ← try_ (py_float float_of_str (dict_get entry "Amount" (PInt 0)));
     modify (add_amount amount));;
  due_date ← due_date_of entry;
  d ← try_ (as_date due_date);
  let unsettled := negb (String.eqb status "paid") in
  if (d <? today) && unsettled then modify incr_overdue
  else if (d =? today) && unsettled then modify incr_due_today
  else if (today <? d) && unsettled then modify incr_upcoming
  else mret ().

(** One turn of [for file_path, city_name in file_paths_and_cities]: a path
    that does not exist is skipped; whatever the reader or the inner loop
    raises is logged by [except Exception] and the scan goes on with the next
    file, keeping what the inner loop did before it raised. *)
Definition scan_file {St} (f : gmap string pyval → body St unit)
    (acc : St) (src : string * string) : St :=
  let '(file_path, city_name) := src in
  if negb (path_exists file_path) then acc
  else
    match ExcelManager.get_payment_entries to_datetime disk file_path
            (Some city_name) with
    | Raise _ => acc
    | Ok entries => (for_each f entries acc).2
    end.

(** [due_payments] before the final sort. *)
Definition collect_due (file_paths_and_cities : list (string * string))
  : list (gmap string pyval) :=
  fold_left (scan_file due_body) file_paths_and_cities [].

Definition get_due_payments (file_paths_and_cities : list (string * string))
  : list (gmap string pyval) :=
  list_sort days_overdue_key true (collect_due file_paths_and_cities).

Definition collect_upcoming (file_paths_and_cities : list (string * string))
    (days_ahead : Z) : list (gmap string pyval) :=
  fold_left (scan_file (upcoming_body (today + days_ahead)))
    file_paths_and_cities [].

Definition get_upcoming_payments
    (file_paths_and_cities : list (string * string)) (days_ahead : Z)
  : list (gmap string pyval) :=
  list_sort due_date_key false
    (collect_upcoming file_paths_and_cities days_ahead).

Definition get_payment_summary
    (file_paths_and_cities : list (string * string)) : summary :=
  fold_left (scan_file summary_body) file_paths_and_cities summary0.
End Engine.

End ReminderEngine.

(** ** The ledger writer (ExcelManager.update_payment) *)

Module LedgerWriter.
Import ExcelManager.

(** [df.at[row_index, col]] read and written; writing under a label the
    sheet lacks adds the column. *)
Definition at_get (df : dataframe) (i : nat) (col : string) : result pyval :=
  if has_column df col then
    match rows df !! i with
    | Some r => Ok (cell r col)
    | None => Raise KeyError
    end
  else Raise KeyError.

Definition at_set (df : dataframe) (i : nat) (col : string) (v : pyval)
  : dataframe :=
  {| columns := if has_column df col then columns df
                else (columns df ++ [col])%list;
     rows := alter (λ r, <[col := v]> r) i (rows df) |}.

(** [a >= b] and [a - b] on numbers; an int meets a float as its float. *)
Definition py_ge (a b : pyval) : result bool :=
  match a, b with
  | PInt x, PInt y => Ok (y <=? x)
  | PInt x, PFloat y => Ok (PrimFloat.leb y (float_of_int x))
  | PFloat x, PInt y => Ok (PrimFloat.leb (float_of_int y) x)
  | PFloat x, PFloat y => Ok (PrimFloat.leb y x)
  | _, _ => Raise TypeError
  end.

Definition py_sub (a b : pyval) : result pyval :=
  match a, b with
  | PInt x, PInt y => Ok (PInt (x - y))
  | PInt x, PFloat y => Ok (PFloat (PrimFloat.sub (float_of_int x) y))
  | PFloat x, PInt y => Ok (PFloat (PrimFloat.sub x (float_of_int y)))
  | PFloat x, PFloat y => Ok (PFloat (PrimFloat.sub x y))
  | _, _ => Raise TypeError
  end.

(** [if s:] on an optional string argument. *)
Definition nonempty (o : option string) : option string :=
  match o with
  | Some s => if String.eqb s "" then None else Some s
  | None => None
  end.

Section Writer.
(** [datetime.now().strftime('%Y-%m-%d')] and [str(v)] in an f-string. *)
Variable now_date : string.
Variable str_of : pyval → string.

(** Lines 109-121: the payment, when an amount is given. *)
Definition apply_payment (df : dataframe) (i : nat) (amount_paid : pyval)
  : result dataframe :=
  match amount_paid with
  | PNone => Ok df
  | _ =>
      total_amount ← at_get df i "Amount";
      full ← py_ge amount_paid total_amount;
      df ← (if full : bool then
              Ok (at_set (at_set df i "Status" (PStr "Paid"))
                         i "Amount" (PInt 0))
            else
              rest ← py_sub total_amount amount_paid;
              Ok (at_set (at_set df i "Status" (PStr "Partial"))
                         i "Amount" rest));
      Ok (at_set df i "Payment Date" (PStr now_date))
  end.

(** Lines 132-139: the remark, appended to what the cell holds. *)
Definition apply_remarks (df : dataframe) (i : nat) (remarks : option string)
  : result dataframe :=
  match nonempty remarks with
  | Some r =>
      existing_remarks ← at_get df i "Remarks";
      let new_remarks :=
        if truthy existing_remarks && negb (isna existing_remarks)
        then (str_of existing_remarks ++ "; " ++ r)%string
        else r in
      Ok (at_set df i "Remarks" (PStr new_remarks))
  | None => Ok df
  end.

(** The [try] block of [update_payment] up to [df.to_excel] (lines 99-141):
    the path and the sheet to save. *)
Definition updated_frame (disk : string → file_state)
    (file_path row_index amount_paid : pyval) (status : option string)
    (new_date : pyval) (remarks : option string)
  : result (string * dataframe) :=
  p ← match file_path with PStr p => Ok p | _ => Raise TypeError end;
  df ← read_excel disk p;
  i ← match row_index with PInt i => Ok i | _ => Raise TypeError end;
  if (i <? 0) || (Z.of_nat (length (rows df)) <=? i) then Raise IndexError
  else
    let i := Z.to_nat i in
    df ← apply_payment df i amount_paid;
    let df := match nonempty status with
              | Some s => at_set df i "Status" (PStr s)
              | None => df
              end in
    let df := if truthy new_date then at_set df i "Due Date" new_date
              else df in
    df ← apply_remarks df i remarks;
    Ok (p, df).

(** [update_payment]: True and the saved sheet, or False with the disk as it
    was when anything in the [try] block raised. *)
Definition update_payment (disk : string → file_state)
    (file_path row_index amount_paid : pyval) (status : option string)
    (new_date : pyval) (remarks : option string)
  : bool * (string → file_state) :=
  match updated_frame disk file_path row_index amount_paid status new_date
          remarks with
  | Ok (p, df) => (true, <[p := Workbook df]> disk)
  | Raise _ => (false, disk)
  end.
End Writer.

End LedgerWriter.

(** ** The notifier (EmailNotifier) *)

Module EmailNotifier.

(** What [__init__] leaves in the object, and whether the SMTP exchange for
    a recipient goes through (the [try] block of [send_email]). *)
Record notifier := Notifier {
  is_configured : bool;
  company_name : string;
  smtp_delivers : string → bool
}.

(** ['@' in s] *)
Fixpoint has_at (s : string) : bool :=
  match s with
  | EmptyString => false
  | String c s' => Ascii.eqb c "@"%char || has_at s'
  end.

(** [send_email] (lines 57-99). *)
Definition send_email (n : notifier) (to_email : pyval)
    (subject body_text : string) (body_html : option string) : result bool :=
  if negb (is_configured n) then Ok false
  else if negb (truthy to_email) then Ok false
  else
    match to_email with
    | PStr s => if negb (has_at s) then Ok false else Ok (smtp_delivers n s)
    | _ => Raise TypeError
    end.

Definition nl : string := String (ascii_of_nat 10) EmptyString.

Section Reminder.
(** [f"{amount:.2f}"], and [due_date.strftime('%Y-%m-%d')] or
    [str(due_date)]. *)
Variable format_amount : PrimFloat.float → string.
Variable format_date : pyval → string.

(** [send_payment_reminder] (lines 114-160). *)
Definition send_payment_reminder (n : notifier) (customer_name : string)
    (amount : PrimFloat.float) (due_date : pyval) (city : option string)
  : result bool :=
  let due_date_str := format_date due_date in
  let amount_str := ("$" ++ format_amount amount)%string in
  let subject :=
    ("Payment Reminder - " ++ amount_str ++ " due on " ++ due_date_str)%string in
  let body_text :=
    (nl ++ "Dear " ++ customer_name ++ "," ++ nl ++ nl
     ++ "This is a friendly reminder that a payment of " ++ amount_str
     ++ " is due on " ++ due_date_str ++ "." ++ nl ++ nl
     ++ "Please ensure timely payment to avoid any inconvenience." ++ nl ++ nl
     ++ "If you have already made the payment, please disregard this message."
     ++ nl ++ nl ++ "Best regards," ++ nl ++ company_name n ++ nl)%string in
  let body_html :=
    (nl ++ "<html>" ++ nl ++ "<head></head>" ++ nl ++ "<body>" ++ nl
     ++ "  <p>Dear " ++ customer_name ++ ",</p>" ++ nl ++ "  " ++ nl
     ++ "  <p>This is a friendly reminder that a payment of <strong>"
     ++ amount_str ++ "</strong> is due on <strong>" ++ due_date_str
     ++ "</strong>.</p>" ++ nl ++ "  " ++ nl
     ++ "  <p>Please ensure timely payment to avoid any inconvenience.</p>"
     ++ nl ++ "  " ++ nl
     ++ "  <p>If you have already made the payment, please disregard this message.</p>"
     ++ nl ++ "  " ++ nl ++ "  <p>Best regards,<br>" ++ nl ++ "  "
     ++ company_name n ++ "</p>" ++ nl ++ "</body>" ++ nl ++ "</html>"
     ++ nl)%string in
  send_email n PNone subject body_text (Some body_html).
End Reminder.

End EmailNotifier.

(** ** The write path of the window (UIHandler.mark_as_paid, reschedule_payment) *)

Module UIHandler.
Import EmailNotifier.

(** What a handler does to the world, in the order it does it. *)
Inductive event :=
| LedgerUpdate (file_path row_index : pyval) (succeeded : bool)
| SendEmail (to_email : pyval) (subject : string) (outcome : result bool)
| ErrorBox (message : string)
| CloseWindow
| RefreshList
| NextReminder.

Definition wrap_up : list event := [CloseWindow; RefreshList; NextReminder].

Section Handlers.
Variable now_date : string.
Variable str_of : pyval → string.
Variable float_of_str : string → option PrimFloat.float.
(** [self.email_notifier] *)
Variable email_notifier : option notifier.

(** Lines 453-464 and 494-507: the notification, when there is a notifier and
    the entry has a truthy Email. *)
Definition notify (entry : gmap string pyval) (subject body : string)
  : list event :=
  match email_notifier with
  | Some n =>
      let email := dict_get entry "Email" PNone in
      if truthy email
      then [SendEmail email subject (send_email n email subject body None)]
      else []
  | None => []
  end.

(** [mark_as_paid] (lines 435-476): the disk afterwards and the events. *)
Definition mark_as_paid (disk : string → file_state)
    (entry : gmap string pyval) (amount_paid : string)
  : (string → file_state) * list event :=
  match float_of_str amount_paid with
  | None => (disk, [ErrorBox "Please enter a valid amount."])
  | Some amount =>
      match dict_item entry "file_path", dict_item entry "row_index" with
      | Ok file_path, Ok row_index =>
          let '(ok, disk') :=
            LedgerWriter.update_payment now_date str_of disk file_path
              row_index (PFloat amount) (Some "Paid") PNone None in
          let subject := "Payment Confirmation" in
          let body :=
            ("Dear " ++ str_of (dict_get entry "Name" PNone) ++ "," ++ nl ++ nl
             ++ "This is to confirm that we have received your payment of "
             ++ str_of (PFloat amount) ++ "." ++ nl
             ++ "Thank you for your prompt payment." ++ nl ++ nl
             ++ "Best regards," ++ nl ++ "Payment Reminder App")%string in
          (disk', LedgerUpdate file_path row_index ok
                    :: (notify entry subject body ++ wrap_up)%list)
      | _, _ => (disk, [ErrorBox "Failed to mark payment as paid"])
      end
  end.

(** [reschedule_payment] (lines 478-519); [new_date] is the date the picker
    holds and [formatted_date] its [strftime("%Y-%m-%d")]. *)
Definition reschedule_payment (disk : string → file_state)
    (entry : gmap string pyval) (new_date : Z) (formatted_date : string)
    (remark : string) : (string → file_state) * list event :=
  match dict_item entry "file_path", dict_item entry "row_index" with
  | Ok file_path, Ok row_index =>
      let '(ok, disk') :=
        LedgerWriter.update_payment now_date str_of disk file_path row_index
          (dict_get entry "Amount" PNone) (Some "Rescheduled")
          (PDate new_date) (Some remark) in
      let subject := "Payment Rescheduled" in
      let body :=
        ("Dear " ++ str_of (dict_get entry "Name" PNone) ++ "," ++ nl ++ nl
         ++ "Your payment of " ++ str_of (dict_get entry "Amount" PNone)
         ++ " has been rescheduled to " ++ formatted_date ++ "." ++ nl
         ++ (if String.eqb remark "" then ""
             else "Note: " ++ remark ++ nl ++ nl)
         ++ "Thank you for your cooperation." ++ nl ++ nl
         ++ "Best regards," ++ nl ++ "Payment Reminder App")%string in
      (disk', LedgerUpdate file_path row_index ok
                :: (notify entry subject body ++ wrap_up)%list)
  | _, _ => (disk, [ErrorBox "Failed to reschedule payment"])
  end.
End Handlers.

End UIHandler.

(** ** Vocabulary of the statements *)

Module Spec.
Import ReminderEngine.

(** An entry is settled when its Status reads "paid" in any letter case. *)
Definition is_paid (entry : gmap string pyval) : bool :=
  match dict_get entry "Status" (PStr "") with
  | PStr s => String.eqb (lower s) "paid"
  | _ => false
  end.

(** The calendar day an entry is due, when the engine can work one out. *)
Definition due_day (to_datetime : string → option Z)
    (entry : gmap string pyval) : option Z :=
  match dict_get entry "Due Date" PNone with
  | PDate d | PDatetime d _ => Some d
  | PStr s => if String.eqb s "" then None else to_datetime s
  | _ => None
  end.

(** An entry as the due-list and the upcoming-list carry it. *)
Definition due_entry (today : Z) (entry : gmap string pyval) (d : Z)
  : gmap string pyval :=
  <["priority" := PStr (priority_of (today - d))]>
    (<["days_overdue" := PInt (today - d)]> entry).

Definition upcoming_entry (today : Z) (entry : gmap string pyval) (d : Z)
  : gmap string pyval :=
  <["days_until_due" := PInt (d - today)]> entry.

(** What the reader leaves under "Due Date" for a cell. *)
Definition cleaned_due_date (to_datetime : string → option Z) (v : pyval)
  : pyval :=
  match v with
  | PStr s =>
      match to_datetime s with
      | Some d => PDate d
      | None => v
      end
  | PDatetime d _ => PDate d
  | _ => v
  end.

(** A Status cell that is blank: falsy (None, the empty string, zero) or NaN. *)
Definition blank (v : pyval) : bool := negb (truthy v) || isna v.

(** The Status cell of a row, as the reader finds it: the empty string the
    reader fills in when the sheet has no Status column. *)
Definition raw_status (df : dataframe) (r : gmap string pyval) : pyval :=
  if ExcelManager.has_column df "Status" then ExcelManager.cell r "Status"
  else PStr "".

(** The statuses the specification names, in any letter case. *)
Definition recognized_status (v : pyval) : bool :=
  match v with
  | PStr s =>
      bool_decide (lower s ∈ ["unpaid"; "partial"; "paid"; "rescheduled"])
  | _ => false
  end.

(** An entry with another Status string. *)
Definition with_status (s : string) (entry : gmap string pyval)
  : gmap string pyval :=
  <["Status" := PStr s]> entry.

(** Two entries stand for the same row of the same ledger. *)
Definition same_record (a b : gmap string pyval) : Prop :=
  a !! "file_path" = b !! "file_path" ∧ a !! "row_index" = b !! "row_index".

(** A source the reader fails on: the path holds nothing it can open, or the
    sheet lacks a required column. *)
Definition read_fails (disk : string → file_state) (file_path : string)
  : Prop :=
  disk file_path = NoFile
  ∨ disk file_path = Unreadable
  ∨ ∃ df col, disk file_path = Workbook df
              ∧ col ∈ ExcelManager.required_columns ∧ col ∉ columns df.

(** The seven counts of a summary, in the order of the dict. *)
Definition counts (s : summary) : list Z :=
  [total_payments s; paid_payments s; partial_payments s; unpaid_payments s;
   overdue_payments s; due_today s; upcoming_payments s].

(** The amount the summary loop adds for an entry, if it adds one, and
    whether the loop body raises on the entry. *)
Definition added_amount (float_of_str : string → option PrimFloat.float)
    (entry : gmap string pyval) : option PrimFloat.float :=
  match py_lower (dict_get entry "Status" (PStr "")) with
  | Ok status =>
      if String.eqb status "paid" then None
      else
        match py_float float_of_str (dict_get entry "Amount" (PInt 0)) with
        | Ok amount => Some amount
        | Raise _ => None
        end
  | Raise _ => None
  end.

Definition body_raises (to_datetime : string → option Z)
    (float_of_str : string → option PrimFloat.float) (today : Z)
    (entry : gmap string pyval) : bool :=
  match (summary_body to_datetime float_of_str today entry summary0).1 with
  | Raised _ => true
  | _ => false
  end.

(** The amounts the summary loop adds over the entries of one source, in
    row order, up to the entry it raises on. *)
Fixpoint added_amounts (to_datetime : string → option Z)
    (float_of_str : string → option PrimFloat.float) (today : Z)
    (entries : list (gmap string pyval)) : list PrimFloat.float :=
  match entries with
  | [] => []
  | entry :: rest =>
      (option_list (added_amount float_of_str entry)
       ++ (if body_raises to_datetime float_of_str today entry then []
           else added_amounts to_datetime float_of_str today rest))%list
  end.


(** The amounts of the entries that are not settled, in row order: what the
    specification sums into total_amount_due. *)
Definition unsettled_amounts
    (float_of_str : string → option PrimFloat.float)
    (entries : list (gmap string pyval)) : list PrimFloat.float :=
  omap (λ entry,
          if is_paid entry then None
          else
            match py_float float_of_str (dict_get entry "Amount" (PInt 0)) with
            | Ok amount => Some amount
            | Raise _ => None
            end) entries.

Definition float_sum (xs : list PrimFloat.float) (start : PrimFloat.float)
  : PrimFloat.float :=
  fold_left PrimFloat.add xs start.

(** A [SendEmail] or a [LedgerUpdate] event. *)
Definition is_send (e : UIHandler.event) : bool :=
  match e with
  | UIHandler.SendEmail _ _ _ => true
  | _ => false
  end.

Definition is_update (e : UIHandler.event) : bool :=
  match e with
  | UIHandler.LedgerUpdate _ _ _ => true
  | _ => false
  end.

End Spec.
Export Spec.

(** ** The scenario of the specification, and other concrete ledgers *)

Module Scenario.
Import ReminderEngine.

(** [date(y, m, d).toordinal()] *)
Definition toordinal (y m d : Z) : Z :=
  let y' := y - 1 in
  let leap := (y mod 4 =? 0) && (negb (y mod 100 =? 0) || (y mod 400 =? 0)) in
  let before_month :=
    nth (Z.to_nat (m - 1))
      [0; 31; 59; 90; 120; 151; 181; 212; 243; 273; 304; 334] 0
    + (if leap && (2 <? m) then 1 else 0) in
  y' * 365 + y' / 4 - y' / 100 + y' / 400 + before_month + d.

(** A parser that knows no date format and one that knows no number: the
    cells below hold dates and floats already. *)
Definition no_dates (s : string) : option Z := None.
Definition no_floats (s : string) : option PrimFloat.float := None.

Definition row (name : string) (amount : PrimFloat.float) (due : pyval)
    (status : pyval) : gmap string pyval :=
  <["Name" := PStr name]> (<["Amount" := PFloat amount]>
    (<["Due Date" := due]> (<["Status" := status]> ∅))).

Definition sheet (rs : list (gmap string pyval)) : dataframe :=
  DataFrame ["Name"; "Amount"; "Due Date"; "Status"] rs.

Definition today : Z := toordinal 2024 3 15.

(** The four records of the specification's scenario. *)
Definition alice :=
  row "Alice" 100 (PDate (toordinal 2024 2 10)) (PStr "Unpaid").
Definition bob :=
  row "Bob" 50 (PDate (toordinal 2024 3 15)) (PStr "Unpaid").
Definition carol :=
  row "Carol" 75 (PDate (toordinal 2024 3 20)) (PStr "Unpaid").
Definition dana :=
  row "Dana" 30 (PDate (toordinal 2024 1 1)) (PStr "Paid").

Definition ledger : dataframe := sheet [alice; bob; carol; dana].

(** A ledger whose first row has a blank Due Date cell (NaN), one whose row
    has a status outside the specification's four, one with no Amount
    column, and two ledgers of amounts in cents. *)
Definition erin := row "Erin" 100 (PFloat nan) (PStr "Unpaid").
Definition blank_due_ledger : dataframe := sheet [erin; bob].

Definition frank :=
  row "Frank" 20 (PDate (toordinal 2024 3 1)) (PStr "Pending").
Definition pending_ledger : dataframe := sheet [frank].

Definition headless_ledger : dataframe :=
  DataFrame ["Name"; "Due Date"; "Status"] [alice].

Definition cents_a : dataframe :=
  sheet [row "Gita" 0.1 (PDate (toordinal 2024 3 1)) (PStr "Unpaid")].
Definition cents_b : dataframe :=
  sheet [row "Hari" 0.2 (PDate (toordinal 2024 3 2)) (PStr "Unpaid");
         row "Indu" 0.3 (PDate (toordinal 2024 3 3)) (PStr "Unpaid")].

Definition disk (file_path : string) : file_state :=
  if String.eqb file_path "pune.xlsx" then Workbook ledger
  else if String.eqb file_path "blank.xlsx" then Workbook blank_due_ledger
  else if String.eqb file_path "pending.xlsx" then Workbook pending_ledger
  else if String.eqb file_path "headless.xlsx" then Workbook headless_ledger
  else if String.eqb file_path "a.xlsx" then Workbook cents_a
  else if String.eqb file_path "b.xlsx" then Workbook cents_b
  else if String.eqb file_path "broken.xlsx" then Unreadable
  else NoFile.

Definition sources : list (string * string) := [("pune.xlsx", "Pune")].

(** A row as the reader hands it to the engine. *)
Definition read (i : Z) (r : gmap string pyval) : gmap string pyval :=
  <["file_path" := PStr "pune.xlsx"]> (<["row_index" := PInt i]>
    (<["city" := PStr "Pune"]> (<["Email" := PStr ""]>
      (<["Remarks" := PStr ""]> (<["Payment Date" := PStr ""]> r))))).

Definition alice_due : gmap string pyval :=
  <["days_overdue" := PInt 34]> (<["priority" := PStr "High"]> (read 0 alice)).
Definition bob_due : gmap string pyval :=
  <["days_overdue" := PInt 0]> (<["priority" := PStr "Low"]> (read 1 bob)).
Definition carol_upcoming : gmap string pyval :=
  <["days_until_due" := PInt 5]> (read 2 carol).

(** A reminder window left open on a row of a ledger that is gone from the
    disk by the time the button is pressed, and a working notifier. *)
Definition stale_entry : gmap string pyval :=
  <["file_path" := PStr "gone.xlsx"]> (<["row_index" := PInt 0]>
    (<["Email" := PStr "alice@example.com"]> alice)).

Definition mailer : EmailNotifier.notifier :=
  EmailNotifier.Notifier true "Our Company" (λ _, true).

Definition show (v : pyval) : string :=
  match v with
  | PStr s => s
  | _ => "?"
  end.

Definition typed_amount (s : string) : option PrimFloat.float :=
  if String.eqb s "100" then Some 100%float else None.

End Scenario.

(** ** Vocabulary of the further statements *)

Module Reach.
Import ReminderEngine.

(** Whether the body of the due scan, or of the upcoming scan, raises on an
    entry (what it raises on does not depend on the list collected so far). *)
Definition due_raises (to_datetime : string → option Z) (today : Z)
    (entry : gmap string pyval) : bool :=
  match (due_body to_datetime today entry []).1 with
  | Raised _ => true
  | _ => false
  end.


(** The counters of a summary are consistent: none is negative, every
    status count is part of the total, and every date bucket is part of the
    unsettled (partial or unpaid) count. *)
Definition consistent (s : summary) : Prop :=
  0 ≤ paid_payments s ∧ 0 ≤ partial_payments s ∧ 0 ≤ unpaid_payments s
  ∧ 0 ≤ overdue_payments s ∧ 0 ≤ due_today s ∧ 0 ≤ upcoming_payments s
  ∧ paid_payments s + partial_payments s + unpaid_payments s
    ≤ total_payments s
  ∧ overdue_payments s + due_today s + upcoming_payments s
    ≤ partial_payments s + unpaid_payments s.

(** What working out the due date of an entry comes to: the day, a skip
    (nothing there, or a string that does not parse), or the TypeError of
    ordering a number against a date. *)
Definition due_outcome (to_datetime : string → option Z)
    (entry : gmap string pyval) : outcome Z :=
  match dict_get entry "Due Date" PNone with
  | PNone => Continue
  | PInt z => if Z.eqb z 0 then Continue else Raised TypeError
  | PFloat f =>
      if PrimFloat.eqb f PrimFloat.zero then Continue else Raised TypeError
  | PStr s =>
      if String.eqb s "" then Continue
      else
        match to_datetime s with
        | Some d => Next d
        | None => Continue
        end
  | PDate d | PDatetime d _ => Next d
  end.

(** The status branch and the date branch of the summary loop. *)
Definition status_effect (float_of_str : string → option PrimFloat.float)
    (status : string) (entry : gmap string pyval) (s : summary)
  : outcome unit * summary :=
  if String.eqb status "paid" then (Next (), incr_paid s)
  else
    let s := if String.eqb status "partial" then incr_partial s
             else incr_unpaid s in
    match py_float float_of_str (dict_get entry "Amount" (PInt 0)) with
    | Ok amount => (Next (), add_amount amount s)
    | Raise x => (Raised x, s)
    end.

Definition date_bucket (today : Z) (status : string) (d : Z) (s : summary)
  : summary :=
  let unsettled := negb (String.eqb status "paid") in
  if (d <? today) && unsettled then incr_overdue s
  else if (d =? today) && unsettled then incr_due_today s
  else if (today <? d) && unsettled then incr_upcoming s
  else s.

(** A Due Date that is a number other than zero: what a blank cell of a
    text column reads as (NaN), truthy and no date. *)
Definition numeric_due_date (entry : gmap string pyval) : bool :=
  match dict_get entry "Due Date" PNone with
  | PFloat f => negb (PrimFloat.eqb f PrimFloat.zero)
  | PInt z => negb (Z.eqb z 0)
  | _ => false
  end.

(** The reminders the counters of a summary announce. *)
Definition due_count (s : summary) : Z := overdue_payments s + due_today s.

(** No row of a listed, readable source makes the summary loop raise. *)
Definition clean_sources (to_datetime : string → option Z)
    (float_of_str : string → option PrimFloat.float)
    (disk : string → file_state) (today : Z)
    (srcs : list (string * string)) : Prop :=
  ∀ file_path city_name es e,
    (file_path, city_name) ∈ srcs →
    ExcelManager.get_payment_entries to_datetime disk file_path
      (Some city_name) = Ok es →
    e ∈ es →
    body_raises to_datetime float_of_str today e = false.

(** Row [i] of a sheet holds [v] under the column [col]. *)
Definition holds (col : string) (v : pyval) (i : nat) (df : dataframe)
  : Prop :=
  ExcelManager.has_column df col = true
  ∧ ∃ r, rows df !! i = Some r ∧ ExcelManager.cell r col = v.

(** [df'] is [df] with cells of row [i] rewritten and, possibly, columns
    added: the same number of rows, every other row as it was, no column
    lost. *)
Definition row_edit (i : nat) (df df' : dataframe) : Prop :=
  length (rows df') = length (rows df)
  ∧ (∀ j, j ≠ i → rows df' !! j = rows df !! j)
  ∧ (∀ c, c ∈ columns df → c ∈ columns df').

End Reach.
Export Reach.

(** ** The log line *)

Module LogWriter.
Import LedgerWriter.

(** [append_log] (lines 162-164); [timestamp] is
    [datetime.now().strftime('%Y-%m-%d %H:%M')]. *)
Definition append_log (now_date : string) (str_of : pyval → string)
    (timestamp : string) (disk : string → file_state)
    (file_path row_index : pyval) (log_message : string)
  : bool * (string → file_state) :=
  let log_entry := ("[" ++ timestamp ++ "] " ++ log_message)%string in
  update_payment now_date str_of disk file_path row_index PNone None PNone
    (Some log_entry).

End LogWriter.

(** ** Rows and events *)

Module Rows.

(** The row of a ledger an entry stands for: the two keys the reader adds
    and the handlers hand back to [update_payment]. *)
Definition row_of (a : gmap string pyval) (p : string) (i : Z) : Prop :=
  a !! "file_path" = Some (PStr p) ∧ a !! "row_index" = Some (PInt i).

(** The events of a handler other than the ledger update itself. *)
Definition after_update (evs : list UIHandler.event) : list UIHandler.event :=
  filter (λ e, is_update e = false) evs.

End Rows.
Import Rows.

(** ** Paths *)

Module Paths.

(** [c in s], [s.endswith(t)] and [s.startswith(t)]. *)
Fixpoint has_char (c : ascii) (s : string) : bool :=
  match s with
  | EmptyString => false
  | String a s' => Ascii.eqb a c || has_char c s'
  end.

Fixpoint endswith (s t : string) : bool :=
  String.eqb s t
  || match s with
     | EmptyString => false
     | String _ s' => endswith s' t
     end.

Fixpoint startswith (s t : string) : bool :=
  match t with
  | EmptyString => true
  | String b t' =>
      match s with
      | EmptyString => false
      | String a s' => Ascii.eqb a b && startswith s' t'
      end
  end.

(** [s[:i]] and [s[i+1:]] for [i = s.rfind(c)], when [c] is in [s]. *)
Fixpoint rsplit (c : ascii) (s : string) : option (string * string) :=
  match s with
  | EmptyString => None
  | String a s' =>
      match rsplit c s' with
      | Some (h, t) => Some (String a h, t)
      | None => if Ascii.eqb a c then Some (EmptyString, s') else None
      end
  end.

(** [s == c * len(s)] and [s.rstrip(c)]. *)
Fixpoint all_char (c : ascii) (s : string) : bool :=
  match s with
  | EmptyString => true
  | String a s' => Ascii.eqb a c && all_char c s'
  end.

Fixpoint rstrip (c : ascii) (s : string) : string :=
  match s with
  | EmptyString => EmptyString
  | String a s' =>
      match rstrip c s' with
      | EmptyString => if Ascii.eqb a c then EmptyString else String a EmptyString
      | r => String a r
      end
  end.

(** [os.path.join(a, b)], [os.path.split(p)], [os.path.dirname(p)],
    [os.path.basename(p)] and [os.path.splitext(p)] of [posixpath]. *)
Definition join (a b : string) : string :=
  if startswith b "/" then b
  else if String.eqb a "" || endswith a "/" then (a ++ b)%string
  else (a ++ "/" ++ b)%string.

Definition split (p : string) : string * string :=
  match rsplit "/" p with
  | Some (h, t) =>
      let head := (h ++ "/")%string in
      (if all_char "/" head then head else rstrip "/" head, t)
  | None => (EmptyString, p)
  end.

Definition dirname (p : string) : string := (split p).1.
Definition basename (p : string) : string := (split p).2.


End Paths.

(** ** The file manager *)

Module FileManager.
Import Paths.

(** The file system as the manager sees it: [os.path.exists],
    [os.path.isdir], and the names [os.listdir] gives for a directory. *)
Record filesystem := FileSystem {
  path_exists : string → bool;
  isdir : string → bool;
  entries : string → list string
}.

(** [os.listdir(p)]: anything but a directory raises. *)
Definition listdir (fs : filesystem) (p : string) : result (list string) :=
  if isdir fs p then Ok (entries fs p) else Raise OSError.

(** [filename.endswith(('.xlsx', '.xls'))] *)
Definition is_excel_name (filename : string) : bool :=
  endswith filename ".xlsx" || endswith filename ".xls".

Section Manager.
Variable base_folder : string.
Variable fs : filesystem.

(** The inner loop of [list_all_files] (lines 104-107). *)
Definition city_entries (city_path city_name : string) (names : list string)
  : list (string * string) :=
  (λ filename, (join city_path filename, city_name))
    <$> List.filter is_excel_name names.

(** The outer loop (lines 96-107). *)
Fixpoint scan_cities (cities : list string) (acc : list (string * string))
  : result (list (string * string)) :=
  match cities with
  | [] => Ok acc
  | city_name :: rest =>
      let city_path := join base_folder city_name in
      if negb (isdir fs city_path) then scan_cities rest acc
      else
        names ← listdir fs city_path;
        scan_cities rest (acc ++ city_entries city_path city_name names)%list
  end.

Definition list_all_files : result (list (string * string)) :=
  if negb (path_exists fs base_folder) then Ok []
  else
    cities ← listdir fs base_folder;
    scan_cities cities [].

Definition get_city_files (city_name : string) : result (list string) :=
  let city_folder := join base_folder city_name in
  if negb (path_exists fs city_folder) then Ok []
  else
    names ← listdir fs city_folder;
    Ok (join city_folder <$> List.filter is_excel_name names).

Definition list_all_cities : result (list string) :=
  if negb (path_exists fs base_folder) then Ok []
  else
    items ← listdir fs base_folder;
    Ok (List.filter (λ item, isdir fs (join base_folder item)) items).

End Manager.

(** A file system whose directory listings are what [os.listdir] gives:
    names that are not empty and hold no separator; and where a directory
    exists. *)
Definition listing_names (fs : filesystem) : Prop :=
  ∀ p name, name ∈ entries fs p → name ≠ "" ∧ has_char "/" name = false.

Definition dirs_exist (fs : filesystem) : Prop :=
  ∀ p, isdir fs p = true → path_exists fs p = true.

(** The list a call returned, or nothing when it raised. *)
Definition returned {A} (r : result (list A)) : list A :=
  match r with
  | Ok l => l
  | Raise _ => []
  end.

End FileManager.

(** ** The list view and the reminder queue *)

Module ListView.
Import Paths ExcelManager.

(** What [os.path.dirname] is handed in the list view: a path, or an item
    of [list_all_files], which is a pair and no path. *)
Inductive patharg :=
| APath (p : string)
| AItem (item : string * string).

Definition os_path_dirname (x : patharg) : result string :=
  match x with
  | APath p => Ok (dirname p)
  | AItem _ => Raise TypeError
  end.

Inductive view_event :=
| ClearTree
| InsertRow (entry : gmap string pyval)
| StatusBar (shown : nat)
| ErrorBox (message : string).

(** [t in s] *)
Fixpoint contains (s t : string) : bool :=
  startswith s t
  || match s with
     | EmptyString => false
     | String _ s' => contains s' t
     end.

(** [isinstance(value, (str, int, float))] and [v == s] for a str [s]. *)
Definition is_scalar (v : pyval) : bool :=
  match v with
  | PStr _ | PInt _ | PFloat _ => true
  | _ => false
  end.

Definition is_str (v : pyval) (s : string) : bool :=
  match v with
  | PStr c => String.eqb c s
  | _ => false
  end.

Section View.
Variable to_datetime : string → option Z.
Variable disk : string → file_state.
Variable str_of : pyval → string.

Section Filters.
(** [self.search_var.get()], [self.city_filter_var.get()] and
    [self.status_filter_var.get()]. *)
Variable search_var city_filter status_filter : string.

Definition search_hit (search_term : string) (entry : gmap string pyval)
  : bool :=
  existsb (λ kv : string * pyval,
             is_scalar kv.2 && contains (lower (str_of kv.2)) search_term)
    (map_to_list entry).

(** Whether the loop of [filter_entries] goes on to the next entry (lines
    282-295). *)
Definition skipped (entry : gmap string pyval) : bool :=
  let search_term := lower search_var in
  if negb (String.eqb search_term "") && negb (search_hit search_term entry)
  then true
  else if negb (String.eqb city_filter "All")
          && negb (is_str (dict_get entry "city" PNone) city_filter)
  then true
  else if negb (String.eqb status_filter "All") then
    if String.eqb status_filter "Paid"
       && negb (is_str (dict_get entry "Status" (PStr "")) "Paid")
    then true
    else if String.eqb status_filter "Unpaid"
            && is_str (dict_get entry "Status" (PStr "")) "Paid"
    then true
    else false
  else false.

Definition filter_entries (entries : list (gmap string pyval))
  : list (gmap string pyval) :=
  List.filter (λ entry, negb (skipped entry)) entries.

(** Lines 247-251: the three keys written over; [entries.index(entry)] is
    the position of the entry, whose row_index sets it apart from the
    entries before it. *)
Definition relabel (city file_path : string)
    (entries : list (gmap string pyval)) : list (gmap string pyval) :=
  imap (λ i entry,
          <["row_index" := PInt (Z.of_nat i)]>
            (<["file_path" := PStr file_path]>
               (<["city" := PStr city]> entry))) entries.

(** The body of [for file_path in file_paths] (lines 242-253); a pair
    handed to [pd.read_excel] would raise as well. *)
Definition gather_from (all_entries : list (gmap string pyval))
    (file_path : patharg) : result (list (gmap string pyval)) :=
  d ← os_path_dirname file_path;
  let city := basename d in
  match file_path with
  | APath p =>
      entries ← get_payment_entries to_datetime disk p None;
      Ok (all_entries ++ relabel city p entries)%list
  | AItem _ => Raise TypeError
  end.

Fixpoint gather (file_paths : list patharg)
    (all_entries : list (gmap string pyval))
  : result (list (gmap string pyval)) :=
  match file_paths with
  | [] => Ok all_entries
  | file_path :: rest =>
      all_entries ← gather_from all_entries file_path;
      gather rest all_entries
  end.

(** [update_list_view] (lines 228-271), given what [list_all_files]
    returned. *)
Definition update_list_view (file_paths : list patharg) : list view_event :=
  ClearTree
  :: match gather file_paths [] with
     | Ok all_entries =>
         let filtered_entries := filter_entries all_entries in
         ((InsertRow <$> filtered_entries)
          ++ [StatusBar (length filtered_entries)])%list
     | Raise _ => [ErrorBox "Failed to update list"]
     end.
End Filters.

(** [update_city_filter_combo] (lines 206-215): the values of the combo
    box afterwards ([list(set(cities))] in the order of first occurrence;
    a set gives them in an order of its own). *)
Definition update_city_filter_combo (file_paths : list patharg)
    (values : list string) : list string :=
  match mapM (λ file, d ← os_path_dirname file; Ok (basename d))
          file_paths with
  | Ok cities => "All" :: remove_dups cities
  | Raise _ => values
  end.

(** The city written over each reminder (ui_handler.py lines 311-314,
    main.py lines 153-156). *)
Definition with_city (payment : gmap string pyval)
  : result (gmap string pyval) :=
  file_path ← dict_item payment "file_path";
  match file_path with
  | PStr p =>
      d ← os_path_dirname (APath p);
      Ok (<["city" := PStr (basename d)]> payment)
  | _ => Raise TypeError
  end.

(** [check_due_payments] (lines 301-320) up to the queue of reminders it
    leaves in [pending_reminders]; the same steps are in
    [check_due_payments_on_startup]. *)
Definition queue_reminders (today : Z) (files : list (string * string))
  : result (option (list (gmap string pyval))) :=
  let due_payments :=
    ReminderEngine.get_due_payments to_datetime disk today files in
  match due_payments with
  | [] => Ok None
  | _ =>
      queue ← mapM with_city due_payments;
      Ok (Some queue)
  end.
End View.

End ListView.

(** ** The writer and the handlers at the desk *)

Module Desk.
Import LedgerWriter.

Definition now : string := "2024-03-15".

(** A ledger with a Remarks column, and the disk that holds it. *)
Definition noted_ledger : dataframe :=
  DataFrame ["Name"; "Amount"; "Due Date"; "Status"; "Remarks"]
    [<["Remarks" := PStr "called"]> Scenario.alice; Scenario.bob].

Definition disk : string → file_state :=
  <["noted.xlsx" := Workbook noted_ledger]> Scenario.disk.

(** Alice pays 40 of her 100, and she pays all of it. *)
Definition part_paid : bool * (string → file_state) :=
  update_payment now Scenario.show Scenario.disk (PStr "pune.xlsx") (PInt 0)
    (PFloat 40) None PNone None.

Definition paid_up : bool * (string → file_state) :=
  update_payment now Scenario.show Scenario.disk (PStr "pune.xlsx") (PInt 0)
    (PFloat 100) None PNone None.

(** A second remark on the row that has one. *)
Definition noted : bool * (string → file_state) :=
  update_payment now Scenario.show disk (PStr "noted.xlsx") (PInt 0) PNone
    None PNone (Some "promised Friday").

(** The amount typed into the reminder window. *)
Definition typed_amount (s : string) : option PrimFloat.float :=
  if String.eqb s "40" then Some 40%float else None.

End Desk.

(** ** A shelf of stored files *)

Module Shelf.
Import FileManager.

Definition base_folder : string := "payment_data".

Definition names (p : string) : list string :=
  if String.eqb p "payment_data" then ["Pune"; "notes.txt"]
  else if String.eqb p "payment_data/Pune"
  then ["ledger.xlsx"; "old.XLSX"; "readme.md"]
  else [].

Definition is_folder (p : string) : bool :=
  String.eqb p "payment_data" || String.eqb p "payment_data/Pune".

Definition fs : filesystem :=
  FileSystem
    (λ p, is_folder p
          || bool_decide (p ∈ ["payment_data/notes.txt";
                               "payment_data/Pune/ledger.xlsx";
                               "payment_data/Pune/old.XLSX";
                               "payment_data/Pune/readme.md";
                               "inbox/march.XLSX"]))
    is_folder names.

Definition files : list (string * string) :=
  [("payment_data/Pune/ledger.xlsx", "Pune")].

(** The ledger of the scenario, stored on the shelf. *)
Definition disk (file_path : string) : file_state :=
  if String.eqb file_path "payment_data/Pune/ledger.xlsx"
  then Workbook Scenario.ledger
  else NoFile.

End Shelf.

(** ** Input order *)

Module Order.

(** Input order of two rows, each given by the position of its source in
    the list handed to the scan and its position in the sheet: an earlier
    source, or an earlier row of the same source. *)
Definition input_before (o o' : nat * nat) : Prop :=
  (o.1 < o'.1)%nat ∨ (o.1 = o'.1 ∧ (o.2 < o'.2)%nat).

(** The entry [e] the reader returns for the row at position [o.2] of the
    sheet of the source at position [o.1] of [srcs]. *)
Definition read_at (to_datetime : string → option Z)
    (disk : string → file_state) (srcs : list (string * string))
    (o : nat * nat) (e : gmap string pyval) : Prop :=
  ∃ file_path city_name df es,
    srcs !! o.1 = Some (file_path, city_name)
    ∧ disk file_path = Workbook df
    ∧ is_Some (rows df !! o.2)
    ∧ ExcelManager.get_payment_entries to_datetime disk file_path
        (Some city_name) = Ok es
    ∧ es !! o.2 = Some e.

(** The entry [a] of the due-list was made of the row at [o]. *)
Definition due_origin (to_datetime : string → option Z)
    (disk : string → file_state) (today : Z) (srcs : list (string * string))
    (a : gmap string pyval) (o : nat * nat) : Prop :=
  ∃ e d, read_at to_datetime disk srcs o e
         ∧ due_day to_datetime e = Some d
         ∧ a = due_entry today e d.

(** Two turns of a list scan that go the same way: the same outcome, and
    the list left as it was by both, or one entry appended by each, made for
    the same day. *)
Definition same_turn (acc : list (gmap string pyval))
    (made made' : Z → gmap string pyval)
    (r r' : outcome unit * list (gmap string pyval)) : Prop :=
  r.1 = r'.1
  ∧ ((r.2 = acc ∧ r'.2 = acc)
     ∨ ∃ d, r.2 = (acc ++ [made d])%list ∧ r'.2 = (acc ++ [made' d])%list).

(** The same for an entry of the upcoming-list. *)
Definition upcoming_origin (to_datetime : string → option Z)
    (disk : string → file_state) (today : Z) (srcs : list (string * string))
    (a : gmap string pyval) (o : nat * nat) : Prop :=
  ∃ e d, read_at to_datetime disk srcs o e
         ∧ due_day to_datetime e = Some d
         ∧ a = upcoming_entry today e d.

End Order.
Import Order.

(** ** A ledger with its dates typed as text *)

Module TextDates.

(** [pd.to_datetime] on the one date the ledger holds. *)
Definition iso_dates (s : string) : option Z :=
  if String.eqb s "2024-03-15" then Some (Scenario.toordinal 2024 3 15)
  else None.

(** The Due Date column is text, so its blank cell reads as NaN. *)
Definition erin :=
  Scenario.row "Erin" 100 (PFloat nan) (PStr "Unpaid").
Definition bob :=
  Scenario.row "Bob" 50 (PStr "2024-03-15") (PStr "Unpaid").

Definition disk (file_path : string) : file_state :=
  if String.eqb file_path "blank_first.xlsx"
  then Workbook (Scenario.sheet [erin; bob])
  else if String.eqb file_path "blank_last.xlsx"
  then Workbook (Scenario.sheet [bob; erin])
  else NoFile.

End TextDates.

(** ** A ledger with two rows due on the same day *)

Module Ties.

Definition first :=
  Scenario.row "First" 10 (PDate (Scenario.toordinal 2024 3 1)) (PStr "Unpaid").
Definition second :=
  Scenario.row "Second" 20 (PDate (Scenario.toordinal 2024 3 1))
    (PStr "Unpaid").
Definition third :=
  Scenario.row "Third" 30 (PDate (Scenario.toordinal 2024 2 1)) (PStr "Unpaid").

Definition disk (file_path : string) : file_state :=
  if String.eqb file_path "ties.xlsx"
  then Workbook (Scenario.sheet [first; second; third])
  else NoFile.

(** A row of ties.xlsx as the due-list carries it. *)
Definition listed (i days : Z) (priority : string) (r : gmap string pyval)
  : gmap string pyval :=
  <["days_overdue" := PInt days]> (<["priority" := PStr priority]>
    (<["file_path" := PStr "ties.xlsx"]> (<["row_index" := PInt i]>
      (<["city" := PStr "Pune"]> (<["Email" := PStr ""]>
        (<["Remarks" := PStr ""]> (<["Payment Date" := PStr ""]> r))))))).

End Ties.

(** * Properties *)

(** ** The sort *)

Section SortFacts.
Context {A : Type} (key : A → Z) (reverse : bool).

Lemma sort_before_true x y : sort_before key reverse x y = true → in_order key reverse x y.
Proof. unfold sort_before, in_order. destruct reverse; lia. Qed.

Lemma sort_before_false x y :
  sort_before key reverse x y = false → in_order key reverse y x ∧ key x ≠ key y.
Proof. unfold sort_before, in_order. destruct reverse; lia. Qed.

Lemma in_order_trans x y z : in_order key reverse x y → in_order key reverse y z → in_order key reverse x z.
Proof. unfold in_order. destruct reverse; lia. Qed.

Lemma insert_sorted_perm x l :
  insert_sorted (sort_before key reverse) x l ≡ₚ x :: l.
Proof.
  induction l as [|y l IH]; simpl; [done|].
  destruct (sort_before key reverse x y); [done|].
  rewrite IH. apply Permutation_swap.
Qed.

Lemma list_sort_perm l : list_sort key reverse l ≡ₚ l.
Proof.
  induction l as [|x l IH]; simpl; [done|].
  unfold list_sort in *. simpl. rewrite insert_sorted_perm. by rewrite IH.
Qed.

Lemma insert_sorted_sorted x l :
  StronglySorted (in_order key reverse) l →
  StronglySorted (in_order key reverse) (insert_sorted (sort_before key reverse) x l).
Proof.
  induction 1 as [|y l Hl IH Hy]; simpl.
  - repeat constructor.
  - destruct (sort_before key reverse x y) eqn:E.
    + apply sort_before_true in E. constructor.
      * by constructor.
      * constructor; [done|].
        eapply Forall_impl; [exact Hy|]. intros z Hz.
        by eapply in_order_trans.
    + apply sort_before_false in E as [E _]. constructor; [done|].
      rewrite insert_sorted_perm. by constructor.
Qed.

Lemma list_sort_sorted l : StronglySorted (in_order key reverse) (list_sort key reverse l).
Proof.
  induction l as [|x l IH]; [constructor|].
  by apply insert_sorted_sorted.
Qed.

(** Stability: the elements of one key keep their order.  An element is
    only moved past elements of a different key. *)
Lemma insert_sorted_filter k x l :
  filter (λ y, key y = k) (insert_sorted (sort_before key reverse) x l)
  = filter (λ y, key y = k) (x :: l).
Proof.
  induction l as [|y l IH]; simpl; [done|].
  destruct (sort_before key reverse x y) eqn:E; [done|].
  apply sort_before_false in E as [_ E].
  rewrite (filter_cons _ y), IH, !(filter_cons _ x), (filter_cons _ y).
  repeat case_decide; congruence.
Qed.

Lemma list_sort_filter k l :
  filter (λ y, key y = k) (list_sort key reverse l)
  = filter (λ y, key y = k) l.
Proof.
  induction l as [|x l IH]; [done|].
  unfold list_sort in *. simpl. rewrite insert_sorted_filter.
  by rewrite !(filter_cons _ x), IH.
Qed.
End SortFacts.

(** ** Loops *)

Section LoopFacts.
Context {St X : Type}.

Lemma for_each_invariant (f : X → body St unit) (I : St → Prop) xs s :
  (∀ x s, x ∈ xs → I s → I (f x s).2) → I s → I (for_each f xs s).2.
Proof.
  revert s. induction xs as [|x xs IH]; intros s Hf Hs; simpl; [done|].
  assert (I (f x s).2) as Hx by (apply Hf; [left|done]).
  destruct (f x s) as [[a| |e] s']; simpl in *; try done.
  all: apply IH; [|done]; intros; apply Hf; [by right|done].
Qed.
End LoopFacts.

Section CollectFacts.
Context {A X : Type} (f : X → body (list A) unit) (R : X → A → Prop).
(** A body that leaves the list alone or appends one element derived from
    its argument. *)
Hypothesis f_appends : ∀ x acc,
  (f x acc).2 = acc ∨ ∃ a, (f x acc).2 = (acc ++ [a])%list ∧ R x a.

Lemma for_each_elem xs acc a :
  a ∈ (for_each f xs acc).2 → a ∈ acc ∨ ∃ x, x ∈ xs ∧ R x a.
Proof.
  revert acc. induction xs as [|x xs IH]; intros acc; simpl; [by left|].
  intros Ha.
  assert (a ∈ (f x acc).2 ∨ ∃ x', x' ∈ xs ∧ R x' a) as [Hx|(x' & ? & ?)].
  { destruct (f x acc) as [[u| |e] acc']; simpl in *; [by apply IH| by apply IH | by left]. }
  - destruct (f_appends x acc) as [E|(b & E & Hb)]; rewrite E in Hx;
      [by left|].
    apply elem_of_app in Hx as [?|Hx]; [by left|].
    apply list_elem_of_singleton in Hx as ->.
    right. exists x. split; [left|done].
  - right. exists x'. split; [by right|done].
Qed.
End CollectFacts.

(** ** The three loop bodies *)

Ltac unfold_body :=
  unfold ReminderEngine.due_body, ReminderEngine.upcoming_body,
    ReminderEngine.summary_body, ReminderEngine.due_date_of,
    mbind, body_bind, mret, body_ret, try_, continue, modify,
    py_lower, as_date, is_paid, due_day in *.

(** Closes [lhs = rhs] between closed terms by evaluating both. *)
Ltac vm_refl :=
  match goal with
  | |- _ = ?r => vm_cast_no_check (eq_refl r)
  end.

Section BodyFacts.
Import ReminderEngine.
Variable to_datetime : string → option Z.
Variable float_of_str : string → option PrimFloat.float.
Variable today : Z.

Lemma due_body_cases entry acc :
  (due_body to_datetime today entry acc).2 = acc
  ∨ ∃ d, due_day to_datetime entry = Some d ∧ d ≤ today
         ∧ is_paid entry = false
         ∧ (due_body to_datetime today entry acc).2
           = (acc ++ [due_entry today entry d])%list.
Proof.
  unfold_body.
  destruct (dict_get entry "Status" (PStr "")) as [| | |s| |]; simpl; auto.
  destruct (String.eqb (lower s) "paid") eqn:Hs; simpl; auto.
  destruct (dict_get entry "Due Date" PNone) as [|z|f|s'|d|d t]; simpl; auto.
  - destruct (negb (Z.eqb z 0)); simpl; auto.
  - destruct (negb (PrimFloat.eqb f PrimFloat.zero)); simpl; auto.
  - destruct (String.eqb s' ""); simpl; auto.
    destruct (to_datetime s') as [d|]; simpl; auto.
    destruct (Z.leb_spec d today); simpl; auto.
    right. exists d. auto.
  - destruct (Z.leb_spec d today); simpl; auto.
    right. exists d. auto.
  - destruct (Z.leb_spec d today); simpl; auto.
    right. exists d. auto.
Qed.

Lemma upcoming_body_cases future_date entry acc :
  (upcoming_body to_datetime today future_date entry acc).2 = acc
  ∨ ∃ d, due_day to_datetime entry = Some d ∧ today < d ≤ future_date
         ∧ is_paid entry = false
         ∧ (upcoming_body to_datetime today future_date entry acc).2
           = (acc ++ [upcoming_entry today entry d])%list.
Proof.
  unfold_body.
  destruct (dict_get entry "Status" (PStr "")) as [| | |s| |]; simpl; auto.
  destruct (String.eqb (lower s) "paid") eqn:Hs; simpl; auto.
  destruct (dict_get entry "Due Date" PNone) as [|z|f|s'|d|d t]; simpl; auto.
  - destruct (negb (Z.eqb z 0)); simpl; auto.
  - destruct (negb (PrimFloat.eqb f PrimFloat.zero)); simpl; auto.
  - destruct (String.eqb s' ""); simpl; auto.
    destruct (to_datetime s') as [d|]; simpl; auto.
    destruct (Z.ltb_spec today d), (Z.leb_spec d future_date); simpl; auto.
    right. exists d. auto.
  - destruct (Z.ltb_spec today d), (Z.leb_spec d future_date); simpl; auto.
    right. exists d. auto.
  - destruct (Z.ltb_spec today d), (Z.leb_spec d future_date); simpl; auto.
    right. exists d. auto.
Qed.

(** The three bodies, written out over [due_outcome]. *)
Lemma due_body_unfold entry acc :
  due_body to_datetime today entry acc
  = match py_lower (dict_get entry "Status" (PStr "")) with
    | Raise x => (Raised x, acc)
    | Ok status =>
        if String.eqb status "paid" then (Continue, acc)
        else
          match due_outcome to_datetime entry with
          | Next d =>
              if d <=? today
              then (Next (), (acc ++ [due_entry today entry d])%list)
              else (Next (), acc)
          | Continue => (Continue, acc)
          | Raised x => (Raised x, acc)
          end
    end.
Proof.
  unfold due_outcome. unfold_body.
  destruct (dict_get entry "Status" (PStr "")) as [| | |s| |]; try reflexivity.
  simpl. destruct (String.eqb (lower s) "paid"); [reflexivity|]. simpl.
  destruct (dict_get entry "Due Date" PNone) as [|z|f|s'|d|d t]; simpl;
    try reflexivity.
  - destruct (Z.eqb z 0); reflexivity.
  - destruct (PrimFloat.eqb f PrimFloat.zero); reflexivity.
  - destruct (String.eqb s' ""); [reflexivity|]. simpl.
    destruct (to_datetime s'); [|reflexivity]. simpl.
    by case_match.
  - by case_match.
  - by case_match.
Qed.

Lemma upcoming_body_unfold future_date entry acc :
  upcoming_body to_datetime today future_date entry acc
  = match py_lower (dict_get entry "Status" (PStr "")) with
    | Raise x => (Raised x, acc)
    | Ok status =>
        if String.eqb status "paid" then (Continue, acc)
        else
          match due_outcome to_datetime entry with
          | Next d =>
              if (today <? d) && (d <=? future_date)
              then (Next (), (acc ++ [upcoming_entry today entry d])%list)
              else (Next (), acc)
          | Continue => (Continue, acc)
          | Raised x => (Raised x, acc)
          end
    end.
Proof.
  unfold due_outcome. unfold_body.
  destruct (dict_get entry "Status" (PStr "")) as [| | |s| |]; try reflexivity.
  simpl. destruct (String.eqb (lower s) "paid"); [reflexivity|]. simpl.
  destruct (dict_get entry "Due Date" PNone) as [|z|f|s'|d|d t]; simpl;
    try reflexivity.
  - destruct (Z.eqb z 0); reflexivity.
  - destruct (PrimFloat.eqb f PrimFloat.zero); reflexivity.
  - destruct (String.eqb s' ""); [reflexivity|]. simpl.
    destruct (to_datetime s'); [|reflexivity]. simpl.
    by case_match.
  - by case_match.
  - by case_match.
Qed.

Lemma summary_body_unfold entry s :
  summary_body to_datetime float_of_str today entry s
  = match py_lower (dict_get entry "Status" (PStr "")) with
    | Raise x => (Raised x, incr_total s)
    | Ok status =>
        match status_effect float_of_str status entry (incr_total s) with
        | (Next _, s1) =>
            match due_outcome to_datetime entry with
            | Next d => (Next (), date_bucket today status d s1)
            | Continue => (Continue, s1)
            | Raised x => (Raised x, s1)
            end
        | (Continue, s1) => (Continue, s1)
        | (Raised x, s1) => (Raised x, s1)
        end
    end.
Proof.
  unfold due_outcome, status_effect, date_bucket. unfold_body.
  destruct (dict_get entry "Status" (PStr "")) as [| | |st| |];
    try reflexivity.
  simpl. destruct (String.eqb (lower st) "paid"); simpl.
  - destruct (dict_get entry "Due Date" PNone) as [|z|f|s'|d|d t]; simpl;
      try reflexivity.
    + destruct (Z.eqb z 0); reflexivity.
    + destruct (PrimFloat.eqb f PrimFloat.zero); reflexivity.
    + destruct (String.eqb s' ""); [reflexivity|]. simpl.
      destruct (to_datetime s'); [|reflexivity]. simpl.
      by rewrite !andb_false_r.
    + by rewrite !andb_false_r.
    + by rewrite !andb_false_r.
  - destruct (String.eqb (lower st) "partial"); simpl;
      destruct (py_float float_of_str (dict_get entry "Amount" (PInt 0)));
      simpl; try reflexivity;
      (destruct (dict_get entry "Due Date" PNone) as [|z|f|s'|d|d t]; simpl;
       try reflexivity;
       [ destruct (Z.eqb z 0); reflexivity
       | destruct (PrimFloat.eqb f PrimFloat.zero); reflexivity
       | destruct (String.eqb s' ""); [reflexivity|]; simpl;
         destruct (to_datetime s'); [|reflexivity]; simpl;
         by repeat (case_match; try reflexivity)
       | by repeat (case_match; try reflexivity)
       | by repeat (case_match; try reflexivity) ]).
Qed.
End BodyFacts.

(** ** The reader *)

Section ReaderFacts.
Import ExcelManager.
Variable to_datetime : string → option Z.
Variable disk : string → file_state.

Lemma record_of_lookup cols r c :
  record_of cols r !! c = if decide (c ∈ cols) then Some (cell r c) else None.
Proof.
  unfold record_of. induction cols as [|x cols IH]; simpl.
  - by rewrite lookup_empty.
  - rewrite lookup_insert. destruct (decide (x = c)) as [->|Hx].
    + by rewrite decide_True by left.
    + fold (fmap (M:=list) (λ c0 : string, (c0, cell r c0)) cols).
      rewrite IH.
      destruct (decide (c ∈ cols)) as [Hc|Hc],
               (decide (c ∈ x :: cols)) as [Hc'|Hc']; try done.
      * exfalso. apply Hc'. by right.
      * exfalso. apply elem_of_cons in Hc' as [?|?]; congruence.
Qed.

Lemma annotate_entry_fields file_path city_name i r e :
  annotate_entry to_datetime file_path city_name i r = Ok e →
  e !! "file_path" = Some (PStr file_path)
  ∧ e !! "row_index" = Some (PInt (Z.of_nat i))
  ∧ e !! "Due Date" = cleaned_due_date to_datetime <$> r !! "Due Date"
  ∧ e !! "Status" = (λ v, if blank v then PStr "Unpaid" else v) <$> r !! "Status".
Proof.
  unfold annotate_entry, clean_due_date, clean_status, dict_item, blank.
  set (e0 := match city_name with
             | Some c => if String.eqb c "" then _ else _
             | None => _
             end).
  assert (e0 !! "file_path" = Some (PStr file_path)
          ∧ e0 !! "row_index" = Some (PInt (Z.of_nat i))
          ∧ e0 !! "Due Date" = r !! "Due Date"
          ∧ e0 !! "Status" = r !! "Status") as (Hp & Hi & Hd & Hs).
  { subst e0. destruct city_name as [c|]; [destruct (String.eqb c "")|];
      by simplify_map_eq. }
  clearbody e0. unfold mbind, result_bind.
  destruct (e0 !! "Due Date") as [due|] eqn:Hdue; [|done].
  rewrite <- Hd. simpl.
  set (e1 := match due with
             | PStr s => _
             | PDatetime d _ => _
             | _ => _
             end).
  assert (∃ e1', e1 = Ok e1' ∧ e1' !! "file_path" = Some (PStr file_path)
          ∧ e1' !! "row_index" = Some (PInt (Z.of_nat i))
          ∧ e1' !! "Due Date" = Some (cleaned_due_date to_datetime due)
          ∧ e1' !! "Status" = r !! "Status") as (e1' & -> & Hp1 & Hi1 & Hd1 & Hs1).
  { subst e1. destruct due as [| | |s| |]; simpl;
      try (eexists; split; [done|]; by simplify_map_eq).
    destruct (to_datetime s); eexists; (split; [done|]); by simplify_map_eq. }
  rewrite Hs1. destruct (r !! "Status") as [st|] eqn:Hst; simpl; [|done].
  destruct (negb (truthy st) || isna st); intros [= <-]; by simplify_map_eq.
Qed.

Lemma annotate_from_lookup file_path city_name k rs es i e :
  annotate_from to_datetime file_path city_name k rs = Ok es →
  es !! i = Some e →
  ∃ r, rs !! i = Some r
       ∧ annotate_entry to_datetime file_path city_name (k + i) r = Ok e.
Proof.
  revert k es i. induction rs as [|r rs IH]; intros k es i; simpl.
  - by intros [= <-].
  - unfold mbind, result_bind.
    destruct (annotate_entry _ _ _ k r) as [e0|] eqn:He0; [|done].
    fold (@mbind result _).
    destruct (annotate_from _ _ _ (S k) rs) as [es0|] eqn:Hes0; [|done].
    intros [= <-]. destruct i as [|i]; simpl.
    + intros [= <-]. exists r. by rewrite Nat.add_0_r.
    + intros Hi. destruct (IH _ _ _ Hes0 Hi) as (r' & ? & ?).
      exists r'. split; [done|]. by replace (k + S i)%nat with (S k + i)%nat by lia.
Qed.

(** Where an entry the reader returns comes from. *)
Lemma get_payment_entries_lookup file_path city_name es i e :
  get_payment_entries to_datetime disk file_path city_name = Ok es →
  es !! i = Some e →
  ∃ df r, disk file_path = Workbook df
          ∧ to_dict_records (with_optional_columns df) !! i = Some r
          ∧ annotate_entry to_datetime file_path city_name i r = Ok e.
Proof.
  unfold get_payment_entries, read_excel, mbind, result_bind.
  destruct (disk file_path) as [| |df]; try done.
  destruct (missing_columns df); [|done].
  intros Hes Hi. destruct (annotate_from_lookup _ _ _ _ _ _ _ Hes Hi) as (r & ? & ?).
  by exists df, r.
Qed.
End ReaderFacts.

(** ** The scans over the sources *)

Section ScanFacts.
Import ReminderEngine ExcelManager.
Variable to_datetime : string → option Z.
Variable disk : string → file_state.

Section Appending.
Context {A : Type} (f : gmap string pyval → body (list A) unit)
  (R : gmap string pyval → A → Prop).
Hypothesis f_appends : ∀ x acc,
  (f x acc).2 = acc ∨ ∃ a, (f x acc).2 = (acc ++ [a])%list ∧ R x a.

Lemma scan_file_elem acc file_path city_name a :
  a ∈ scan_file to_datetime disk f acc (file_path, city_name) →
  a ∈ acc
  ∨ ∃ es e, get_payment_entries to_datetime disk file_path (Some city_name)
            = Ok es ∧ e ∈ es ∧ R e a.
Proof.
  unfold scan_file.
  destruct (negb (path_exists disk file_path)); [by left|].
  destruct (get_payment_entries _ _ _ _) as [es|x]; [|by left].
  intros Ha. apply (for_each_elem f R f_appends) in Ha as [?|(e & ? & ?)];
    [by left|right; eauto].
Qed.

Lemma fold_scan_elem srcs acc a :
  a ∈ fold_left (scan_file to_datetime disk f) srcs acc →
  a ∈ acc
  ∨ ∃ file_path city_name es e,
      (file_path, city_name) ∈ srcs
      ∧ get_payment_entries to_datetime disk file_path (Some city_name)
        = Ok es
      ∧ e ∈ es ∧ R e a.
Proof.
  revert acc. induction srcs as [|[p c] srcs IH]; intros acc; simpl;
    [by left|].
  intros Ha. apply IH in Ha as [Ha|(p' & c' & es & e & ? & ? & ? & ?)].
  - apply scan_file_elem in Ha as [?|(es & e & ? & ? & ?)]; [by left|].
    right. exists p, c, es, e. split; [left|done].
  - right. exists p', c', es, e. split; [by right|done].
Qed.
End Appending.

Variable today : Z.

(** Every element of the due-list before the sort is a row of a readable
    source, not settled, due on or before today, with its two derived
    fields. *)
Lemma collect_due_elem srcs a :
  a ∈ collect_due to_datetime disk today srcs →
  ∃ file_path city_name es e d,
    (file_path, city_name) ∈ srcs
    ∧ get_payment_entries to_datetime disk file_path (Some city_name) = Ok es
    ∧ e ∈ es
    ∧ due_day to_datetime e = Some d ∧ d ≤ today ∧ is_paid e = false
    ∧ a = due_entry today e d.
Proof.
  intros Ha.
  apply (fold_scan_elem (due_body to_datetime today)
           (λ e a, ∃ d, due_day to_datetime e = Some d ∧ d ≤ today
                        ∧ is_paid e = false ∧ a = due_entry today e d))
    in Ha as [Ha|(p & c & es & e & ? & ? & ? & d & ? & ? & ? & ?)].
  - by apply not_elem_of_nil in Ha.
  - by exists p, c, es, e, d.
  - intros x acc.
    destruct (due_body_cases to_datetime today x acc)
      as [?|(d & ? & ? & ? & ?)]; [by left|right; eauto 10].
Qed.

Lemma collect_upcoming_elem srcs days_ahead a :
  a ∈ collect_upcoming to_datetime disk today srcs days_ahead →
  ∃ file_path city_name es e d,
    (file_path, city_name) ∈ srcs
    ∧ get_payment_entries to_datetime disk file_path (Some city_name) = Ok es
    ∧ e ∈ es
    ∧ due_day to_datetime e = Some d ∧ today < d ≤ today + days_ahead
    ∧ is_paid e = false
    ∧ a = upcoming_entry today e d.
Proof.
  intros Ha.
  apply (fold_scan_elem (upcoming_body to_datetime today (today + days_ahead))
           (λ e a, ∃ d, due_day to_datetime e = Some d
                        ∧ today < d ≤ today + days_ahead
                        ∧ is_paid e = false ∧ a = upcoming_entry today e d))
    in Ha as [Ha|(p & c & es & e & ? & ? & ? & d & ? & ? & ? & ?)].
  - by apply not_elem_of_nil in Ha.
  - by exists p, c, es, e, d.
  - intros x acc.
    destruct (upcoming_body_cases to_datetime today (today + days_ahead) x acc)
      as [?|(d & ? & ? & ? & ?)]; [by left|right; eauto 10].
Qed.

Lemma elem_of_get_due_payments srcs a :
  a ∈ get_due_payments to_datetime disk today srcs
  ↔ a ∈ collect_due to_datetime disk today srcs.
Proof. unfold get_due_payments. by rewrite list_sort_perm. Qed.

Lemma elem_of_get_upcoming_payments srcs days_ahead a :
  a ∈ get_upcoming_payments to_datetime disk today srcs days_ahead
  ↔ a ∈ collect_upcoming to_datetime disk today srcs days_ahead.
Proof. unfold get_upcoming_payments. by rewrite list_sort_perm. Qed.
End ScanFacts.

(** ** The scenario, evaluated *)

Example scenario_due :
  ReminderEngine.get_due_payments Scenario.no_dates Scenario.disk Scenario.today
    Scenario.sources
  = [Scenario.alice_due; Scenario.bob_due].
Proof. vm_refl. Qed.

Example scenario_upcoming :
  ReminderEngine.get_upcoming_payments Scenario.no_dates Scenario.disk
    Scenario.today Scenario.sources 7
  = [Scenario.carol_upcoming].
Proof. vm_refl. Qed.

Example scenario_summary :
  ReminderEngine.get_payment_summary Scenario.no_dates Scenario.no_floats
    Scenario.disk Scenario.today Scenario.sources
  = ReminderEngine.Summary 4 1 0 3 1 1 1 225.
Proof. vm_refl. Qed.

(** ** What the derived fields leave alone *)

Section DerivedFields.
Variable to_datetime : string → option Z.
Variable today : Z.

Lemma due_entry_other e d k :
  k ≠ "priority" → k ≠ "days_overdue" → due_entry today e d !! k = e !! k.
Proof. intros. unfold due_entry. by rewrite !lookup_insert_ne. Qed.

Lemma upcoming_entry_other e d k :
  k ≠ "days_until_due" → upcoming_entry today e d !! k = e !! k.
Proof. intros. unfold upcoming_entry. by rewrite !lookup_insert_ne. Qed.

Lemma due_entry_is_paid e d : is_paid (due_entry today e d) = is_paid e.
Proof. unfold is_paid, dict_get. by rewrite due_entry_other. Qed.

Lemma upcoming_entry_is_paid e d : is_paid (upcoming_entry today e d) = is_paid e.
Proof. unfold is_paid, dict_get. by rewrite upcoming_entry_other. Qed.

Lemma due_entry_due_day e d :
  due_day to_datetime (due_entry today e d) = due_day to_datetime e.
Proof. unfold due_day, dict_get. by rewrite due_entry_other. Qed.

Lemma upcoming_entry_due_day e d :
  due_day to_datetime (upcoming_entry today e d) = due_day to_datetime e.
Proof. unfold due_day, dict_get. by rewrite upcoming_entry_other. Qed.
End DerivedFields.

(** ** The claims about the two lists *)

Section ListClaims.
Import ReminderEngine ExcelManager.
Variable to_datetime : string → option Z.
Variable disk : string → file_state.
Variable today : Z.

(** C1.  Every entry of the due-list carries days_overdue = today - due
    date, which is not negative, and the priority of the table: High above
    30 days, Medium from 8 to 30, Low up to 7; so 7 is Low, 8 and 30 are
    Medium and 31 is High. *)
Theorem due_priority_table srcs a :
  a ∈ get_due_payments to_datetime disk today srcs →
  ∃ n, a !! "days_overdue" = Some (PInt n)
       ∧ due_day to_datetime a = Some (today - n)
       ∧ 0 ≤ n
       ∧ (30 < n → a !! "priority" = Some (PStr "High"))
       ∧ (8 ≤ n ≤ 30 → a !! "priority" = Some (PStr "Medium"))
       ∧ (0 ≤ n ≤ 7 → a !! "priority" = Some (PStr "Low"))
       ∧ (n = 7 → a !! "priority" = Some (PStr "Low"))
       ∧ (n = 8 → a !! "priority" = Some (PStr "Medium"))
       ∧ (n = 30 → a !! "priority" = Some (PStr "Medium"))
       ∧ (n = 31 → a !! "priority" = Some (PStr "High")).
Proof.
  rewrite elem_of_get_due_payments. intros Ha.
  apply collect_due_elem in Ha
    as (p & c & es & e & d & _ & _ & _ & Hd & Hle & _ & ->).
  exists (today - d).
  assert (due_entry today e d !! "priority"
          = Some (PStr (priority_of (today - d)))) as ->
    by (unfold due_entry; by rewrite lookup_insert_eq).
  split_and!.
  - unfold due_entry. by rewrite lookup_insert_ne, lookup_insert_eq.
  - rewrite due_entry_due_day, Hd. f_equal. lia.
  - lia.
  - intros. unfold priority_of. by rewrite (proj2 (Z.ltb_lt _ _)) by lia.
  - intros. unfold priority_of.
    rewrite (proj2 (Z.ltb_ge _ _)) by lia.
    by rewrite (proj2 (Z.ltb_lt _ _)) by lia.
  - intros. unfold priority_of. by rewrite !(proj2 (Z.ltb_ge _ _)) by lia.
  - by intros ->.
  - by intros ->.
  - by intros ->.
  - by intros ->.
Qed.

(** The row an entry of the reader stands for. *)
Lemma entry_origin file_path city_name es e :
  get_payment_entries to_datetime disk file_path city_name = Ok es →
  e ∈ es →
  ∃ df i r, disk file_path = Workbook df
    ∧ to_dict_records (with_optional_columns df) !! i = Some r
    ∧ e !! "file_path" = Some (PStr file_path)
    ∧ e !! "row_index" = Some (PInt (Z.of_nat i))
    ∧ e !! "Due Date" = cleaned_due_date to_datetime <$> r !! "Due Date".
Proof.
  intros Hes He. apply list_elem_of_lookup in He as [i Hi].
  destruct (get_payment_entries_lookup _ _ _ _ _ _ _ Hes Hi)
    as (df & r & ? & ? & Hr).
  apply annotate_entry_fields in Hr as (? & ? & ? & _).
  by exists df, i, r.
Qed.

(** C2.  No row of a ledger is both in the due-list and in the
    upcoming-list of the same day: an entry of the due-list is due on or
    before today, an entry of the upcoming-list strictly after it, so a row
    due exactly today is in the due-list only. *)
Theorem due_upcoming_exclusive srcs days_ahead a b :
  a ∈ get_due_payments to_datetime disk today srcs →
  b ∈ get_upcoming_payments to_datetime disk today srcs days_ahead →
  ¬ same_record a b
  ∧ (∃ d, due_day to_datetime a = Some d ∧ d ≤ today)
  ∧ (∃ d, due_day to_datetime b = Some d ∧ today < d ≤ today + days_ahead).
Proof.
  rewrite elem_of_get_due_payments, elem_of_get_upcoming_payments.
  intros Ha Hb.
  apply collect_due_elem in Ha
    as (p & c & es & e & d & _ & Hes & He & Hd & Hle & _ & ->).
  apply collect_upcoming_elem in Hb
    as (p' & c' & es' & e' & d' & _ & Hes' & He' & Hd' & Hlt & _ & ->).
  rewrite due_entry_due_day, upcoming_entry_due_day.
  split_and!; [|by exists d|by exists d'].
  intros [Hp Hi].
  rewrite due_entry_other, upcoming_entry_other in Hp by done.
  rewrite due_entry_other, upcoming_entry_other in Hi by done.
  destruct (entry_origin _ _ _ _ Hes He) as (df & i & r & Hdf & Hr & Hp1 & Hi1 & Hdue).
  destruct (entry_origin _ _ _ _ Hes' He')
    as (df' & i' & r' & Hdf' & Hr' & Hp2 & Hi2 & Hdue').
  rewrite Hp1, Hp2 in Hp. rewrite Hi1, Hi2 in Hi.
  injection Hp as <-. injection Hi as Hi. apply Nat2Z.inj in Hi as <-.
  rewrite Hdf in Hdf'. injection Hdf' as <-.
  rewrite Hr in Hr'. injection Hr' as <-.
  assert (due_day to_datetime e = due_day to_datetime e') as Heq
    by (unfold due_day, dict_get; by rewrite Hdue, Hdue').
  rewrite Hd, Hd' in Heq. injection Heq as <-. lia.
Qed.

End ListClaims.

Lemma due_priority_table_witness :
  Scenario.alice_due
    ∈ ReminderEngine.get_due_payments Scenario.no_dates Scenario.disk
        Scenario.today Scenario.sources
  ∧ ∃ n, Scenario.alice_due !! "days_overdue" = Some (PInt n)
         ∧ (30 < n → Scenario.alice_due !! "priority" = Some (PStr "High")).
Proof.
  assert (Scenario.alice_due
            ∈ ReminderEngine.get_due_payments Scenario.no_dates Scenario.disk
                Scenario.today Scenario.sources) as H
    by (vm_compute; left).
  split; [exact H|].
  destruct (due_priority_table _ _ _ _ _ H) as (n & ? & _ & _ & ? & _).
  by exists n.
Defined.

Lemma due_upcoming_exclusive_witness :
  Scenario.bob_due
    ∈ ReminderEngine.get_due_payments Scenario.no_dates Scenario.disk
        Scenario.today Scenario.sources
  ∧ Scenario.carol_upcoming
    ∈ ReminderEngine.get_upcoming_payments Scenario.no_dates Scenario.disk
        Scenario.today Scenario.sources 7
  ∧ ¬ same_record Scenario.bob_due Scenario.carol_upcoming.
Proof.
  assert (Scenario.bob_due
            ∈ ReminderEngine.get_due_payments Scenario.no_dates Scenario.disk
                Scenario.today Scenario.sources) as Ha
    by (vm_compute; right; left).
  assert (Scenario.carol_upcoming
            ∈ ReminderEngine.get_upcoming_payments Scenario.no_dates
                Scenario.disk Scenario.today Scenario.sources 7) as Hb
    by (vm_compute; left).
  split_and!; [exact Ha|exact Hb|].
  exact (proj1 (due_upcoming_exclusive _ _ _ _ _ _ _ Ha Hb)).
Defined.

(** ** The summary *)

Section SummaryClaims.
Import ReminderEngine ExcelManager.
Variable to_datetime : string → option Z.
Variable float_of_str : string → option PrimFloat.float.
Variable disk : string → file_state.
Variable today : Z.

(** A settled entry adds to total_payments and paid_payments only. *)
Lemma summary_body_paid entry s :
  is_paid entry = true →
  (summary_body to_datetime float_of_str today entry s).2
  = incr_paid (incr_total s).
Proof.
  unfold_body.
  destruct (dict_get entry "Status" (PStr "")) as [| | |st| |]; try done.
  intros ->. simpl.
  destruct (dict_get entry "Due Date" PNone) as [|z|f|s'|d|d t]; simpl; auto.
  - by destruct (negb (Z.eqb z 0)).
  - by destruct (negb (PrimFloat.eqb f PrimFloat.zero)).
  - destruct (String.eqb s' ""); simpl; auto.
    destruct (to_datetime s') as [d|]; simpl; auto.
    by rewrite !andb_false_r.
  - by rewrite !andb_false_r.
  - by rewrite !andb_false_r.
Qed.

(** C4.  An entry whose status is Paid, whatever its due date, is no
    element of the due-list and none of the upcoming-list, and the summary
    loop leaves total_amount_due as it was when it meets one. *)
Theorem paid_excluded srcs days_ahead entry :
  is_paid entry = true →
  (entry ∉ get_due_payments to_datetime disk today srcs)
  ∧ (entry ∉ get_upcoming_payments to_datetime disk today srcs days_ahead)
  ∧ ∀ s, total_amount_due
           (summary_body to_datetime float_of_str today entry s).2
         = total_amount_due s.
Proof.
  intros Hpaid. split_and!.
  - rewrite elem_of_get_due_payments. intros Ha.
    apply collect_due_elem in Ha
      as (p & c & es & e & d & _ & _ & _ & _ & _ & He & ->).
    rewrite due_entry_is_paid in Hpaid. congruence.
  - rewrite elem_of_get_upcoming_payments. intros Ha.
    apply collect_upcoming_elem in Ha
      as (p & c & es & e & d & _ & _ & _ & _ & _ & He & ->).
    rewrite upcoming_entry_is_paid in Hpaid. congruence.
  - intros s. by rewrite summary_body_paid.
Qed.
End SummaryClaims.

Lemma paid_excluded_witness :
  is_paid (Scenario.read 3 Scenario.dana) = true
  ∧ (Scenario.read 3 Scenario.dana
      ∉ ReminderEngine.get_due_payments Scenario.no_dates Scenario.disk
          Scenario.today Scenario.sources)
  ∧ ∀ s, ReminderEngine.total_amount_due
           (ReminderEngine.summary_body Scenario.no_dates Scenario.no_floats
              Scenario.today (Scenario.read 3 Scenario.dana) s).2
         = ReminderEngine.total_amount_due s.
Proof.
  assert (is_paid (Scenario.read 3 Scenario.dana) = true) as H
    by (vm_compute; reflexivity).
  split; [exact H|].
  destruct (paid_excluded Scenario.no_dates Scenario.no_floats Scenario.disk
              Scenario.today Scenario.sources 7 _ H) as (? & _ & ?).
  by split.
Defined.

(** ** A source the reader fails on *)

Section FailureClaims.
Import ReminderEngine ExcelManager.
Variable to_datetime : string → option Z.
Variable float_of_str : string → option PrimFloat.float.
Variable disk : string → file_state.
Variable today : Z.

Lemma read_fails_raises file_path city_name :
  read_fails disk file_path →
  ∃ x, get_payment_entries to_datetime disk file_path city_name = Raise x.
Proof.
  unfold get_payment_entries, read_excel, mbind, result_bind.
  intros [->|[->|(df & col & -> & Hreq & Hcol)]]; [by eexists..|].
  assert (col ∈ missing_columns df) as Hmiss.
  { apply list_elem_of_filter. split; [|done].
    unfold has_column. by apply bool_decide_eq_false. }
  destruct (missing_columns df); [by apply not_elem_of_nil in Hmiss|].
  by eexists.
Qed.

(** The scan leaves its accumulator as it was. *)
Lemma scan_file_read_fails {St} (f : gmap string pyval → body St unit)
    acc file_path city_name :
  read_fails disk file_path →
  scan_file to_datetime disk f acc (file_path, city_name) = acc.
Proof.
  intros Hfail. unfold scan_file.
  destruct (negb (path_exists disk file_path)); [done|].
  destruct (read_fails_raises file_path (Some city_name) Hfail) as [x ->].
  done.
Qed.

Lemma fold_scan_read_fails {St} (f : gmap string pyval → body St unit)
    acc pre post file_path city_name :
  read_fails disk file_path →
  fold_left (scan_file to_datetime disk f)
    (pre ++ (file_path, city_name) :: post) acc
  = fold_left (scan_file to_datetime disk f) (pre ++ post) acc.
Proof.
  intros Hfail. rewrite !fold_left_app. cbn [fold_left].
  by rewrite scan_file_read_fails.
Qed.

(** C9.  When the reader fails on a source (nothing to open at the path, or
    a required column missing), it raises, and each of the three scans
    returns what it returns with that source left out of the list: none of
    its rows is taken and every other source is processed. *)
Theorem failed_source_is_skipped pre post file_path city_name days_ahead :
  read_fails disk file_path →
  (∃ x, get_payment_entries to_datetime disk file_path (Some city_name)
        = Raise x)
  ∧ get_due_payments to_datetime disk today
      (pre ++ (file_path, city_name) :: post)
    = get_due_payments to_datetime disk today (pre ++ post)
  ∧ get_upcoming_payments to_datetime disk today
      (pre ++ (file_path, city_name) :: post) days_ahead
    = get_upcoming_payments to_datetime disk today (pre ++ post) days_ahead
  ∧ get_payment_summary to_datetime float_of_str disk today
      (pre ++ (file_path, city_name) :: post)
    = get_payment_summary to_datetime float_of_str disk today (pre ++ post).
Proof.
  intros Hfail. split_and!.
  - by apply read_fails_raises.
  - unfold get_due_payments, collect_due. by rewrite fold_scan_read_fails.
  - unfold get_upcoming_payments, collect_upcoming.
    by rewrite fold_scan_read_fails.
  - unfold get_payment_summary. by rewrite fold_scan_read_fails.
Qed.
End FailureClaims.

Lemma failed_source_is_skipped_witness :
  read_fails Scenario.disk "headless.xlsx"
  ∧ ReminderEngine.get_due_payments Scenario.no_dates Scenario.disk
      Scenario.today [("headless.xlsx", "Goa"); ("pune.xlsx", "Pune")]
    = [Scenario.alice_due; Scenario.bob_due]
  ∧ ReminderEngine.get_payment_summary Scenario.no_dates Scenario.no_floats
      Scenario.disk Scenario.today
      [("headless.xlsx", "Goa"); ("pune.xlsx", "Pune")]
    = ReminderEngine.Summary 4 1 0 3 1 1 1 225.
Proof.
  assert (read_fails Scenario.disk "headless.xlsx") as H.
  { right. right. exists Scenario.headless_ledger, "Amount".
    split; [reflexivity|]. split; [by right; left|].
    intros Hin. simpl in Hin.
    repeat (apply elem_of_cons in Hin as [?|Hin]; [done|]).
    by apply not_elem_of_nil in Hin. }
  split; [exact H|].
  destruct (failed_source_is_skipped Scenario.no_dates Scenario.no_floats
              Scenario.disk Scenario.today [] Scenario.sources
              "headless.xlsx" "Goa" 7 H) as (_ & Hd & _ & Hs).
  split; [exact (eq_trans Hd scenario_due)|exact (eq_trans Hs scenario_summary)].
Defined.

(** ** The notifier *)

Section NotifierClaims.
Import EmailNotifier.
Variable format_amount : PrimFloat.float → string.
Variable format_date : pyval → string.

(** C10.  [send_payment_reminder] returns False for every customer, amount,
    due date and city: it hands [send_email] the recipient None, and
    [send_email] returns False without a recipient; with a str recipient it
    returns True only when the notifier is configured, the address has an
    '@' and the SMTP exchange goes through. *)
Theorem reminder_never_sent n customer_name amount due_date city :
  send_payment_reminder format_amount format_date n customer_name amount
    due_date city = Ok false
  ∧ (∀ subject body_text body_html,
       send_email n PNone subject body_text body_html = Ok false)
  ∧ (∀ s subject body_text body_html,
       send_email n (PStr s) subject body_text body_html
       = Ok (is_configured n && has_at s && smtp_delivers n s)).
Proof.
  unfold send_payment_reminder, send_email. split_and!.
  - by destruct (is_configured n).
  - intros. by destruct (is_configured n).
  - intros s ? ? ?. destruct (is_configured n); simpl; [|done].
    destruct s as [|c s]; simpl; [done|].
    by destruct (Ascii.eqb c "@" || has_at s).
Qed.
End NotifierClaims.

(** ** The write path *)

Section WritePathClaims.
Import UIHandler EmailNotifier.
Variable now_date : string.
Variable str_of : pyval → string.
Variable float_of_str : string → option PrimFloat.float.
Variable email_notifier : option notifier.

Lemma notify_sends entry subject body e :
  e ∈ notify email_notifier entry subject body → is_send e = true.
Proof.
  unfold notify. destruct email_notifier as [n|]; [|by intros ?%not_elem_of_nil].
  destruct (truthy _); [|by intros ?%not_elem_of_nil].
  by intros ->%list_elem_of_singleton.
Qed.

(** The handlers never send before they update: whatever the inputs, the
    events are one error box, or the ledger update first and then, possibly,
    one notification and the closing steps. *)
Lemma mark_as_paid_order disk entry amount_paid :
  (∃ msg, (mark_as_paid now_date str_of float_of_str email_notifier disk
             entry amount_paid).2 = [ErrorBox msg])
  ∨ ∃ file_path row_index ok subject body,
      (mark_as_paid now_date str_of float_of_str email_notifier disk entry
         amount_paid).2
      = LedgerUpdate file_path row_index ok
          :: (notify email_notifier entry subject body ++ wrap_up)%list.
Proof.
  unfold mark_as_paid.
  destruct (float_of_str amount_paid) as [amount|]; [|left; by eexists].
  destruct (dict_item entry "file_path") as [p|]; [|left; by eexists].
  destruct (dict_item entry "row_index") as [i|]; [|left; by eexists].
  destruct (LedgerWriter.update_payment _ _ _ _ _ _ _ _ _) as [ok disk'].
  right. by eexists _, _, _, _, _.
Qed.

Lemma reschedule_payment_order disk entry new_date formatted_date remark :
  (∃ msg, (reschedule_payment now_date str_of email_notifier disk entry
             new_date formatted_date remark).2 = [ErrorBox msg])
  ∨ ∃ file_path row_index ok subject body,
      (reschedule_payment now_date str_of email_notifier disk entry new_date
         formatted_date remark).2
      = LedgerUpdate file_path row_index ok
          :: (notify email_notifier entry subject body ++ wrap_up)%list.
Proof.
  unfold reschedule_payment.
  destruct (dict_item entry "file_path") as [p|]; [|left; by eexists].
  destruct (dict_item entry "row_index") as [i|]; [|left; by eexists].
  destruct (LedgerWriter.update_payment _ _ _ _ _ _ _ _ _) as [ok disk'].
  right. by eexists _, _, _, _, _.
Qed.
End WritePathClaims.

(** C5, at the stale window: the ledger is gone, [update_payment] returns
    False, and both handlers go on to send the notification. *)
Theorem notification_after_failed_update :
  (UIHandler.mark_as_paid "2024-03-15" Scenario.show Scenario.typed_amount
     (Some Scenario.mailer) Scenario.disk Scenario.stale_entry "100").2
  = [UIHandler.LedgerUpdate (PStr "gone.xlsx") (PInt 0) false;
     UIHandler.SendEmail (PStr "alice@example.com") "Payment Confirmation"
       (Ok true);
     UIHandler.CloseWindow; UIHandler.RefreshList; UIHandler.NextReminder]
  ∧ (UIHandler.reschedule_payment "2024-03-15" Scenario.show
       (Some Scenario.mailer) Scenario.disk Scenario.stale_entry
       (Scenario.toordinal 2024 4 1) "2024-04-01" "").2
    = [UIHandler.LedgerUpdate (PStr "gone.xlsx") (PInt 0) false;
       UIHandler.SendEmail (PStr "alice@example.com") "Payment Rescheduled"
         (Ok true);
       UIHandler.CloseWindow; UIHandler.RefreshList; UIHandler.NextReminder].
Proof. split; vm_compute; reflexivity. Qed.

(** ** The status the reader returns *)

Section StatusClaims.
Import ReminderEngine ExcelManager.
Variable to_datetime : string → option Z.
Variable float_of_str : string → option PrimFloat.float.
Variable disk : string → file_state.
Variable today : Z.

(** Adding the lacking columns of [cols] maps every row through one function
    that keeps the cells of the sheet's own columns and blanks the new ones. *)
Lemma fold_add_if_missing cols df :
  ∃ g : gmap string pyval → gmap string pyval,
    rows (fold_left add_if_missing cols df) = g <$> rows df
    ∧ (∀ c, c ∈ columns (fold_left add_if_missing cols df)
            ↔ c ∈ columns df ∨ c ∈ cols)
    ∧ (∀ r c, c ∈ columns df → cell (g r) c = cell r c)
    ∧ (∀ r c, c ∈ cols → c ∉ columns df → cell (g r) c = PStr "").
Proof.
  revert df. induction cols as [|c0 cols IH]; intros df; simpl.
  - exists id. split_and!.
    + by rewrite list_fmap_id.
    + intros c. split; [by left|]. by intros [?|?%not_elem_of_nil].
    + done.
    + by intros r c ?%not_elem_of_nil.
  - destruct (IH (add_if_missing df c0)) as (g1 & Hrows & Hcols & Hkeep & Hnew).
    unfold add_if_missing, has_column in *.
    destruct (bool_decide (c0 ∈ columns df)) eqn:Hc0.
    + apply bool_decide_eq_true in Hc0.
      exists g1. split_and!; [done| |done|].
      * intros c. rewrite Hcols, elem_of_cons. intuition (subst; auto).
      * intros r c [->|Hc]%elem_of_cons Hn; [done|]. by apply Hnew.
    + apply bool_decide_eq_false in Hc0. simpl in *.
      exists (g1 ∘ (λ r, <[c0 := PStr ""]> r)). split_and!.
      * by rewrite Hrows, <- list_fmap_compose.
      * intros c. rewrite Hcols, elem_of_app, list_elem_of_singleton,
          elem_of_cons. tauto.
      * intros r c Hc. simpl. rewrite Hkeep by (apply elem_of_app; by left).
        unfold cell. rewrite lookup_insert_ne; [done|]. by intros ->.
      * intros r c [->|Hc]%elem_of_cons Hn; simpl.
        -- rewrite Hkeep by (apply elem_of_app; right; by left).
           unfold cell. by rewrite lookup_insert_eq.
        -- destruct (decide (c = c0)) as [->|Hne].
           ++ rewrite Hkeep by (apply elem_of_app; right; by left).
              unfold cell. by rewrite lookup_insert_eq.
           ++ apply Hnew; [done|].
              intros [?|?%list_elem_of_singleton]%elem_of_app; done.
Qed.

(** The Status the reader finds in the dict of a row. *)
Lemma to_dict_records_status df i r' :
  to_dict_records (with_optional_columns df) !! i = Some r' →
  ∃ r, rows df !! i = Some r ∧ r' !! "Status" = Some (raw_status df r).
Proof.
  unfold to_dict_records, with_optional_columns.
  destruct (fold_add_if_missing optional_columns df)
    as (g & Hrows & Hcols & Hkeep & Hnew).
  rewrite Hrows, <- list_fmap_compose, list_lookup_fmap.
  destruct (rows df !! i) as [r|]; [|done]. intros [= <-]. exists r.
  split; [done|]. simpl. rewrite record_of_lookup.
  rewrite decide_True by (apply Hcols; right; by right; left).
  f_equal. unfold raw_status, has_column.
  destruct (bool_decide (_ ∈ columns df)) eqn:Hs.
  - apply bool_decide_eq_true in Hs. by apply Hkeep.
  - apply bool_decide_eq_false in Hs. apply Hnew; [by right; left|done].
Qed.

(** What the three loop bodies read from an entry with a given Status. *)
Lemma dict_get_with_status s entry :
  dict_get (with_status s entry) "Status" (PStr "") = PStr s
  ∧ dict_get (with_status s entry) "Due Date" PNone
    = dict_get entry "Due Date" PNone
  ∧ dict_get (with_status s entry) "Amount" (PInt 0)
    = dict_get entry "Amount" (PInt 0).
Proof.
  unfold dict_get, with_status.
  by rewrite lookup_insert_eq, !lookup_insert_ne.
Qed.

(** The scans compare the status in lower case only: two spellings of one
    status take an entry through the same branches. *)
Lemma status_case_insensitive entry s s' :
  lower s = lower s' →
  (∀ acc, summary_body to_datetime float_of_str today (with_status s entry) acc
          = summary_body to_datetime float_of_str today (with_status s' entry)
              acc)
  ∧ (∀ acc,
       same_turn acc (due_entry today (with_status s entry))
         (due_entry today (with_status s' entry))
         (due_body to_datetime today (with_status s entry) acc)
         (due_body to_datetime today (with_status s' entry) acc))
  ∧ (∀ future_date acc,
       same_turn acc (upcoming_entry today (with_status s entry))
         (upcoming_entry today (with_status s' entry))
         (upcoming_body to_datetime today future_date (with_status s entry)
            acc)
         (upcoming_body to_datetime today future_date (with_status s' entry)
            acc)).
Proof.
  intros Hl.
  destruct (dict_get_with_status s entry) as (Hs1 & Hd1 & Ha1).
  destruct (dict_get_with_status s' entry) as (Hs2 & Hd2 & Ha2).
  assert (due_outcome to_datetime (with_status s entry)
          = due_outcome to_datetime (with_status s' entry)) as Hout
    by (unfold due_outcome; by rewrite Hd1, Hd2).
  split_and!; intros.
  - rewrite !summary_body_unfold, Hs1, Hs2, Hout. simpl. rewrite Hl.
    unfold status_effect. by rewrite Ha1, Ha2.
  - unfold same_turn.
    rewrite !due_body_unfold, Hs1, Hs2, Hout. simpl. rewrite Hl.
    destruct (String.eqb (lower s') "paid"); [by split; [|left]|].
    destruct (due_outcome to_datetime (with_status s' entry)) as [d| |x];
      [|by split; [|left]..].
    destruct (d <=? today); simpl; [|by split; [|left]].
    split; [done|]. right. by exists d.
  - unfold same_turn.
    rewrite !upcoming_body_unfold, Hs1, Hs2, Hout. simpl. rewrite Hl.
    destruct (String.eqb (lower s') "paid"); [by split; [|left]|].
    destruct (due_outcome to_datetime (with_status s' entry)) as [d| |x];
      [|by split; [|left]..].
    destruct ((today <? d) && (d <=? future_date)); simpl;
      [|by split; [|left]].
    split; [done|]. right. by exists d.
Qed.

(** C3, as the reader has it.  The Status of a returned entry is "Unpaid"
    when the sheet has no Status column or the cell is blank (falsy or NaN);
    any other value is returned as it is, recognized or not.  The scans then
    compare the status in lower case: with two spellings of one status the
    summary loop does the same to its counters, and each list scan has the
    same outcome and leaves its list alone or appends the entry for the same
    day. *)
Theorem status_normalization file_path city_name df es i e :
  disk file_path = Workbook df →
  get_payment_entries to_datetime disk file_path city_name = Ok es →
  es !! i = Some e →
  (∃ r, rows df !! i = Some r
        ∧ (blank (raw_status df r) = true
           → e !! "Status" = Some (PStr "Unpaid"))
        ∧ (blank (raw_status df r) = false
           → e !! "Status" = Some (raw_status df r)))
  ∧ ∀ s s', lower s = lower s' →
      (∀ acc, summary_body to_datetime float_of_str today (with_status s e) acc
              = summary_body to_datetime float_of_str today (with_status s' e)
                  acc)
      ∧ (∀ acc,
           same_turn acc (due_entry today (with_status s e))
             (due_entry today (with_status s' e))
             (due_body to_datetime today (with_status s e) acc)
             (due_body to_datetime today (with_status s' e) acc))
      ∧ (∀ future_date acc,
           same_turn acc (upcoming_entry today (with_status s e))
             (upcoming_entry today (with_status s' e))
             (upcoming_body to_datetime today future_date (with_status s e)
                acc)
             (upcoming_body to_datetime today future_date (with_status s' e)
                acc)).
Proof.
  intros Hdf Hes Hi. split.
  - destruct (get_payment_entries_lookup _ _ _ _ _ _ _ Hes Hi)
      as (df' & r' & Hdf' & Hr' & He).
    rewrite Hdf in Hdf'. injection Hdf' as <-.
    apply to_dict_records_status in Hr' as (r & Hr & Hst).
    apply annotate_entry_fields in He as (_ & _ & _ & He).
    rewrite Hst in He. simpl in He. exists r. split; [done|].
    split; intros Hb; by rewrite Hb in He.
  - intros s s' Hl. by apply status_case_insensitive.
Qed.
End StatusClaims.

(** What the reader returns for the ledger with the status Pending. *)
Example pending_read :
  ExcelManager.get_payment_entries Scenario.no_dates Scenario.disk
    "pending.xlsx" (Some "Goa")
  = Ok [<["file_path" := PStr "pending.xlsx"]> (<["row_index" := PInt 0]>
          (<["city" := PStr "Goa"]> (<["Email" := PStr ""]>
            (<["Remarks" := PStr ""]> (<["Payment Date" := PStr ""]>
              Scenario.frank)))))].
Proof. vm_refl. Qed.

(** The C3 counterexample: "Pending" is none of the specification's
    statuses, and the reader returns it unchanged. *)
Lemma unrecognized_status_kept :
  ∃ e, ExcelManager.get_payment_entries Scenario.no_dates Scenario.disk
         "pending.xlsx" (Some "Goa") = Ok [e]
       ∧ recognized_status (raw_status Scenario.pending_ledger Scenario.frank)
         = false
       ∧ e !! "Status" = Some (PStr "Pending")
       ∧ e !! "Status" ≠ Some (PStr "Unpaid").
Proof.
  eexists. split; [exact pending_read|].
  split; [vm_refl|]. split; [vm_refl|].
  vm_compute. discriminate.
Qed.

Lemma status_normalization_witness :
  Scenario.disk "pending.xlsx" = Workbook Scenario.pending_ledger
  ∧ ∃ e, ExcelManager.get_payment_entries Scenario.no_dates Scenario.disk
           "pending.xlsx" (Some "Goa") = Ok [e]
         ∧ e !! "Status" = Some (PStr "Pending").
Proof.
  split; [reflexivity|].
  eexists. split; [exact pending_read|].
  destruct (status_normalization Scenario.no_dates Scenario.no_floats
              Scenario.disk Scenario.today "pending.xlsx" (Some "Goa")
              Scenario.pending_ledger _ 0%nat _ eq_refl pending_read eq_refl)
    as [(r & Hr & _ & Hkeep) _].
  injection Hr as <-. apply Hkeep. vm_compute. reflexivity.
Defined.

(** ** The summary over several sources *)

Ltac solve_counts :=
  unfold counts; simpl;
  repeat (f_equal; try lia).

Section SummaryFacts.
Import ReminderEngine ExcelManager.
Variable to_datetime : string → option Z.
Variable float_of_str : string → option PrimFloat.float.
Variable disk : string → file_state.
Variable today : Z.

Lemma zip_add_assoc (a b c : list Z) :
  zip_with Z.add (zip_with Z.add a b) c = zip_with Z.add a (zip_with Z.add b c).
Proof.
  revert b c. induction a as [|x a IH]; intros [|y b] [|z c]; simpl; try done.
  by rewrite IH, Z.add_assoc.
Qed.

Lemma counts_summary0 s : zip_with Z.add (counts s) (counts summary0) = counts s.
Proof. solve_counts. Qed.

(** What one turn of the summary loop does does not depend on the counters
    it starts from: the same outcome, the same increments, the same amount
    added. *)
Lemma summary_body_shift entry s :
  (summary_body to_datetime float_of_str today entry s).1
  = (summary_body to_datetime float_of_str today entry summary0).1
  ∧ counts (summary_body to_datetime float_of_str today entry s).2
    = zip_with Z.add (counts s)
        (counts (summary_body to_datetime float_of_str today entry summary0).2)
  ∧ total_amount_due (summary_body to_datetime float_of_str today entry s).2
    = float_sum (option_list (added_amount float_of_str entry))
        (total_amount_due s).
Proof.
  unfold added_amount, float_sum. rewrite !summary_body_unfold.
  destruct (py_lower (dict_get entry "Status" (PStr ""))) as [st|x];
    [|split_and!; [done|solve_counts|done]].
  unfold status_effect, date_bucket.
  destruct (String.eqb st "paid").
  - destruct (due_outcome to_datetime entry) as [d| |x];
      simpl; rewrite ?andb_false_r; split_and!; try done; solve_counts.
  - destruct (py_float float_of_str (dict_get entry "Amount" (PInt 0)))
      as [amount|x];
      destruct (String.eqb st "partial");
      try (split_and!; [done|solve_counts|done]);
      (destruct (due_outcome to_datetime entry) as [d| |x];
       simpl; rewrite ?andb_true_r;
       repeat case_match; split_and!; try done; solve_counts).
Qed.

Lemma body_raises_iff entry s :
  body_raises to_datetime float_of_str today entry = true
  ↔ ∃ x, (summary_body to_datetime float_of_str today entry s).1 = Raised x.
Proof.
  unfold body_raises.
  destruct (summary_body_shift entry s) as (-> & _ & _).
  destruct (summary_body _ _ _ entry summary0).1; split;
    try done; try (by eexists); by intros [? ?].
Qed.

Lemma for_each_summary_shift entries s :
  counts (for_each (summary_body to_datetime float_of_str today) entries s).2
  = zip_with Z.add (counts s)
      (counts (for_each (summary_body to_datetime float_of_str today) entries
                 summary0).2)
  ∧ total_amount_due
      (for_each (summary_body to_datetime float_of_str today) entries s).2
    = float_sum (added_amounts to_datetime float_of_str today entries)
        (total_amount_due s).
Proof.
  revert s. induction entries as [|e rest IH]; intros s;
    cbn [for_each added_amounts].
  - split; [by rewrite counts_summary0|done].
  - destruct (summary_body_shift e s) as (Ho & Hc & Ht).
    unfold body_raises.
    destruct (summary_body _ _ _ e s) as [o s1] eqn:Es.
    destruct (summary_body _ _ _ e summary0) as [o0 s0] eqn:E0.
    cbn [fst snd] in *. subst o0. unfold float_sum in *.
    rewrite fold_left_app, <- Ht.
    destruct o as [u| |x]; cbn [fst snd fold_left].
    + destruct (IH s1) as [-> ->]. destruct (IH s0) as [-> _].
      by rewrite Hc, zip_add_assoc.
    + destruct (IH s1) as [-> ->]. destruct (IH s0) as [-> _].
      by rewrite Hc, zip_add_assoc.
    + done.
Qed.


End SummaryFacts.


(** ** The order of the due-list *)

Section SortPairs.
Context {A B : Type} (key : A → Z) (reverse : bool).

Lemma insert_sorted_fmap (f : B → A) x l :
  f <$> insert_sorted (sort_before (key ∘ f) reverse) x l
  = insert_sorted (sort_before key reverse) (f x) (f <$> l).
Proof.
  induction l as [|y l IH]; [done|]. simpl.
  change (sort_before (key ∘ f) reverse x y)
    with (sort_before key reverse (f x) (f y)).
  destruct (sort_before key reverse (f x) (f y)); [done|].
  simpl. f_equal. exact IH.
Qed.

Lemma list_sort_fmap (f : B → A) l :
  f <$> list_sort (key ∘ f) reverse l = list_sort key reverse (f <$> l).
Proof.
  induction l as [|x l IH]; [done|].
  unfold list_sort in *. simpl. by rewrite insert_sorted_fmap, IH.
Qed.
End SortPairs.

Section Before.
Context {A : Type}.

Lemma lookup_pair_sublist (l : list A) m n x y :
  (m < n)%nat → l !! m = Some x → l !! n = Some y → [x; y] `sublist_of` l.
Proof.
  revert m n. induction l as [|z l IH]; intros m n Hmn Hm Hn; [done|].
  destruct m as [|m].
  - injection Hm as ->. destruct n as [|n]; [lia|]. simpl in Hn.
    apply sublist_skip, singleton_sublist_l. by eapply list_elem_of_lookup_2.
  - destruct n as [|n]; [lia|]. simpl in *.
    apply sublist_cons. eapply IH; [|done..]. lia.
Qed.

Lemma sublist_filter_mono (P : A → Prop) `{!∀ x, Decision (P x)} l k :
  l `sublist_of` k → filter P l `sublist_of` filter P k.
Proof.
  induction 1 as [|x l k _ IH|x l k _ IH]; [done| |].
  - rewrite !filter_cons. case_decide; [by apply sublist_skip|done].
  - rewrite filter_cons. case_decide; [by apply sublist_cons|done].
Qed.

Lemma sorted_pair (R : relation A) l x y :
  StronglySorted R l → [x; y] `sublist_of` l → R x y.
Proof.
  intros Hs Hsub. apply sublist_cons_l in Hsub as (k1 & k2 & -> & Hy).
  apply singleton_sublist_l in Hy.
  apply StronglySorted_app_1_r in Hs. inversion Hs as [|? ? _ Hall]; subst.
  by eapply Forall_forall in Hall.
Qed.
End Before.

Section Positions.
Context {A X : Type} (f : X → body (list A) unit) (R : X → A → Prop).
Hypothesis f_appends : ∀ x acc,
  (f x acc).2 = acc ∨ ∃ a, (f x acc).2 = (acc ++ [a])%list ∧ R x a.

(** What a loop appends, with the position of the element each appended
    entry was made of: the positions increase. *)
Lemma for_each_positions xs acc :
  ∃ new idxs,
    (for_each f xs acc).2 = (acc ++ new)%list
    ∧ Forall2 (λ a i, ∃ x, xs !! i = Some x ∧ R x a) new idxs
    ∧ StronglySorted lt idxs.
Proof.
  revert acc. induction xs as [|x xs IH]; intros acc; simpl.
  { exists [], []. rewrite app_nil_r. by repeat constructor. }
  assert (∃ first firsts,
            (f x acc).2 = (acc ++ first)%list
            ∧ Forall2 (λ a i, ∃ x', (x :: xs) !! i = Some x' ∧ R x' a)
                first firsts
            ∧ Forall (λ i, i = 0%nat) firsts ∧ StronglySorted lt firsts)
    as (first & firsts & E & Hfirst & Hzero & Hsorted).
  { destruct (f_appends x acc) as [E|(a & E & Ha)].
    - exists [], []. rewrite app_nil_r. by repeat constructor.
    - exists [a], [0%nat]. split; [done|].
      split; [repeat constructor; by exists x|].
      by repeat constructor. }
  destruct (f x acc) as [[u| |e] acc'] eqn:Ef; simpl in E; subst acc'.
  3: { by exists first, firsts. }
  all: destruct (IH (acc ++ first)%list) as (new & idxs & -> & Hnew & Hidxs);
    exists (first ++ new)%list, (firsts ++ (S <$> idxs))%list;
    (split; [by rewrite app_assoc|]);
    (split;
     [apply Forall2_app; [done|]; apply Forall2_fmap_r;
      eapply Forall2_impl; [exact Hnew|]; by intros a i (x' & ? & ?); exists x'
     |]);
    apply StronglySorted_app_2;
      [ intros i1 i2 H1 H2; rewrite Forall_forall in Hzero;
        rewrite (Hzero _ H1); apply list_elem_of_fmap in H2 as (? & -> & _); lia
      | done
      | eapply StronglySorted_fmap; [|exact Hidxs]; intros; lia ].
Qed.
End Positions.

Section ScanPositions.
Import ReminderEngine ExcelManager.
Variable to_datetime : string → option Z.
Variable disk : string → file_state.
Context {A : Type} (f : gmap string pyval → body (list A) unit)
  (R : gmap string pyval → A → Prop).
Hypothesis f_appends : ∀ x acc,
  (f x acc).2 = acc ∨ ∃ a, (f x acc).2 = (acc ++ [a])%list ∧ R x a.

Lemma input_before_irrefl o : ¬ input_before o o.
Proof. unfold input_before. lia. Qed.

Lemma scan_file_positions acc file_path city_name :
  ∃ new idxs,
    scan_file to_datetime disk f acc (file_path, city_name)
    = (acc ++ new)%list
    ∧ Forall2 (λ a i, ∃ es e,
                 get_payment_entries to_datetime disk file_path
                   (Some city_name) = Ok es
                 ∧ es !! i = Some e ∧ R e a) new idxs
    ∧ StronglySorted lt idxs.
Proof.
  unfold scan_file.
  destruct (negb (path_exists disk file_path));
    [exists [], []; rewrite app_nil_r; by repeat constructor|].
  destruct (get_payment_entries _ _ _ _) as [es|x] eqn:Hes;
    [|exists [], []; rewrite app_nil_r; by repeat constructor].
  destruct (for_each_positions f R f_appends es acc)
    as (new & idxs & E & Hnew & Hidxs).
  exists new, idxs. split; [done|]. split; [|done].
  eapply Forall2_impl; [exact Hnew|]. intros a i (e & ? & ?). by exists es, e.
Qed.

(** What the scan of the sources collects, with the source and the row
    each collected entry was made of: in input order. *)
Lemma fold_scan_positions srcs acc :
  ∃ new os,
    fold_left (scan_file to_datetime disk f) srcs acc = (acc ++ new)%list
    ∧ Forall2 (λ a (o : nat * nat), ∃ file_path city_name es e,
                 srcs !! o.1 = Some (file_path, city_name)
                 ∧ get_payment_entries to_datetime disk file_path
                     (Some city_name) = Ok es
                 ∧ es !! o.2 = Some e ∧ R e a) new os
    ∧ StronglySorted input_before os.
Proof.
  revert acc. induction srcs as [|[p c] srcs IH]; intros acc; cbn [fold_left].
  { exists [], []. rewrite app_nil_r. by repeat constructor. }
  destruct (scan_file_positions acc p c) as (new1 & idxs & -> & H1 & Hs1).
  destruct (IH (acc ++ new1)%list) as (new2 & os & -> & H2 & Hs2).
  exists (new1 ++ new2)%list,
    (((λ i, (0%nat, i)) <$> idxs) ++ (prod_map S id <$> os))%list.
  split; [by rewrite app_assoc|]. split.
  - apply Forall2_app.
    + apply Forall2_fmap_r. eapply Forall2_impl; [exact H1|].
      intros a i (es & e & ? & ? & ?). by exists p, c, es, e.
    + apply Forall2_fmap_r. eapply Forall2_impl; [exact H2|].
      intros a [j i] (p' & c' & es & e & ? & ? & ? & ?).
      by exists p', c', es, e.
  - apply StronglySorted_app_2.
    + intros o1 o2 (i1 & -> & _)%list_elem_of_fmap
        ([j2 i2] & -> & _)%list_elem_of_fmap.
      left. simpl. lia.
    + eapply StronglySorted_fmap; [|exact Hs1].
      intros i1 i2 Hi. right. simpl. lia.
    + eapply StronglySorted_fmap; [|exact Hs2].
      intros [j1 i1] [j2 i2]. unfold input_before. simpl. lia.
Qed.
End ScanPositions.

Section SortedOrigins.
Context {A O : Type} (key : A → Z) (reverse : bool).
Context (Q : A → O → Prop) (before : relation O).
Hypothesis before_irrefl : ∀ o, ¬ before o o.

Lemma sorted_NoDup (os : list O) : StronglySorted before os → NoDup os.
Proof.
  induction 1 as [|o os _ IH Hall]; constructor; [|done].
  intros Hin. rewrite Forall_forall in Hall.
  by apply (before_irrefl o), Hall.
Qed.

Lemma Forall2_zip (l : list A) (os : list O) :
  Forall2 Q l os → Forall (λ p, Q p.1 p.2) (zip l os).
Proof. induction 1; by constructor. Qed.

(** A stable sort of entries that were collected in input order: every
    entry keeps its origin, and entries of one key stand in input order. *)
Lemma sorted_origins (l : list A) (os : list O) :
  Forall2 Q l os → StronglySorted before os →
  ∃ origins,
    Forall2 Q (list_sort key reverse l) origins
    ∧ NoDup origins
    ∧ ∀ m n a b o o',
        (m < n)%nat →
        list_sort key reverse l !! m = Some a →
        list_sort key reverse l !! n = Some b →
        origins !! m = Some o → origins !! n = Some o' →
        key a = key b → before o o'.
Proof.
  intros Hl Hos.
  pose proof (Forall2_length _ _ _ Hl) as Hlen.
  set (pairs := list_sort (key ∘ fst) reverse (zip l os)).
  assert (pairs.*1 = list_sort key reverse l) as H1.
  { subst pairs. rewrite list_sort_fmap, fst_zip; [done|lia]. }
  assert (pairs ≡ₚ zip l os) as Hperm by apply list_sort_perm.
  exists (pairs.*2). rewrite <- H1. split_and!.
  - apply Forall2_fmap, Forall_Forall2_diag.
    rewrite Hperm. by apply Forall2_zip.
  - rewrite Hperm, snd_zip by lia. by apply sorted_NoDup.
  - intros m n a b o o' Hmn Ha Hb Ho Ho' Hkey.
    rewrite list_lookup_fmap in Ha. rewrite list_lookup_fmap in Hb.
    rewrite list_lookup_fmap in Ho. rewrite list_lookup_fmap in Ho'.
    destruct (pairs !! m) as [[a1 o1]|] eqn:Hm; [|done].
    destruct (pairs !! n) as [[b1 o2]|] eqn:Hn; [|done].
    simpl in *. injection Ha as ->. injection Hb as ->.
    injection Ho as ->. injection Ho' as ->.
    pose proof (lookup_pair_sublist _ _ _ _ _ Hmn Hm Hn) as Hsub.
    apply (sublist_filter_mono (λ p, (key ∘ fst) p = key a)) in Hsub.
    rewrite !filter_cons, filter_nil in Hsub. simpl in Hsub.
    rewrite decide_True in Hsub by done.
    rewrite decide_True in Hsub by done.
    subst pairs. rewrite list_sort_filter in Hsub.
    assert ([(a, o); (b, o')] `sublist_of` zip l os) as Hsub'
      by (etrans; [exact Hsub|apply sublist_filter]).
    apply (fmap_sublist snd) in Hsub'. rewrite snd_zip in Hsub' by lia.
    by eapply sorted_pair.
Qed.
End SortedOrigins.

Section OrderClaims.
Import ReminderEngine ExcelManager.
Variable to_datetime : string → option Z.
Variable disk : string → file_state.
Variable today : Z.

(** An entry of the reader stands at the position of its row. *)
Lemma reader_row file_path city_name es i e :
  get_payment_entries to_datetime disk file_path city_name = Ok es →
  es !! i = Some e →
  ∃ df, disk file_path = Workbook df ∧ is_Some (rows df !! i).
Proof.
  intros Hes Hi.
  destruct (get_payment_entries_lookup _ _ _ _ _ _ _ Hes Hi)
    as (df & r & Hdisk & Hr & _).
  destruct (to_dict_records_status to_datetime (λ _, None) disk _ _ _ Hr)
    as (r0 & Hr0 & _).
  exists df. by split; [|exists r0].
Qed.

(** The due scan collects in input order: source by source as the list
    gives them, and the rows of a source from the first to the last. *)
Lemma collect_due_origins srcs :
  ∃ os,
    Forall2 (due_origin to_datetime disk today srcs)
      (collect_due to_datetime disk today srcs) os
    ∧ StronglySorted input_before os.
Proof.
  destruct (fold_scan_positions to_datetime disk (due_body to_datetime today)
              (λ e a, ∃ d, due_day to_datetime e = Some d
                           ∧ a = due_entry today e d)) with (srcs := srcs)
              (acc := @nil (gmap string pyval))
    as (new & os & E & Hnew & Hos).
  { intros x acc.
    destruct (due_body_cases to_datetime today x acc)
      as [?|(d & ? & ? & ? & ?)]; [by left|right; eauto 10]. }
  exists os. unfold collect_due. rewrite E. simpl. split; [|done].
  eapply Forall2_impl; [exact Hnew|].
  intros a o (p & c & es & e & Hsrc & Hes & He & d & Hd & ->).
  destruct (reader_row _ _ _ _ _ Hes He) as (df & Hdisk & Hrow).
  exists e, d. split; [|done]. by exists p, c, df, es.
Qed.

(** C7.  The due-list is the collected entries reordered: non-increasing in
    days_overdue from front to back, and for every number of days the
    entries with that many days overdue stand in the order in which they
    were collected, which is the order of the input.  Every entry of the
    list was made of one row of one source, no two of the same row; and of
    two entries with the same days_overdue the one that stands first comes
    from the source that is earlier in the list given, or from the same
    source and an earlier row of its sheet. *)
Theorem due_list_sorted_stable srcs :
  get_due_payments to_datetime disk today srcs
    ≡ₚ collect_due to_datetime disk today srcs
  ∧ StronglySorted (λ x y, days_overdue_key y ≤ days_overdue_key x)
      (get_due_payments to_datetime disk today srcs)
  ∧ Forall (λ x, x !! "days_overdue" = Some (PInt (days_overdue_key x)))
      (get_due_payments to_datetime disk today srcs)
  ∧ (∀ k, filter (λ x, days_overdue_key x = k)
            (get_due_payments to_datetime disk today srcs)
          = filter (λ x, days_overdue_key x = k)
              (collect_due to_datetime disk today srcs))
  ∧ ∃ origins,
      Forall2 (due_origin to_datetime disk today srcs)
        (get_due_payments to_datetime disk today srcs) origins
      ∧ NoDup origins
      ∧ ∀ m n a b o o',
          (m < n)%nat →
          get_due_payments to_datetime disk today srcs !! m = Some a →
          get_due_payments to_datetime disk today srcs !! n = Some b →
          origins !! m = Some o → origins !! n = Some o' →
          days_overdue_key a = days_overdue_key b →
          input_before o o'.
Proof.
  split_and!.
  - apply list_sort_perm.
  - apply (list_sort_sorted days_overdue_key true).
  - apply Forall_forall. intros x Hx.
    apply elem_of_get_due_payments, collect_due_elem in Hx
      as (p & c & es & e & d & _ & _ & _ & _ & _ & _ & ->).
    unfold days_overdue_key, dict_get, due_entry.
    by rewrite lookup_insert_ne, lookup_insert_eq.
  - intros k. apply list_sort_filter.
  - destruct (collect_due_origins srcs) as (os & Hl & Hos).
    apply (sorted_origins days_overdue_key true _ input_before
             input_before_irrefl _ _ Hl Hos).
Qed.
End OrderClaims.

(** The rows First and Second are both 14 days overdue and Third is 43:
    Third comes first, and First stays before Second. *)
Example tied_rows_keep_input_order :
  ReminderEngine.get_due_payments Scenario.no_dates Ties.disk Scenario.today
    [("ties.xlsx", "Pune")]
  = [Ties.listed 2 43 "High" Ties.third; Ties.listed 0 14 "Medium" Ties.first;
     Ties.listed 1 14 "Medium" Ties.second].
Proof. vm_refl. Qed.

(** ** The summary at a blank due date *)

(** C6, at a ledger whose dates are typed as text.  The blank Due Date of
    the first row reads as NaN, which is truthy and no date: ordering it
    against today raises, and the rest of the sheet is never counted.  With
    the blank row first the summary holds one payment and 100; with the same
    rows the other way round it holds both payments and 150, as the claim
    has it. *)
Theorem blank_due_date_cuts_summary :
  ReminderEngine.get_payment_summary TextDates.iso_dates Scenario.no_floats
    TextDates.disk Scenario.today [("blank_first.xlsx", "Pune")]
  = ReminderEngine.Summary 1 0 0 1 0 0 0 100
  ∧ ReminderEngine.get_payment_summary TextDates.iso_dates Scenario.no_floats
      TextDates.disk Scenario.today [("blank_last.xlsx", "Pune")]
    = ReminderEngine.Summary 2 0 0 2 0 1 0 150.
Proof. split; vm_refl. Qed.

(** * Further properties of the engine *)

Section ListExtras.
Import ReminderEngine ExcelManager.
Variable to_datetime : string → option Z.
Variable disk : string → file_state.
Variable today : Z.

(** An entry of the reader that the engine can date holds a date already:
    the reader has replaced timestamps and the strings that parse. *)
Lemma entry_due_date_is_date file_path city_name es e d :
  get_payment_entries to_datetime disk file_path city_name = Ok es →
  e ∈ es →
  due_day to_datetime e = Some d →
  e !! "Due Date" = Some (PDate d).
Proof.
  intros Hes He Hd.
  destruct (entry_origin _ _ _ _ _ _ Hes He) as (df & i & r & _ & _ & _ & _ & Hdue).
  unfold due_day, dict_get in Hd. rewrite Hdue in *.
  destruct (r !! "Due Date") as [v|]; simpl in *; [|done].
  destruct v as [|z|f|s|d'|d' t]; simpl in *; try done.
  - destruct (to_datetime s) as [d'|] eqn:Hs; simpl in *.
    + by injection Hd as ->.
    + destruct (String.eqb s ""); [done|]. congruence.
  - by injection Hd as ->.
  - by injection Hd as ->.
Qed.

(** The upcoming scan collects in input order, as the due scan does. *)
Lemma collect_upcoming_origins srcs days_ahead :
  ∃ os,
    Forall2 (upcoming_origin to_datetime disk today srcs)
      (collect_upcoming to_datetime disk today srcs days_ahead) os
    ∧ StronglySorted input_before os.
Proof.
  destruct (fold_scan_positions to_datetime disk
              (upcoming_body to_datetime today (today + days_ahead))
              (λ e a, ∃ d, due_day to_datetime e = Some d
                           ∧ a = upcoming_entry today e d)) with (srcs := srcs)
              (acc := @nil (gmap string pyval))
    as (new & os & E & Hnew & Hos).
  { intros x acc.
    destruct (upcoming_body_cases to_datetime today (today + days_ahead) x acc)
      as [?|(d & ? & ? & ? & ?)]; [by left|right; eauto 10]. }
  exists os. unfold collect_upcoming. rewrite E. simpl. split; [|done].
  eapply Forall2_impl; [exact Hnew|].
  intros a o (p & c & es & e & Hsrc & Hes & He & d & Hd & ->).
  destruct (reader_row _ _ _ _ _ _ _ Hes He) as (df & Hdisk & Hrow).
  exists e, d. split; [|done]. by exists p, c, df, es.
Qed.

(** The upcoming-list is the collected entries reordered: non-decreasing in
    due date from front to back, entries of one due date in the order in
    which they were collected, which is the order of the input; every entry
    holds a date strictly after today and at most [days_ahead] days away,
    and days_until_due is the distance.  Every entry was made of one row of
    one source, no two of the same row; and of two entries with the same
    due date the one that stands first comes from the source that is
    earlier in the list given, or from the same source and an earlier row
    of its sheet. *)
Theorem upcoming_list_sorted_stable srcs days_ahead :
  get_upcoming_payments to_datetime disk today srcs days_ahead
    ≡ₚ collect_upcoming to_datetime disk today srcs days_ahead
  ∧ StronglySorted (λ x y, due_date_key x ≤ due_date_key y)
      (get_upcoming_payments to_datetime disk today srcs days_ahead)
  ∧ Forall (λ x, x !! "Due Date" = Some (PDate (due_date_key x))
                 ∧ x !! "days_until_due"
                   = Some (PInt (due_date_key x - today))
                 ∧ today < due_date_key x ≤ today + days_ahead)
      (get_upcoming_payments to_datetime disk today srcs days_ahead)
  ∧ (∀ k, filter (λ x, due_date_key x = k)
            (get_upcoming_payments to_datetime disk today srcs days_ahead)
          = filter (λ x, due_date_key x = k)
              (collect_upcoming to_datetime disk today srcs days_ahead))
  ∧ ∃ origins,
      Forall2 (upcoming_origin to_datetime disk today srcs)
        (get_upcoming_payments to_datetime disk today srcs days_ahead)
        origins
      ∧ NoDup origins
      ∧ ∀ m n a b o o',
          (m < n)%nat →
          get_upcoming_payments to_datetime disk today srcs days_ahead !! m
          = Some a →
          get_upcoming_payments to_datetime disk today srcs days_ahead !! n
          = Some b →
          origins !! m = Some o → origins !! n = Some o' →
          due_date_key a = due_date_key b →
          input_before o o'.
Proof.
  split_and!.
  - apply list_sort_perm.
  - apply (list_sort_sorted due_date_key false).
  - apply Forall_forall. intros x Hx.
    apply elem_of_get_upcoming_payments, collect_upcoming_elem in Hx
      as (p & c & es & e & d & _ & Hes & He & Hd & Hr & _ & ->).
    pose proof (entry_due_date_is_date _ _ _ _ _ Hes He Hd) as Hdate.
    assert (due_date_key (upcoming_entry today e d) = d) as ->.
    { unfold due_date_key, dict_get.
      by rewrite upcoming_entry_other, Hdate by done. }
    split_and!; [|by unfold upcoming_entry; rewrite lookup_insert_eq|lia..].
    by rewrite upcoming_entry_other.
  - intros k. apply list_sort_filter.
  - destruct (collect_upcoming_origins srcs days_ahead) as (os & Hl & Hos).
    apply (sorted_origins due_date_key false _ input_before
             input_before_irrefl _ _ Hl Hos).
Qed.

End ListExtras.


(** ** Rows the scans reach *)

Section Reaching.
Import ReminderEngine ExcelManager.
Variable to_datetime : string → option Z.
Variable disk : string → file_state.
Context {A : Type} (f : gmap string pyval → body (list A) unit)
  (raises : gmap string pyval → bool).
Hypothesis f_grows : ∀ x acc,
  (f x acc).2 = acc ∨ ∃ a, (f x acc).2 = (acc ++ [a])%list.
Hypothesis f_raises : ∀ x acc e,
  (f x acc).1 = Raised e → raises x = true.

Lemma body_mono x acc a : a ∈ acc → a ∈ (f x acc).2.
Proof.
  intros Ha. destruct (f_grows x acc) as [->|(b & ->)]; [done|].
  apply elem_of_app. by left.
Qed.

Lemma for_each_mono xs acc a : a ∈ acc → a ∈ (for_each f xs acc).2.
Proof.
  revert acc. induction xs as [|x xs IH]; intros acc Ha; simpl; [done|].
  pose proof (body_mono x acc a Ha) as Hx.
  destruct (f x acc) as [[u| |e] acc']; simpl in *; auto.
Qed.

(** An entry that no raising entry precedes is reached: what the body
    appends for it is in the result. *)
Lemma for_each_reach xs acc i x a :
  xs !! i = Some x →
  (∀ x', x' ∈ take i xs → raises x' = false) →
  (∀ acc, (f x acc).2 = (acc ++ [a])%list) →
  a ∈ (for_each f xs acc).2.
Proof.
  revert acc i. induction xs as [|y xs IH]; intros acc i Hi Hpre Ha; [done|].
  simpl. destruct i as [|i]; simpl in *.
  - injection Hi as ->.
    assert (a ∈ (f x acc).2) as Hin
      by (rewrite Ha; apply elem_of_app; right; left).
    destruct (f x acc) as [[u| |e] acc']; simpl in *;
      [by apply for_each_mono|by apply for_each_mono|done].
  - assert (raises y = false) as Hy by (apply Hpre; left).
    destruct (f y acc) as [[u| |e] acc'] eqn:E; simpl.
    + apply (IH _ i); [done| |done]. intros x' Hx'. apply Hpre. by right.
    + apply (IH _ i); [done| |done]. intros x' Hx'. apply Hpre. by right.
    + pose proof (f_raises y acc e) as Hr. rewrite E in Hr.
      specialize (Hr eq_refl). congruence.
Qed.

Lemma scan_file_mono acc src a :
  a ∈ acc → a ∈ scan_file to_datetime disk f acc src.
Proof.
  intros Ha. destruct src as [p c]. unfold scan_file.
  destruct (negb (path_exists disk p)); [done|].
  destruct (get_payment_entries _ _ _ _); [|done].
  by apply for_each_mono.
Qed.

Lemma fold_scan_mono srcs acc a :
  a ∈ acc → a ∈ fold_left (scan_file to_datetime disk f) srcs acc.
Proof.
  revert acc. induction srcs as [|src srcs IH]; intros acc Ha; simpl; [done|].
  by apply IH, scan_file_mono.
Qed.

Lemma fold_scan_reach srcs acc file_path city_name es i x a :
  (file_path, city_name) ∈ srcs →
  get_payment_entries to_datetime disk file_path (Some city_name) = Ok es →
  es !! i = Some x →
  (∀ x', x' ∈ take i es → raises x' = false) →
  (∀ acc, (f x acc).2 = (acc ++ [a])%list) →
  a ∈ fold_left (scan_file to_datetime disk f) srcs acc.
Proof.
  intros Hsrc Hes Hi Hpre Ha. revert acc.
  induction srcs as [|src srcs IH]; intros acc;
    [by apply not_elem_of_nil in Hsrc|].
  simpl. apply elem_of_cons in Hsrc as [<-|Hsrc]; [|by apply IH].
  apply fold_scan_mono. unfold scan_file. rewrite Hes.
  assert (path_exists disk file_path = true) as ->.
  { unfold path_exists. unfold get_payment_entries, read_excel in Hes.
    by destruct (disk file_path). }
  simpl. by eapply for_each_reach.
Qed.
End Reaching.

Section Completeness.
Import ReminderEngine ExcelManager.
Variable to_datetime : string → option Z.
Variable disk : string → file_state.
Variable today : Z.

Lemma due_body_outcome entry acc :
  (due_body to_datetime today entry acc).1
  = (due_body to_datetime today entry []).1.
Proof.
  rewrite !due_body_unfold.
  destruct (py_lower (dict_get entry "Status" (PStr ""))) as [st|x]; [|done].
  destruct (String.eqb st "paid"); [done|].
  destruct (due_outcome to_datetime entry) as [d| |x]; [|done..].
  by destruct (d <=? today).
Qed.


(** An unsettled entry that is due and on which the body does not raise is
    appended, with its two derived fields. *)
Lemma due_body_takes entry d acc :
  due_raises to_datetime today entry = false →
  is_paid entry = false →
  due_day to_datetime entry = Some d →
  d ≤ today →
  (due_body to_datetime today entry acc).2
  = (acc ++ [due_entry today entry d])%list.
Proof.
  unfold due_raises. unfold_body.
  destruct (dict_get entry "Status" (PStr "")) as [| | |s| |]; simpl; try done.
  intros _ ->. simpl.
  destruct (dict_get entry "Due Date" PNone) as [|z|f|s'|d'|d' t]; simpl;
    try done.
  - destruct (String.eqb s' ""); simpl; [done|]. intros ->. simpl.
    intros Hle. by rewrite (proj2 (Z.leb_le _ _) Hle).
  - intros [= ->] Hle. by rewrite (proj2 (Z.leb_le _ _) Hle).
  - intros [= ->] Hle. by rewrite (proj2 (Z.leb_le _ _) Hle).
Qed.


(** The due-list misses no row it should hold: a row of a listed, readable
    source that is not settled and is due on or before today is in the
    due-list with its derived fields, provided the scan of its source does
    not raise on it or on a row before it. *)
Theorem due_list_complete srcs file_path city_name es i e d :
  (file_path, city_name) ∈ srcs →
  get_payment_entries to_datetime disk file_path (Some city_name) = Ok es →
  es !! i = Some e →
  (∀ e', e' ∈ take (S i) es → due_raises to_datetime today e' = false) →
  is_paid e = false →
  due_day to_datetime e = Some d →
  d ≤ today →
  due_entry today e d ∈ get_due_payments to_datetime disk today srcs.
Proof.
  intros Hsrc Hes Hi Hpre Hpaid Hd Hle.
  apply elem_of_get_due_payments. unfold collect_due.
  eapply (fold_scan_reach to_datetime disk (due_body to_datetime today)
            (due_raises to_datetime today)); try done.
  - intros x acc.
    destruct (due_body_cases to_datetime today x acc)
      as [?|(d' & _ & _ & _ & ?)]; [by left|right; eauto].
  - intros x acc ex Hx. unfold due_raises.
    by rewrite <- (due_body_outcome x acc), Hx.
  - intros x' Hx'. apply Hpre. rewrite (take_S_r _ _ e) by done.
    apply elem_of_app. by left.
  - intros acc. apply due_body_takes; try done.
    apply Hpre. rewrite (take_S_r _ _ e) by done.
    apply elem_of_app. right. left.
Qed.

End Completeness.

Ltac each_elem H :=
  repeat (apply elem_of_cons in H as [->|H]; [vm_compute; reflexivity|]);
  by apply not_elem_of_nil in H.

Lemma scenario_entries :
  ExcelManager.get_payment_entries Scenario.no_dates Scenario.disk
    "pune.xlsx" (Some "Pune")
  = Ok [Scenario.read 0 Scenario.alice; Scenario.read 1 Scenario.bob;
        Scenario.read 2 Scenario.carol; Scenario.read 3 Scenario.dana].
Proof. vm_refl. Qed.

Lemma due_list_complete_witness :
  is_paid (Scenario.read 1 Scenario.bob) = false
  ∧ due_day Scenario.no_dates (Scenario.read 1 Scenario.bob)
    = Some Scenario.today
  ∧ due_entry Scenario.today (Scenario.read 1 Scenario.bob) Scenario.today
      ∈ ReminderEngine.get_due_payments Scenario.no_dates Scenario.disk
          Scenario.today Scenario.sources.
Proof.
  split; [vm_compute; reflexivity|]. split; [vm_compute; reflexivity|].
  apply (due_list_complete Scenario.no_dates Scenario.disk Scenario.today
           Scenario.sources "pune.xlsx" "Pune" _ 1%nat _ _
           ltac:(left) scenario_entries eq_refl).
  - intros e' He'. cbn [take] in He'. each_elem He'.
  - vm_compute; reflexivity.
  - vm_compute; reflexivity.
  - lia.
Defined.


(** ** Further properties of the summary *)

Section SummaryExtras.
Import ReminderEngine ExcelManager.
Variable to_datetime : string → option Z.
Variable float_of_str : string → option PrimFloat.float.
Variable disk : string → file_state.
Variable today : Z.

Lemma summary_body_consistent entry s :
  consistent s →
  consistent (summary_body to_datetime float_of_str today entry s).2.
Proof.
  unfold consistent. intros Hs. rewrite summary_body_unfold.
  destruct (py_lower (dict_get entry "Status" (PStr ""))) as [st|x];
    [|simpl; lia].
  unfold status_effect, date_bucket.
  destruct (String.eqb st "paid").
  - destruct (due_outcome to_datetime entry) as [d| |x];
      simpl; rewrite ?andb_false_r; simpl; lia.
  - destruct (py_float float_of_str (dict_get entry "Amount" (PInt 0)))
      as [amount|x];
      destruct (String.eqb st "partial"); try (simpl; lia);
      (destruct (due_outcome to_datetime entry) as [d| |x];
       simpl; rewrite ?andb_true_r; repeat case_match; simpl; lia).
Qed.

Lemma scan_file_consistent s src :
  consistent s →
  consistent (scan_file to_datetime disk
                (summary_body to_datetime float_of_str today) s src).
Proof.
  intros Hs. destruct src as [p c]. unfold scan_file.
  destruct (negb (path_exists disk p)); [done|].
  destruct (get_payment_entries _ _ _ _) as [es|]; [|done].
  apply for_each_invariant; [|done].
  intros. by apply summary_body_consistent.
Qed.

(** Whatever the ledgers hold, the counters of a summary are consistent:
    none is negative, paid + partial + unpaid is at most total_payments, and
    overdue + due_today + upcoming is at most partial + unpaid. *)
Theorem summary_consistent srcs :
  consistent (get_payment_summary to_datetime float_of_str disk today srcs).
Proof.
  unfold get_payment_summary.
  assert (consistent summary0) as H0 by (unfold consistent; simpl; lia).
  revert H0. generalize summary0.
  induction srcs as [|src srcs IH]; intros s Hs; simpl; [done|].
  by apply IH, scan_file_consistent.
Qed.

(** A raising entry ends the loop: the entries after it are not looked at. *)
Lemma for_each_stops {St} (f : gmap string pyval → body St unit) pre e post s :
  (∀ s, ∃ x, (f e s).1 = Raised x) →
  (for_each f (pre ++ e :: post) s).2 = (for_each f (pre ++ [e]) s).2.
Proof.
  intros He. revert s. induction pre as [|y pre IH]; intros s; simpl.
  - destruct (He s) as [x Hx]. destruct (f e s) as [o s']. simpl in Hx.
    by subst o.
  - destruct (f y s) as [[u| |x] s']; simpl; auto.
Qed.

Lemma numeric_due_date_raises entry :
  numeric_due_date entry = true →
  body_raises to_datetime float_of_str today entry = true
  ∧ (is_paid entry = false → due_raises to_datetime today entry = true).
Proof.
  intros Hn.
  assert (due_outcome to_datetime entry = Raised TypeError) as Hout.
  { unfold numeric_due_date, due_outcome in *.
    destruct (dict_get entry "Due Date" PNone) as [|z|f|s'|d|d t]; try done.
    - by destruct (Z.eqb z 0).
    - by destruct (PrimFloat.eqb f PrimFloat.zero). }
  split.
  - unfold body_raises. rewrite summary_body_unfold.
    destruct (py_lower (dict_get entry "Status" (PStr ""))) as [st|x];
      [|done].
    unfold status_effect.
    destruct (String.eqb st "paid"); [by rewrite Hout|].
    destruct (py_float float_of_str (dict_get entry "Amount" (PInt 0)));
      by rewrite ?Hout.
  - unfold due_raises, is_paid. rewrite due_body_unfold.
    destruct (dict_get entry "Status" (PStr "")) as [| | |st| |]; try done.
    simpl. intros ->. by rewrite Hout.
Qed.

(** A row whose Due Date is a blank cell (NaN), or any other number but
    zero, is counted by the summary loop and ends it: every row after it in
    its source is left out of the summary.  When the row is not settled, the
    due scan ends at it as well, without taking it. *)
Theorem numeric_due_date_truncates pre e post :
  numeric_due_date e = true →
  (∀ s, (for_each (summary_body to_datetime float_of_str today)
           (pre ++ e :: post) s).2
        = (for_each (summary_body to_datetime float_of_str today)
             (pre ++ [e]) s).2)
  ∧ (is_paid e = false →
     ∀ acc, (for_each (due_body to_datetime today) (pre ++ e :: post) acc).2
            = (for_each (due_body to_datetime today) pre acc).2).
Proof.
  intros Hn. destruct (numeric_due_date_raises e Hn) as [Hs Hd]. split.
  - intros s. apply for_each_stops. intros s'.
    by apply (body_raises_iff to_datetime float_of_str today).
  - intros Hpaid acc. specialize (Hd Hpaid).
    rewrite for_each_stops.
    + revert acc. induction pre as [|y pre IH]; intros acc; simpl.
      * destruct (due_body_cases to_datetime today e acc)
          as [E|(d & Hday & _)].
        -- by destruct (due_body to_datetime today e acc) as [[u| |x] acc'].
        -- unfold due_day, numeric_due_date in *.
           by destruct (dict_get e "Due Date" PNone).
      * destruct (due_body to_datetime today y acc) as [[u| |x] acc'];
          simpl; auto.
    + intros acc'. unfold due_raises in Hd.
      rewrite (due_body_outcome to_datetime today e acc').
      destruct (due_body to_datetime today e []).1; try done. by eexists.
Qed.

Lemma body_raises_false_status entry :
  body_raises to_datetime float_of_str today entry = false →
  option_list (added_amount float_of_str entry)
  = option_list
      (if is_paid entry then None
       else match py_float float_of_str (dict_get entry "Amount" (PInt 0)) with
            | Ok amount => Some amount
            | Raise _ => None
            end).
Proof.
  unfold body_raises, added_amount, is_paid. rewrite summary_body_unfold.
  by destruct (dict_get entry "Status" (PStr "")) as [| | |st| |].
Qed.

Lemma summary_body_total_payments entry s :
  total_payments (summary_body to_datetime float_of_str today entry s).2
  = total_payments s + 1.
Proof.
  rewrite summary_body_unfold.
  destruct (py_lower (dict_get entry "Status" (PStr ""))) as [st|x]; [|done].
  unfold status_effect, date_bucket.
  destruct (String.eqb st "paid").
  - destruct (due_outcome to_datetime entry) as [d| |x];
      simpl; by rewrite ?andb_false_r.
  - destruct (py_float float_of_str (dict_get entry "Amount" (PInt 0)))
      as [amount|x];
      destruct (String.eqb st "partial"); try done;
      (destruct (due_outcome to_datetime entry) as [d| |x];
       simpl; rewrite ?andb_true_r; by repeat case_match).
Qed.

(** Over entries none of which makes the loop raise, total_amount_due grows
    by the amounts of the entries that are not settled, added in row order,
    and total_payments by the number of entries. *)
Theorem summary_of_clean_entries entries s :
  (∀ e, e ∈ entries → body_raises to_datetime float_of_str today e = false) →
  total_amount_due
    (for_each (summary_body to_datetime float_of_str today) entries s).2
  = float_sum (unsettled_amounts float_of_str entries) (total_amount_due s)
  ∧ total_payments
      (for_each (summary_body to_datetime float_of_str today) entries s).2
    = total_payments s + Z.of_nat (length entries).
Proof.
  intros Hclean. split.
  - destruct (for_each_summary_shift to_datetime float_of_str today entries s)
      as [_ ->]. f_equal.
    induction entries as [|e rest IH]; [done|].
    cbn [added_amounts]. rewrite (Hclean e) by left.
    unfold unsettled_amounts in *. cbn [omap list_omap].
    rewrite body_raises_false_status by (apply Hclean; left).
    rewrite IH by (intros; apply Hclean; by right).
    by destruct (if is_paid e then _ else _).
  - revert s. induction entries as [|e rest IH]; intros s; simpl; [lia|].
    pose proof (summary_body_total_payments e s) as Ht.
    assert (body_raises to_datetime float_of_str today e = false) as He
      by (apply Hclean; left).
    assert (∀ x, (summary_body to_datetime float_of_str today e s).1
                 ≠ Raised x) as Hno.
    { intros x Hx.
      assert (body_raises to_datetime float_of_str today e = true)
        by (apply (body_raises_iff _ _ _ _ s); by exists x).
      congruence. }
    destruct (summary_body _ _ _ e s) as [[u| |x] s']; simpl in *.
    + rewrite IH by (intros; apply Hclean; by right). lia.
    + rewrite IH by (intros; apply Hclean; by right). lia.
    + by destruct (Hno x).
Qed.
End SummaryExtras.

(** ** The due-list against the counters of the summary *)

Section DueAgainstSummary.
Import ReminderEngine ExcelManager.
Variable to_datetime : string → option Z.
Variable float_of_str : string → option PrimFloat.float.
Variable disk : string → file_state.
Variable today : Z.

(** Where the summary loop does not raise, the due scan does not raise
    either, and it appends an entry exactly when the summary loop counts one
    as overdue or due today. *)
Lemma due_summary_step e acc s :
  body_raises to_datetime float_of_str today e = false →
  (∀ x, (due_body to_datetime today e acc).1 ≠ Raised x)
  ∧ (∀ x, (summary_body to_datetime float_of_str today e s).1 ≠ Raised x)
  ∧ Z.of_nat (length (due_body to_datetime today e acc).2) + due_count s
    = Z.of_nat (length acc)
      + due_count (summary_body to_datetime float_of_str today e s).2.
Proof.
  intros Hclean.
  assert (∀ x, (summary_body to_datetime float_of_str today e s).1
               ≠ Raised x) as Hno.
  { intros x Hx.
    assert (body_raises to_datetime float_of_str today e = true)
      by (apply (body_raises_iff _ _ _ _ s); by exists x).
    congruence. }
  split_and!; [|done|]; revert Hclean; clear Hno;
    unfold body_raises, due_count;
    rewrite !summary_body_unfold, due_body_unfold;
    (destruct (py_lower (dict_get e "Status" (PStr ""))) as [st|x]; [|done]);
    unfold status_effect, date_bucket;
    destruct (String.eqb st "paid").
  - by destruct (due_outcome to_datetime e).
  - destruct (py_float float_of_str (dict_get e "Amount" (PInt 0)));
      [|done].
    destruct (due_outcome to_datetime e) as [d| |x]; [|done..].
    by destruct (d <=? today).
  - destruct (due_outcome to_datetime e) as [d| |x]; simpl;
      rewrite ?andb_false_r; simpl; intros; lia.
  - destruct (py_float float_of_str (dict_get e "Amount" (PInt 0)));
      [|done].
    destruct (due_outcome to_datetime e) as [d| |x]; [| |done];
      destruct (String.eqb st "partial").
    all: simpl; rewrite ?andb_true_r; intros _.
    all: try (destruct (Z.leb_spec d today), (Z.ltb_spec d today),
                (Z.eqb_spec d today), (Z.ltb_spec today d));
           simpl; rewrite ?length_app; simpl; lia.
Qed.

Lemma due_summary_for_each es acc s :
  (∀ e, e ∈ es → body_raises to_datetime float_of_str today e = false) →
  Z.of_nat (length (for_each (due_body to_datetime today) es acc).2)
    + due_count s
  = Z.of_nat (length acc)
    + due_count
        (for_each (summary_body to_datetime float_of_str today) es s).2.
Proof.
  revert acc s. induction es as [|e es IH]; intros acc s Hclean; simpl;
    [lia|].
  destruct (due_summary_step e acc s) as (Hd & Hs & Hstep);
    [apply Hclean; left|].
  assert (∀ e', e' ∈ es →
                body_raises to_datetime float_of_str today e' = false)
    as Hrest by (intros; apply Hclean; by right).
  destruct (due_body to_datetime today e acc) as [[u| |x] acc'];
    destruct (summary_body to_datetime float_of_str today e s)
      as [[u'| |x'] s']; simpl in *;
    try (by destruct (Hd x)); try (by destruct (Hs x'));
    specialize (IH acc' s' Hrest); lia.
Qed.

(** When no row of the listed sources makes the summary loop raise, the
    due-list has as many entries as the summary counts overdue or due
    today. *)
Theorem due_list_matches_summary srcs :
  clean_sources to_datetime float_of_str disk today srcs →
  Z.of_nat (length (get_due_payments to_datetime disk today srcs))
  = due_count (get_payment_summary to_datetime float_of_str disk today srcs).
Proof.
  intros Hclean. unfold get_due_payments.
  rewrite (Permutation_length (list_sort_perm _ _ _)).
  unfold collect_due, get_payment_summary.
  assert (∀ acc s,
            Z.of_nat (length acc) = due_count s →
            Z.of_nat (length (fold_left
                                (scan_file to_datetime disk
                                   (due_body to_datetime today)) srcs acc))
            = due_count
                (fold_left
                   (scan_file to_datetime disk
                      (summary_body to_datetime float_of_str today))
                   srcs s)) as Hgen.
  { induction srcs as [|[p c] srcs IH]; intros acc s Hacc; simpl; [done|].
    apply IH.
    - intros p' c' es e Hin. apply Hclean. by right.
    - unfold scan_file.
      destruct (negb (path_exists disk p)); [done|].
      destruct (get_payment_entries to_datetime disk p (Some c))
        as [es|x] eqn:Hes; [|done].
      pose proof (due_summary_for_each es acc s) as Hes'.
      specialize (Hes' (λ e He, Hclean p c es e ltac:(left) Hes He)).
      lia. }
  by apply Hgen.
Qed.
End DueAgainstSummary.

Lemma numeric_due_date_truncates_witness :
  numeric_due_date Scenario.erin = true
  ∧ ReminderEngine.total_payments
      (for_each (ReminderEngine.summary_body Scenario.no_dates
                   Scenario.no_floats Scenario.today)
         [Scenario.erin; Scenario.bob] ReminderEngine.summary0).2
    = 1.
Proof.
  assert (numeric_due_date Scenario.erin = true) as H
    by (vm_compute; reflexivity).
  split; [exact H|].
  destruct (numeric_due_date_truncates Scenario.no_dates Scenario.no_floats
              Scenario.today [] Scenario.erin [Scenario.bob] H) as [Hs _].
  simpl app in Hs. rewrite Hs. vm_compute. reflexivity.
Defined.

Lemma summary_of_clean_entries_witness :
  (∀ e, e ∈ [Scenario.alice; Scenario.dana] →
        body_raises Scenario.no_dates Scenario.no_floats Scenario.today e
        = false)
  ∧ ReminderEngine.total_amount_due
      (for_each (ReminderEngine.summary_body Scenario.no_dates
                   Scenario.no_floats Scenario.today)
         [Scenario.alice; Scenario.dana] ReminderEngine.summary0).2
    = 100%float.
Proof.
  assert (∀ e, e ∈ [Scenario.alice; Scenario.dana] →
               body_raises Scenario.no_dates Scenario.no_floats
                 Scenario.today e = false) as H
    by (intros e He; each_elem He).
  split; [exact H|].
  destruct (summary_of_clean_entries Scenario.no_dates Scenario.no_floats
              Scenario.today _ ReminderEngine.summary0 H) as [-> _].
  vm_compute. reflexivity.
Defined.

Lemma scenario_clean :
  clean_sources Scenario.no_dates Scenario.no_floats Scenario.disk
    Scenario.today Scenario.sources.
Proof.
  intros p c es e Hin Hes He.
  apply list_elem_of_singleton in Hin. injection Hin as -> ->.
  rewrite scenario_entries in Hes. injection Hes as <-. each_elem He.
Qed.

Lemma due_list_matches_summary_witness :
  clean_sources Scenario.no_dates Scenario.no_floats Scenario.disk
    Scenario.today Scenario.sources
  ∧ Z.of_nat (length (ReminderEngine.get_due_payments Scenario.no_dates
                        Scenario.disk Scenario.today Scenario.sources))
    = 2.
Proof.
  split; [exact scenario_clean|].
  rewrite (due_list_matches_summary Scenario.no_dates Scenario.no_floats
             Scenario.disk Scenario.today Scenario.sources scenario_clean).
  by rewrite scenario_summary.
Defined.

(** * The ledger writer *)

Section WriterFacts.
Import ExcelManager LedgerWriter.

Lemma at_set_row_edit df i col v : row_edit i df (at_set df i col v).
Proof.
  unfold row_edit, at_set. simpl. split_and!.
  - by rewrite length_alter.
  - intros j Hj. by rewrite list_lookup_alter_ne.
  - intros c Hc. destruct (has_column df col); [done|].
    apply elem_of_app. by left.
Qed.

Lemma row_edit_refl i df : row_edit i df df.
Proof. by unfold row_edit. Qed.

Lemma row_edit_trans i df1 df2 df3 :
  row_edit i df1 df2 → row_edit i df2 df3 → row_edit i df1 df3.
Proof.
  unfold row_edit. intros (Hl & Hr & Hc) (Hl' & Hr' & Hc'). split_and!.
  - congruence.
  - intros j Hj. by rewrite Hr', Hr.
  - auto.
Qed.

Lemma row_edit_at_set i df df' col v :
  row_edit i df df' → row_edit i df (at_set df' i col v).
Proof. intros H. eapply row_edit_trans; [exact H|apply at_set_row_edit]. Qed.

Lemma holds_at_set df i col v :
  (i < length (rows df))%nat → holds col v i (at_set df i col v).
Proof.
  intros Hi. destruct (lookup_lt_is_Some_2 _ _ Hi) as [r Hr].
  unfold holds, at_set, has_column. simpl. split.
  - apply bool_decide_eq_true.
    destruct (bool_decide (col ∈ columns df)) eqn:E.
    + by apply bool_decide_eq_true in E.
    + apply elem_of_app. right. left.
  - exists (<[col := v]> r). split.
    + by rewrite list_lookup_alter_eq, Hr.
    + unfold cell. by rewrite lookup_insert_eq.
Qed.

Lemma holds_at_set_other df i j col col' v v' :
  col ≠ col' → holds col v i df → holds col v i (at_set df j col' v').
Proof.
  intros Hne (Hc & r & Hr & Hv). unfold holds, at_set, has_column in *.
  simpl. apply bool_decide_eq_true in Hc. split.
  - apply bool_decide_eq_true.
    destruct (bool_decide (col' ∈ columns df)); [done|].
    apply elem_of_app. by left.
  - destruct (decide (j = i)) as [->|Hj].
    + exists (<[col' := v']> r). split.
      * by rewrite list_lookup_alter_eq, Hr.
      * unfold cell in *. by rewrite lookup_insert_ne.
    + exists r. split; [|done]. by rewrite list_lookup_alter_ne.
Qed.

Lemma at_set_length df i col v :
  length (rows (at_set df i col v)) = length (rows df).
Proof. unfold at_set. simpl. by rewrite length_alter. Qed.

Section Writer.
Variable now_date : string.
Variable str_of : pyval → string.

Lemma apply_payment_row_edit df i amount_paid df' :
  apply_payment now_date df i amount_paid = Ok df' → row_edit i df df'.
Proof.
  unfold apply_payment, mbind, result_bind.
  destruct amount_paid; try (intros [= <-]; apply row_edit_refl);
    (destruct (at_get df i "Amount") as [total|]; [|done];
     match goal with
     | |- context [py_ge ?a ?b] => destruct (py_ge a b) as [[|]|]; [| |done]
     end;
     [ intros [= <-]
     | match goal with
       | |- context [py_sub ?a ?b] => destruct (py_sub a b); [|done]
       end; intros [= <-] ];
     repeat apply row_edit_at_set; apply row_edit_refl).
Qed.

Lemma apply_remarks_row_edit df i remarks df' :
  apply_remarks str_of df i remarks = Ok df' → row_edit i df df'.
Proof.
  unfold apply_remarks, mbind, result_bind.
  destruct (nonempty remarks); [|intros [= <-]; apply row_edit_refl].
  destruct (at_get df i "Remarks"); [|done].
  intros [= <-]. apply at_set_row_edit.
Qed.

(** The steps a successful [updated_frame] went through. *)
Lemma updated_frame_inv disk file_path row_index amount_paid status new_date
    remarks p df' :
  updated_frame now_date str_of disk file_path row_index amount_paid status
    new_date remarks = Ok (p, df') →
  ∃ i df df1,
    file_path = PStr p ∧ row_index = PInt i ∧ disk p = Workbook df
    ∧ 0 ≤ i < Z.of_nat (length (rows df))
    ∧ apply_payment now_date df (Z.to_nat i) amount_paid = Ok df1
    ∧ apply_remarks str_of
        (let df2 := match nonempty status with
                    | Some s => at_set df1 (Z.to_nat i) "Status" (PStr s)
                    | None => df1
                    end in
         if truthy new_date then at_set df2 (Z.to_nat i) "Due Date" new_date
         else df2)
        (Z.to_nat i) remarks = Ok df'.
Proof.
  unfold updated_frame, mbind, result_bind, read_excel.
  destruct file_path as [| | |p0| |]; try done.
  destruct (disk p0) as [| |df] eqn:Hdisk; try done.
  destruct row_index as [|i| | | |]; try done.
  destruct ((i <? 0) || (Z.of_nat (length (rows df)) <=? i)) eqn:Hb; [done|].
  apply orb_false_iff in Hb as [Hb1 Hb2].
  apply Z.ltb_ge in Hb1. apply Z.leb_gt in Hb2.
  destruct (apply_payment now_date df (Z.to_nat i) amount_paid) as [df1|]
    eqn:Hpay; [|done].
  simpl.
  destruct (apply_remarks _ _ _ _) as [df4|] eqn:Hrem; [|done].
  intros [= <- <-]. exists i, df, df1. by split_and!.
Qed.

(** The frame of [update_payment], as the later proofs use it. *)
Lemma update_payment_one_row disk p i amount_paid status new_date remarks :
  match update_payment now_date str_of disk (PStr p) (PInt i) amount_paid
          status new_date remarks with
  | (false, disk') => disk' = disk
  | (true, disk') =>
      ∃ df df',
        disk p = Workbook df ∧ disk' p = Workbook df'
        ∧ 0 ≤ i < Z.of_nat (length (rows df))
        ∧ row_edit (Z.to_nat i) df df'
        ∧ ∀ q, q ≠ p → disk' q = disk q
  end.
Proof.
  unfold update_payment.
  destruct (updated_frame _ _ _ _ _ _ _ _ _) as [[p' df']|] eqn:E; [|done].
  apply updated_frame_inv in E
    as (i' & df & df1 & [= <-] & [= <-] & Hdisk & Hi & Hpay & Hrem).
  assert (row_edit (Z.to_nat i) df df') as Hedit.
  { apply apply_payment_row_edit in Hpay.
    apply apply_remarks_row_edit in Hrem.
    refine (row_edit_trans _ _ _ _ Hpay (row_edit_trans _ _ _ _ _ Hrem)).
    cbv zeta. destruct (nonempty status), (truthy new_date);
      repeat apply row_edit_at_set; apply row_edit_refl. }
  exists df, df'.
  refine (conj Hdisk (conj _ (conj Hi (conj Hedit _)))).
  - by rewrite fn_lookup_insert.
  - intros q Hq. by rewrite fn_lookup_insert_ne.
Qed.

(** [update_payment] writes one row of one ledger, or nothing: when it
    returns False the disk is as it was; when it returns True the path held
    a workbook, the row index was in range, and afterwards the path holds a
    sheet with the same number of rows, every other row as it was and no
    column lost, while every other path is untouched. *)
Theorem update_payment_frame disk p i amount_paid status new_date remarks :
  match update_payment now_date str_of disk (PStr p) (PInt i) amount_paid
          status new_date remarks with
  | (false, disk') => disk' = disk
  | (true, disk') =>
      ∃ df df',
        disk p = Workbook df ∧ disk' p = Workbook df'
        ∧ 0 ≤ i < Z.of_nat (length (rows df))
        ∧ row_edit (Z.to_nat i) df df'
        ∧ ∀ q, q ≠ p → disk' q = disk q
  end.
Proof. apply update_payment_one_row. Qed.
End Writer.
End WriterFacts.

(** ** The cells [update_payment] writes *)

Section WriterCells.
Import ExcelManager LedgerWriter.
Variable now_date : string.
Variable str_of : pyval → string.

Lemma at_get_holds df i col v :
  at_get df i col = Ok v ↔ holds col v i df.
Proof.
  unfold at_get, holds. destruct (has_column df col).
  - destruct (rows df !! i) as [r|].
    + split; [intros [= <-]; eauto|]. by intros (_ & r' & [= <-] & <-).
    + split; [done|]. by intros (_ & r' & ? & _).
  - split; [done|]. by intros [? _].
Qed.

Lemma row_edit_lt i df df' n :
  row_edit i df df' → (n < length (rows df))%nat → (n < length (rows df'))%nat.
Proof. intros (Hl & _) Hn. by rewrite Hl. Qed.

(** What the payment branch leaves in the row. *)
Lemma apply_payment_cells df i amount_paid df1 :
  apply_payment now_date df i amount_paid = Ok df1 →
  amount_paid ≠ PNone →
  (i < length (rows df))%nat →
  holds "Payment Date" (PStr now_date) i df1
  ∧ ∃ total, holds "Amount" total i df
      ∧ ((py_ge amount_paid total = Ok true
          ∧ holds "Amount" (PInt 0) i df1
          ∧ holds "Status" (PStr "Paid") i df1)
         ∨ (py_ge amount_paid total = Ok false
            ∧ ∃ rest, py_sub total amount_paid = Ok rest
                ∧ holds "Amount" rest i df1
                ∧ holds "Status" (PStr "Partial") i df1)).
Proof.
  intros Hpay Hne Hi.
  assert (∃ total full df0,
            at_get df i "Amount" = Ok total
            ∧ py_ge amount_paid total = Ok full
            ∧ (if full : bool then
                 Ok (at_set (at_set df i "Status" (PStr "Paid"))
                       i "Amount" (PInt 0))
               else
                 rest ← py_sub total amount_paid;
                 Ok (at_set (at_set df i "Status" (PStr "Partial"))
                       i "Amount" rest)) = Ok df0
            ∧ df1 = at_set df0 i "Payment Date" (PStr now_date))
    as (total & full & df0 & Hget & Hge & Hdf0 & ->).
  { unfold apply_payment, mbind, result_bind in Hpay.
    destruct amount_paid; try done;
      (destruct (at_get df i "Amount") as [total|]; [|done];
       match type of Hpay with
       | context [py_ge ?a ?b] =>
           destruct (py_ge a b) as [full|] eqn:Hge; [|done]
       end;
       match type of Hpay with
       | match ?x with _ => _ end = _ => destruct x as [df0|] eqn:Hdf0; [|done]
       end;
       injection Hpay as <-; exists total, full, df0;
       by rewrite ?Hge). }
  assert (i < length (rows (at_set df i "Status" (PStr "Paid"))))%nat
    as Hi1 by by rewrite at_set_length.
  assert (i < length (rows (at_set df i "Status" (PStr "Partial"))))%nat
    as Hi2 by by rewrite at_set_length.
  split.
  - apply holds_at_set.
    destruct full; unfold mbind, result_bind in Hdf0.
    + injection Hdf0 as <-. by rewrite at_set_length.
    + destruct (py_sub total amount_paid); [|done]. injection Hdf0 as <-.
      by rewrite at_set_length.
  - exists total. split; [by apply at_get_holds|].
    destruct full; unfold mbind, result_bind in Hdf0.
    + injection Hdf0 as <-. left. split_and!; [done| |].
      * apply holds_at_set_other; [done|]. by apply holds_at_set.
      * do 2 (apply holds_at_set_other; [done|]). by apply holds_at_set.
    + destruct (py_sub total amount_paid) as [rest|]; [|done].
      injection Hdf0 as <-. right. split; [done|]. exists rest.
      split_and!; [done| |].
      * apply holds_at_set_other; [done|]. by apply holds_at_set.
      * do 2 (apply holds_at_set_other; [done|]). by apply holds_at_set.
Qed.

Lemma holds_apply_payment df i amount_paid df1 col v :
  apply_payment now_date df i amount_paid = Ok df1 →
  col ≠ "Status" → col ≠ "Amount" → col ≠ "Payment Date" →
  holds col v i df → holds col v i df1.
Proof.
  intros Hpay H1 H2 H3 Hh.
  unfold apply_payment, mbind, result_bind in Hpay.
  destruct amount_paid; try (by injection Hpay as <-);
    (destruct (at_get df i "Amount") as [total|]; [|done];
     match type of Hpay with
     | context [py_ge ?a ?b] => destruct (py_ge a b) as [[|]|]; [| |done]
     end;
     [ injection Hpay as <-
     | match type of Hpay with
       | context [py_sub ?a ?b] => destruct (py_sub a b); [|done]
       end; injection Hpay as <- ];
     by repeat (apply holds_at_set_other; [done|])).
Qed.

Lemma holds_apply_remarks df i remarks df' col v :
  apply_remarks str_of df i remarks = Ok df' →
  col ≠ "Remarks" →
  holds col v i df → holds col v i df'.
Proof.
  unfold apply_remarks, mbind, result_bind. intros Hrem Hne Hh.
  destruct (nonempty remarks); [|by injection Hrem as <-].
  destruct (at_get df i "Remarks"); [|done]. injection Hrem as <-.
  by apply holds_at_set_other.
Qed.

(** The cells of the row after a successful [update_payment], as the later
    proofs use them. *)
Lemma update_payment_written disk p i amount_paid status new_date remarks
    disk' :
  update_payment now_date str_of disk (PStr p) (PInt i) amount_paid status
    new_date remarks = (true, disk') →
  ∃ df df',
    disk p = Workbook df ∧ disk' p = Workbook df'
    ∧ (∀ s, nonempty status = Some s →
            holds "Status" (PStr s) (Z.to_nat i) df')
    ∧ (truthy new_date = true → holds "Due Date" new_date (Z.to_nat i) df')
    ∧ (amount_paid ≠ PNone →
       holds "Payment Date" (PStr now_date) (Z.to_nat i) df'
       ∧ ∃ total, holds "Amount" total (Z.to_nat i) df
           ∧ ((py_ge amount_paid total = Ok true
               ∧ holds "Amount" (PInt 0) (Z.to_nat i) df'
               ∧ (nonempty status = None →
                  holds "Status" (PStr "Paid") (Z.to_nat i) df'))
              ∨ (py_ge amount_paid total = Ok false
                 ∧ ∃ rest, py_sub total amount_paid = Ok rest
                     ∧ holds "Amount" rest (Z.to_nat i) df'
                     ∧ (nonempty status = None →
                        holds "Status" (PStr "Partial") (Z.to_nat i) df')))).
Proof.
  unfold update_payment.
  destruct (updated_frame _ _ _ _ _ _ _ _ _) as [[p' df']|] eqn:E; [|done].
  intros [= <-].
  apply updated_frame_inv in E
    as (i' & df & df1 & [= <-] & [= <-] & Hdisk & Hi & Hpay & Hrem).
  set (n := Z.to_nat i) in *.
  assert (n < length (rows df))%nat as Hn by (subst n; lia).
  assert (n < length (rows df1))%nat as Hn1
    by (eapply row_edit_lt; [by eapply apply_payment_row_edit|done]).
  set (df2 := match nonempty status with
              | Some s => at_set df1 n "Status" (PStr s)
              | None => df1
              end) in *.
  assert (n < length (rows df2))%nat as Hn2.
  { subst df2. destruct (nonempty status); [|done]. by rewrite at_set_length. }
  cbv zeta in Hrem.
  set (df3 := if truthy new_date then at_set df2 n "Due Date" new_date
              else df2) in *.
  assert (∀ col v, col ≠ "Due Date" → holds col v n df2 → holds col v n df3)
    as H23.
  { intros col v Hne Hh. subst df3. destruct (truthy new_date); [|done].
    by apply holds_at_set_other. }
  assert (∀ col v, col ≠ "Status" → holds col v n df1 → holds col v n df2)
    as H12.
  { intros col v Hne Hh. subst df2. destruct (nonempty status); [|done].
    by apply holds_at_set_other. }
  exists df, df'. split; [done|]. split; [by rewrite fn_lookup_insert|].
  split_and!.
  - intros s Hs. eapply holds_apply_remarks; [done..|].
    apply H23; [done|]. subst df2. rewrite Hs. by apply holds_at_set.
  - intros Hd. eapply holds_apply_remarks; [done..|].
    subst df3. rewrite Hd. by apply holds_at_set.
  - intros Hne.
    destruct (apply_payment_cells _ _ _ _ Hpay Hne Hn)
      as (Hdate & total & Htot & Hcases).
    split.
    + eapply holds_apply_remarks; [done..|]. apply H23; [done|].
      by apply H12.
    + exists total. split; [done|].
      destruct Hcases as [(Hge & Ha & Hs)|(Hge & rest & Hsub & Ha & Hs)].
      * left. split_and!; [done| |].
        -- eapply holds_apply_remarks; [done..|]. apply H23; [done|].
           by apply H12.
        -- intros Hnone. eapply holds_apply_remarks; [done..|].
           apply H23; [done|]. subst df2. by rewrite Hnone.
      * right. split; [done|]. exists rest. split_and!; [done| |].
        -- eapply holds_apply_remarks; [done..|]. apply H23; [done|].
           by apply H12.
        -- intros Hnone. eapply holds_apply_remarks; [done..|].
           apply H23; [done|]. subst df2. by rewrite Hnone.
Qed.

(** What [update_payment] leaves in the row when it returns True: an
    explicit status, whatever the payment made of it; the new due date; the
    payment date; an Amount of 0 after a payment of at least the amount
    owed, the remainder after a smaller one, and then, when no status is
    given, the status Paid or Partial. *)
Theorem update_payment_cells disk p i amount_paid status new_date remarks
    disk' :
  update_payment now_date str_of disk (PStr p) (PInt i) amount_paid status
    new_date remarks = (true, disk') →
  ∃ df df',
    disk p = Workbook df ∧ disk' p = Workbook df'
    ∧ (∀ s, nonempty status = Some s →
            holds "Status" (PStr s) (Z.to_nat i) df')
    ∧ (truthy new_date = true → holds "Due Date" new_date (Z.to_nat i) df')
    ∧ (amount_paid ≠ PNone →
       holds "Payment Date" (PStr now_date) (Z.to_nat i) df'
       ∧ ∃ total, holds "Amount" total (Z.to_nat i) df
           ∧ ((py_ge amount_paid total = Ok true
               ∧ holds "Amount" (PInt 0) (Z.to_nat i) df'
               ∧ (nonempty status = None →
                  holds "Status" (PStr "Paid") (Z.to_nat i) df'))
              ∨ (py_ge amount_paid total = Ok false
                 ∧ ∃ rest, py_sub total amount_paid = Ok rest
                     ∧ holds "Amount" rest (Z.to_nat i) df'
                     ∧ (nonempty status = None →
                        holds "Status" (PStr "Partial") (Z.to_nat i) df')))).
Proof. apply update_payment_written. Qed.

Lemma at_set_columns df i c v col :
  col ∈ columns (at_set df i c v) ↔ col ∈ columns df ∨ col = c.
Proof.
  unfold at_set, has_column. simpl.
  destruct (bool_decide (c ∈ columns df)) eqn:E.
  - apply bool_decide_eq_true in E. split; [by left|].
    by intros [?| ->].
  - rewrite elem_of_app, list_elem_of_singleton. tauto.
Qed.

Lemma has_column_at_set_other df i c v col :
  col ≠ c → has_column (at_set df i c v) col = has_column df col.
Proof.
  intros Hne. unfold has_column. apply bool_decide_ext.
  rewrite at_set_columns. split; [|by left]. by intros [?|?].
Qed.

Lemma holds_at_set_other_inv df i j col col' v v' :
  col ≠ col' → holds col v i (at_set df j col' v') → holds col v i df.
Proof.
  intros Hne (Hc & r & Hr & Hv).
  rewrite has_column_at_set_other in Hc by done. split; [done|].
  unfold at_set in Hr. simpl in Hr.
  destruct (decide (j = i)) as [->|Hj].
  - rewrite list_lookup_alter_eq in Hr.
    destruct (rows df !! i) as [r0|]; [|done]. injection Hr as <-.
    exists r0. split; [done|]. unfold cell in *.
    by rewrite lookup_insert_ne in Hv.
  - rewrite list_lookup_alter_ne in Hr by done. by exists r.
Qed.

Lemma holds_apply_payment_inv df i amount_paid df1 col v :
  apply_payment now_date df i amount_paid = Ok df1 →
  col ≠ "Status" → col ≠ "Amount" → col ≠ "Payment Date" →
  holds col v i df1 → holds col v i df.
Proof.
  intros Hpay H1 H2 H3.
  unfold apply_payment, mbind, result_bind in Hpay.
  destruct amount_paid; try (by injection Hpay as <-);
    (destruct (at_get df i "Amount") as [total|]; [|done];
     match type of Hpay with
     | context [py_ge ?a ?b] => destruct (py_ge a b) as [[|]|]; [| |done]
     end;
     [ injection Hpay as <-
     | match type of Hpay with
       | context [py_sub ?a ?b] => destruct (py_sub a b); [|done]
       end; injection Hpay as <- ];
     intros Hh;
     by repeat (apply holds_at_set_other_inv in Hh; [|done])).
Qed.

Lemma has_column_apply_payment df i amount_paid df1 col :
  apply_payment now_date df i amount_paid = Ok df1 →
  col ≠ "Status" → col ≠ "Amount" → col ≠ "Payment Date" →
  has_column df1 col = has_column df col.
Proof.
  intros Hpay H1 H2 H3.
  unfold apply_payment, mbind, result_bind in Hpay.
  destruct amount_paid; try (by injection Hpay as <-);
    (destruct (at_get df i "Amount") as [total|]; [|done];
     match type of Hpay with
     | context [py_ge ?a ?b] => destruct (py_ge a b) as [[|]|]; [| |done]
     end;
     [ injection Hpay as <-
     | match type of Hpay with
       | context [py_sub ?a ?b] => destruct (py_sub a b); [|done]
       end; injection Hpay as <- ];
     by rewrite !has_column_at_set_other by done).
Qed.

(** Where [>=] answers, [-] does. *)
Lemma py_ge_sub a b full :
  py_ge a b = Ok full → ∃ rest, py_sub b a = Ok rest.
Proof. destruct a, b; simpl; try done; eauto. Qed.

Lemma apply_payment_ok df i amount_paid :
  (∃ df1, apply_payment now_date df i amount_paid = Ok df1)
  ↔ amount_paid = PNone
    ∨ ∃ total full, holds "Amount" total i df
                    ∧ py_ge amount_paid total = Ok full.
Proof.
  split.
  - intros [df1 Hpay]. destruct amount_paid; [by left|..]; right;
      (unfold apply_payment, mbind, result_bind in Hpay;
       destruct (at_get df i "Amount") as [total|] eqn:Hget; [|done];
       match type of Hpay with
       | context [py_ge ?a ?b] =>
           destruct (py_ge a b) as [full|] eqn:Hge; [|done]
       end;
       exists total, full; split; [by apply at_get_holds|done]).
  - intros [->|(total & full & Hh & Hge)]; [by eexists|].
    apply at_get_holds in Hh.
    destruct (py_ge_sub _ _ _ Hge) as [rest Hsub].
    unfold apply_payment, mbind, result_bind. rewrite Hh, Hge, Hsub.
    destruct amount_paid; try done; destruct full; by eexists.
Qed.

(** When [update_payment] returns True, as the later proofs use it. *)
Lemma update_payment_ok_iff disk p i amount_paid status new_date remarks :
  (update_payment now_date str_of disk (PStr p) (PInt i) amount_paid status
     new_date remarks).1 = true
  ↔ ∃ df, disk p = Workbook df
      ∧ 0 ≤ i < Z.of_nat (length (rows df))
      ∧ (amount_paid = PNone
         ∨ ∃ total full, holds "Amount" total (Z.to_nat i) df
                         ∧ py_ge amount_paid total = Ok full)
      ∧ (nonempty remarks = None ∨ has_column df "Remarks" = true).
Proof.
  unfold update_payment. split.
  - destruct (updated_frame _ _ _ _ _ _ _ _ _) as [[p' df']|] eqn:E; [|done].
    intros _.
    apply updated_frame_inv in E
      as (i' & df & df1 & [= <-] & [= <-] & Hdisk & Hi & Hpay & Hrem).
    exists df. split_and!; [done|lia|lia| |].
    + apply apply_payment_ok. eauto.
    + destruct (nonempty remarks) as [r|] eqn:Hr; [right|by left].
      rewrite <- (has_column_apply_payment _ _ _ _ "Remarks" Hpay) by done.
      unfold apply_remarks, mbind, result_bind in Hrem. rewrite Hr in Hrem.
      cbv zeta in Hrem.
      destruct (at_get _ _ "Remarks") as [ex|] eqn:Hget; [|done].
      apply at_get_holds in Hget as [Hc _].
      destruct (nonempty status), (truthy new_date);
        by rewrite ?has_column_at_set_other in Hc by done.
  - intros (df & Hdisk & Hi & Hamt & Hrem).
    apply apply_payment_ok in Hamt as [df1 Hpay].
    unfold updated_frame, read_excel, mbind, result_bind.
    rewrite Hdisk.
    assert ((i <? 0) || (Z.of_nat (length (rows df)) <=? i) = false) as ->.
    { apply orb_false_iff. split; [apply Z.ltb_ge|apply Z.leb_gt]; lia. }
    rewrite Hpay. cbv zeta.
    set (df3 := if truthy new_date then _ else _).
    assert (∃ df', apply_remarks str_of df3 (Z.to_nat i) remarks = Ok df')
      as [df' ->]; [|done].
    unfold apply_remarks, mbind, result_bind.
    destruct Hrem as [->|Hc]; [by eexists|].
    destruct (nonempty remarks); [|by eexists].
    assert (has_column df3 "Remarks" = true) as Hc3.
    { subst df3. destruct (nonempty status), (truthy new_date);
        rewrite ?has_column_at_set_other by done;
        by rewrite (has_column_apply_payment _ _ _ _ "Remarks" Hpay). }
    assert (Z.to_nat i < length (rows df3))%nat as Hn3.
    { assert (length (rows df1) = length (rows df)) as Hl
        by (by apply apply_payment_row_edit in Hpay as [? _]).
      subst df3. destruct (nonempty status), (truthy new_date);
        rewrite ?at_set_length; lia. }
    destruct (lookup_lt_is_Some_2 _ _ Hn3) as [r3 Hr3].
    unfold at_get. rewrite Hc3, Hr3. by eexists.
Qed.


(** A remark is appended, never written over: after a successful
    [update_payment] with a remark, the Remarks cell of the row holds the
    remark alone when the cell was blank (falsy or NaN), and otherwise what
    the cell held, then [; ], then the remark. *)
Theorem update_payment_remarks disk p i amount_paid status new_date r disk' :
  update_payment now_date str_of disk (PStr p) (PInt i) amount_paid status
    new_date (Some r) = (true, disk') →
  r ≠ "" →
  ∃ df df' existing,
    disk p = Workbook df ∧ disk' p = Workbook df'
    ∧ holds "Remarks" existing (Z.to_nat i) df
    ∧ holds "Remarks"
        (PStr (if truthy existing && negb (isna existing)
               then (str_of existing ++ "; " ++ r)%string else r))
        (Z.to_nat i) df'.
Proof.
  unfold update_payment.
  destruct (updated_frame _ _ _ _ _ _ _ _ _) as [[p' df']|] eqn:E; [|done].
  intros [= <-] Hr.
  apply updated_frame_inv in E
    as (i' & df & df1 & [= <-] & [= <-] & Hdisk & Hi & Hpay & Hrem).
  cbv zeta in Hrem.
  set (df3 := if truthy new_date then _ else _) in Hrem.
  unfold apply_remarks, mbind, result_bind, nonempty in Hrem.
  apply String.eqb_neq in Hr. rewrite Hr in Hrem.
  destruct (at_get df3 (Z.to_nat i) "Remarks") as [existing|] eqn:Hget;
    [|done].
  injection Hrem as Hdf'. apply at_get_holds in Hget.
  exists df, df', existing. split; [done|].
  split; [by rewrite fn_lookup_insert|]. split.
  - apply (holds_apply_payment_inv _ _ _ _ _ _ Hpay); [done..|].
    subst df3. destruct (nonempty status), (truthy new_date);
      by repeat (apply holds_at_set_other_inv in Hget; [|done]).
  - rewrite <- Hdf'. apply holds_at_set. destruct Hget as (_ & r3 & Hr3 & _).
    by apply lookup_lt_Some in Hr3.
Qed.

(** [append_log] touches the Remarks cell of one row and nothing else: when
    it returns True the sheet saved is the sheet read with that one cell
    rewritten, the stamped message after what the cell held; when it returns
    False the disk is as it was.  The message may be empty: the stamp alone
    is logged. *)
Theorem append_log_frame timestamp disk p i log_message :
  match LogWriter.append_log now_date str_of timestamp disk (PStr p) (PInt i)
          log_message with
  | (false, disk') => disk' = disk
  | (true, disk') =>
      ∃ df existing,
        disk p = Workbook df
        ∧ holds "Remarks" existing (Z.to_nat i) df
        ∧ disk'
          = <[p := Workbook
                     (at_set df (Z.to_nat i) "Remarks"
                        (PStr (if truthy existing && negb (isna existing)
                               then (str_of existing ++ "; " ++ "["
                                     ++ timestamp ++ "] " ++ log_message)%string
                               else ("[" ++ timestamp ++ "] "
                                     ++ log_message)%string)))]> disk
  end.
Proof.
  unfold LogWriter.append_log, update_payment.
  destruct (updated_frame _ _ _ _ _ _ _ _ _) as [[p' df']|] eqn:E; [|done].
  apply updated_frame_inv in E
    as (i' & df & df1 & [= <-] & [= <-] & Hdisk & Hi & Hpay & Hrem).
  simpl in Hpay. injection Hpay as <-.
  unfold apply_remarks, nonempty, mbind, result_bind in Hrem.
  cbn [String.append String.eqb truthy] in Hrem.
  destruct (at_get df (Z.to_nat i) "Remarks") as [existing|] eqn:Hget;
    [|done].
  injection Hrem as <-. apply at_get_holds in Hget.
  by exists df, existing.
Qed.
End WriterCells.

(** * Reading back what was written *)

Section ReaderTotal.
Import ExcelManager.
Variable to_datetime : string → option Z.



End ReaderTotal.

Section ReadAfterWrite.
Import ExcelManager ReminderEngine LedgerWriter.
Variable to_datetime : string → option Z.
Variable today : Z.

Lemma holds_inj col v v' i df :
  holds col v i df → holds col v' i df → v = v'.
Proof. intros (_ & r & Hr & <-) (_ & r' & Hr' & <-). congruence. Qed.

(** The entry the reader makes of a row whose Status cell reads paid. *)
Lemma settled_row_entry disk p city_name es n e df s :
  get_payment_entries to_datetime disk p city_name = Ok es →
  es !! n = Some e →
  disk p = Workbook df →
  holds "Status" (PStr s) n df →
  lower s = "paid" →
  is_paid e = true.
Proof.
  intros Hes Hn Hdisk (Hc & r & Hr & Hv) Hs.
  destruct (get_payment_entries_lookup _ _ _ _ _ _ _ Hes Hn)
    as (df0 & r' & Hdisk0 & Hr' & He).
  assert (df0 = df) as -> by congruence.
  apply annotate_entry_fields in He as (_ & _ & _ & Hst).
  destruct (to_dict_records_status to_datetime (λ _, None) disk _ _ _ Hr')
    as (r0 & Hr0 & Hraw).
  assert (r0 = r) as -> by congruence.
  unfold raw_status in Hraw. rewrite Hc, Hv in Hraw.
  rewrite Hraw in Hst. simpl in Hst.
  assert (blank (PStr s) = false) as Hb.
  { unfold blank. simpl. destruct s; [done|]. simpl. done. }
  rewrite Hb in Hst. unfold is_paid, dict_get. rewrite Hst. simpl.
  rewrite Hs. done.
Qed.

(** Every entry of the due-list or the upcoming-list is an unsettled entry
    of the reader, read from the row it names. *)
Lemma listed_row disk srcs days_ahead a :
  a ∈ get_due_payments to_datetime disk today srcs
  ∨ a ∈ get_upcoming_payments to_datetime disk today srcs days_ahead →
  ∃ p city_name es n e,
    get_payment_entries to_datetime disk p (Some city_name) = Ok es
    ∧ es !! n = Some e ∧ is_paid e = false
    ∧ row_of a p (Z.of_nat n).
Proof.
  intros [Ha|Ha].
  - apply elem_of_get_due_payments, collect_due_elem in Ha
      as (p & c & es & e & d & _ & Hes & He & _ & _ & Hpaid & ->).
    apply list_elem_of_lookup in He as [n Hn].
    destruct (get_payment_entries_lookup _ _ _ _ _ _ _ Hes Hn)
      as (df0 & r & _ & _ & Hr).
    apply annotate_entry_fields in Hr as (Hp & Hi & _).
    exists p, c, es, n, e. split_and!; try done.
    unfold row_of, due_entry. by rewrite !lookup_insert_ne.
  - apply elem_of_get_upcoming_payments, collect_upcoming_elem in Ha
      as (p & c & es & e & d & _ & Hes & He & _ & _ & Hpaid & ->).
    apply list_elem_of_lookup in He as [n Hn].
    destruct (get_payment_entries_lookup _ _ _ _ _ _ _ Hes Hn)
      as (df0 & r & _ & _ & Hr).
    apply annotate_entry_fields in Hr as (Hp & Hi & _).
    exists p, c, es, n, e. split_and!; try done.
    unfold row_of, upcoming_entry. by rewrite !lookup_insert_ne.
Qed.

(** A row whose Status cell reads paid, in any letter case, is in neither
    list, whatever its due date. *)
Lemma settled_row_not_listed disk p df s i srcs days_ahead a :
  disk p = Workbook df →
  holds "Status" (PStr s) (Z.to_nat i) df →
  lower s = "paid" →
  0 ≤ i →
  a ∈ get_due_payments to_datetime disk today srcs
  ∨ a ∈ get_upcoming_payments to_datetime disk today srcs days_ahead →
  ¬ row_of a p i.
Proof.
  intros Hdisk Hh Hs Hi Ha [Hp Hrow].
  apply listed_row in Ha
    as (p' & c & es & n & e & Hes & Hn & Hpaid & Hp' & Hrow').
  assert (p' = p) as -> by congruence.
  assert (Z.of_nat n = i) as Hni by congruence.
  assert (Z.to_nat i = n) as Hin by lia. rewrite Hin in Hh.
  rewrite (settled_row_entry _ _ _ _ _ _ _ _ Hes Hn Hdisk Hh Hs) in Hpaid.
  done.
Qed.

Section Ledger.
Variable now_date : string.
Variable str_of : pyval → string.

(** A payment of at least the amount owed, recorded with no explicit
    status, settles the row: read back from the saved ledger, the row is in
    neither the due-list nor the upcoming-list.  (The sheet is taken to have
    no column named row_index of its own.) *)
Theorem full_payment_leaves_lists disk p i df total amount_paid new_date
    remarks disk' :
  update_payment now_date str_of disk (PStr p) (PInt i) amount_paid None
    new_date remarks = (true, disk') →
  disk p = Workbook df →
  "row_index" ∉ columns df →
  holds "Amount" total (Z.to_nat i) df →
  py_ge amount_paid total = Ok true →
  ∀ srcs days_ahead a,
    a ∈ get_due_payments to_datetime disk' today srcs
    ∨ a ∈ get_upcoming_payments to_datetime disk' today srcs days_ahead →
    ¬ row_of a p i.
Proof.
  intros Hup Hdisk _ Htot Hge srcs days_ahead a Ha.
  assert (0 ≤ i) as Hi.
  { pose proof (update_payment_one_row now_date str_of disk p i amount_paid
                  None new_date remarks) as Hf.
    rewrite Hup in Hf. destruct Hf as (? & ? & _ & _ & ? & _). lia. }
  destruct (update_payment_written _ _ _ _ _ _ _ _ _ _ Hup)
    as (df0 & df' & Hdisk0 & Hdisk' & _ & _ & Hamt).
  assert (df0 = df) as -> by congruence.
  assert (amount_paid ≠ PNone) as Hne by (by intros ->).
  destruct (Hamt Hne) as (_ & total' & Htot' & Hcases).
  assert (total' = total) as -> by (eapply holds_inj; eauto).
  destruct Hcases as [(_ & _ & Hst)|(Hge' & _)]; [|congruence].
  eapply settled_row_not_listed; [exact Hdisk'|by apply Hst|done|done|done].
Qed.
End Ledger.
End ReadAfterWrite.

(** * The handlers of the reminder window *)

Section HandlerFacts.
Import ExcelManager ReminderEngine LedgerWriter UIHandler EmailNotifier.
Variable to_datetime : string → option Z.
Variable today : Z.
Variable now_date : string.
Variable str_of : pyval → string.
Variable float_of_str : string → option PrimFloat.float.
Variable email_notifier : option notifier.

(** What a handler does after the ledger update does not depend on the
    ledger: run against any two disks, [mark_as_paid] shows the same error
    box or sends the same notification and takes the same closing steps, and
    so does [reschedule_payment].  Neither looks at what [update_payment]
    returned. *)
Theorem handlers_ignore_update_result disk1 disk2 entry amount_paid new_date
    formatted_date remark :
  after_update (mark_as_paid now_date str_of float_of_str email_notifier
                  disk1 entry amount_paid).2
  = after_update (mark_as_paid now_date str_of float_of_str email_notifier
                    disk2 entry amount_paid).2
  ∧ after_update (reschedule_payment now_date str_of email_notifier disk1
                    entry new_date formatted_date remark).2
    = after_update (reschedule_payment now_date str_of email_notifier disk2
                      entry new_date formatted_date remark).2.
Proof.
  unfold mark_as_paid, reschedule_payment. split.
  - destruct (float_of_str amount_paid) as [amount|]; [|done].
    destruct (dict_item entry "file_path") as [p|]; [|done].
    destruct (dict_item entry "row_index") as [i|]; [|done].
    destruct (update_payment _ _ disk1 _ _ _ _ _ _) as [ok1 d1].
    destruct (update_payment _ _ disk2 _ _ _ _ _ _) as [ok2 d2].
    unfold after_update. simpl snd. by rewrite !filter_cons_False.
  - destruct (dict_item entry "file_path") as [p|]; [|done].
    destruct (dict_item entry "row_index") as [i|]; [|done].
    destruct (update_payment _ _ disk1 _ _ _ _ _ _) as [ok1 d1].
    destruct (update_payment _ _ disk2 _ _ _ _ _ _) as [ok2 d2].
    unfold after_update. simpl snd. by rewrite !filter_cons_False.
Qed.

(** A part payment entered in the reminder window: the row is saved with
    the remainder still under Amount and with the status Paid, and, read
    back, is in neither the due-list nor the upcoming-list any more.  (The
    sheet is taken to have no column named row_index of its own.) *)
Theorem part_payment_marked_paid disk entry amount_paid amount p i df total :
  float_of_str amount_paid = Some amount →
  row_of entry p i →
  disk p = Workbook df →
  0 ≤ i < Z.of_nat (length (rows df)) →
  "row_index" ∉ columns df →
  holds "Amount" total (Z.to_nat i) df →
  py_ge (PFloat amount) total = Ok false →
  ∃ df' rest,
    (mark_as_paid now_date str_of float_of_str email_notifier disk entry
       amount_paid).1 p = Workbook df'
    ∧ py_sub total (PFloat amount) = Ok rest
    ∧ holds "Amount" rest (Z.to_nat i) df'
    ∧ holds "Status" (PStr "Paid") (Z.to_nat i) df'
    ∧ ∀ srcs days_ahead a,
        a ∈ get_due_payments to_datetime
              (mark_as_paid now_date str_of float_of_str email_notifier disk
                 entry amount_paid).1 today srcs
        ∨ a ∈ get_upcoming_payments to_datetime
                (mark_as_paid now_date str_of float_of_str email_notifier
                   disk entry amount_paid).1 today srcs days_ahead →
        ¬ row_of a p i.
Proof.
  intros Hamount [Hp Hrow] Hdisk Hi _ Htot Hge.
  unfold mark_as_paid, dict_item. rewrite Hamount, Hp, Hrow.
  destruct (update_payment now_date str_of disk (PStr p) (PInt i)
              (PFloat amount) (Some "Paid") PNone None)
    as [ok disk'] eqn:Hup.
  assert (ok = true) as ->.
  { change ok with (ok, disk').1. rewrite <- Hup.
    apply update_payment_ok_iff. exists df. split_and!; [done|lia|lia| |].
    - right. by exists total, false.
    - by left. }
  simpl fst.
  destruct (update_payment_written _ _ _ _ _ _ _ _ _ _ Hup)
    as (df0 & df' & Hdisk0 & Hdisk' & Hst & _ & Hamt).
  assert (df0 = df) as -> by congruence.
  destruct (Hamt ltac:(done)) as (_ & total' & Htot' & Hcases).
  assert (total' = total) as -> by (eapply holds_inj; eauto).
  destruct Hcases as [(Hge' & _)|(_ & rest & Hsub & Hrest & _)];
    [congruence|].
  exists df', rest. split_and!; [done|done|done|by apply Hst|].
  intros srcs days_ahead a Ha.
  eapply settled_row_not_listed;
    [exact Hdisk'|by apply Hst|done|lia|exact Ha].
Qed.

(** Rescheduling pays the row off: [reschedule_payment] hands the amount
    the entry shows to [update_payment] as the amount paid, so a row whose
    Amount is the number the entry shows is saved with Amount 0, today as
    its payment date, the status Rescheduled and the new due date. *)
Theorem reschedule_zeroes_amount disk entry new_date formatted_date remark
    p i df total :
  row_of entry p i →
  entry !! "Amount" = Some total →
  disk p = Workbook df →
  0 ≤ i < Z.of_nat (length (rows df)) →
  holds "Amount" total (Z.to_nat i) df →
  py_ge total total = Ok true →
  remark = "" ∨ has_column df "Remarks" = true →
  ∃ df',
    (reschedule_payment now_date str_of email_notifier disk entry new_date
       formatted_date remark).1 p = Workbook df'
    ∧ holds "Amount" (PInt 0) (Z.to_nat i) df'
    ∧ holds "Payment Date" (PStr now_date) (Z.to_nat i) df'
    ∧ holds "Status" (PStr "Rescheduled") (Z.to_nat i) df'
    ∧ holds "Due Date" (PDate new_date) (Z.to_nat i) df'.
Proof.
  intros [Hp Hrow] Hamount Hdisk Hi Htot Hge Hrem.
  unfold reschedule_payment, dict_item, dict_get.
  rewrite Hp, Hrow, Hamount. simpl default.
  destruct (update_payment now_date str_of disk (PStr p) (PInt i) total
              (Some "Rescheduled") (PDate new_date) (Some remark))
    as [ok disk'] eqn:Hup.
  assert (ok = true) as ->.
  { change ok with (ok, disk').1. rewrite <- Hup.
    apply update_payment_ok_iff. exists df. split_and!; [done|lia|lia| |].
    - right. by exists total, true.
    - destruct Hrem as [->|?]; [by left|by right]. }
  simpl fst.
  destruct (update_payment_written _ _ _ _ _ _ _ _ _ _ Hup)
    as (df0 & df' & Hdisk0 & Hdisk' & Hst & Hdue & Hamt).
  assert (df0 = df) as -> by congruence.
  assert (total ≠ PNone) as Hne by (intros ->; done).
  destruct (Hamt Hne) as (Hdate & total' & Htot' & Hcases).
  assert (total' = total) as -> by (eapply holds_inj; eauto).
  destruct Hcases as [(_ & Hzero & _)|(Hge' & _)]; [|congruence].
  exists df'. split_and!; [done|done|done|by apply Hst|by apply Hdue].
Qed.
End HandlerFacts.

(** ** At the desk *)

Lemma pair_true_eta {A} (x : bool * A) : x.1 = true → x = (true, x.2).
Proof. destruct x as [b a]. simpl. by intros ->. Defined.

Lemma update_payment_cells_witness :
  LedgerWriter.update_payment Desk.now Scenario.show Scenario.disk
    (PStr "pune.xlsx") (PInt 0) (PFloat 40) None PNone None
  = (true, Desk.part_paid.2)
  ∧ ∃ df', Desk.part_paid.2 "pune.xlsx" = Workbook df'
           ∧ holds "Payment Date" (PStr Desk.now) 0 df'.
Proof.
  assert (LedgerWriter.update_payment Desk.now Scenario.show Scenario.disk
            (PStr "pune.xlsx") (PInt 0) (PFloat 40) None PNone None
          = (true, Desk.part_paid.2)) as H
    by (apply pair_true_eta; vm_compute; reflexivity).
  split; [exact H|].
  destruct (update_payment_cells _ _ _ _ _ _ _ _ _ _ H)
    as (df & df' & _ & Hd' & _ & _ & Hamt).
  exists df'. split; [exact Hd'|]. by apply Hamt.
Defined.

Lemma update_payment_remarks_witness :
  LedgerWriter.update_payment Desk.now Scenario.show Desk.disk
    (PStr "noted.xlsx") (PInt 0) PNone None PNone (Some "promised Friday")
  = (true, Desk.noted.2)
  ∧ ∃ df', Desk.noted.2 "noted.xlsx" = Workbook df'
           ∧ holds "Remarks" (PStr "called; promised Friday") 0 df'.
Proof.
  assert (LedgerWriter.update_payment Desk.now Scenario.show Desk.disk
            (PStr "noted.xlsx") (PInt 0) PNone None PNone
            (Some "promised Friday")
          = (true, Desk.noted.2)) as H
    by (apply pair_true_eta; vm_compute; reflexivity).
  split; [exact H|].
  destruct (update_payment_remarks _ _ _ _ _ _ _ _ _ _ H ltac:(done))
    as (df & df' & existing & Hd & Hd' & Hex & Hnew).
  exists df'. split; [exact Hd'|].
  assert (Desk.disk "noted.xlsx" = Workbook Desk.noted_ledger) as Hd0
    by (vm_compute; reflexivity).
  rewrite Hd0 in Hd. injection Hd as <-.
  assert (holds "Remarks" (PStr "called") 0 Desk.noted_ledger) as Hc.
  { split; [done|]. eexists. split; [reflexivity|]. vm_compute. reflexivity. }
  by rewrite (holds_inj _ _ _ _ _ Hex Hc) in Hnew.
Defined.

(** A closed decidable proposition, decided by evaluation. *)
Ltac decided :=
  match goal with
  | |- ?P => exact (bool_decide_unpack P I)
  end.


Lemma full_payment_leaves_lists_witness :
  LedgerWriter.update_payment Desk.now Scenario.show Scenario.disk
    (PStr "pune.xlsx") (PInt 0) (PFloat 100) None PNone None
  = (true, Desk.paid_up.2)
  ∧ holds "Amount" (PFloat 100) 0 Scenario.ledger
  ∧ ∀ a, a ∈ ReminderEngine.get_due_payments Scenario.no_dates
               Desk.paid_up.2 Scenario.today Scenario.sources →
         ¬ row_of a "pune.xlsx" 0.
Proof.
  assert (LedgerWriter.update_payment Desk.now Scenario.show Scenario.disk
            (PStr "pune.xlsx") (PInt 0) (PFloat 100) None PNone None
          = (true, Desk.paid_up.2)) as H
    by (apply pair_true_eta; vm_compute; reflexivity).
  assert (holds "Amount" (PFloat 100) 0 Scenario.ledger) as Ha.
  { split; [done|]. eexists. split; [reflexivity|]. vm_compute. reflexivity. }
  split; [exact H|]. split; [exact Ha|].
  intros a Hin.
  refine (full_payment_leaves_lists Scenario.no_dates Scenario.today
            Desk.now Scenario.show Scenario.disk "pune.xlsx" 0
            Scenario.ledger (PFloat 100) (PFloat 100) PNone None
            Desk.paid_up.2 H eq_refl _ Ha _ Scenario.sources 7 a
            (or_introl Hin)).
  - decided.
  - vm_compute. reflexivity.
Defined.

Lemma part_payment_marked_paid_witness :
  row_of Scenario.alice_due "pune.xlsx" 0
  ∧ holds "Amount" (PFloat 100) 0 Scenario.ledger
  ∧ ∃ df',
      (UIHandler.mark_as_paid Desk.now Scenario.show Desk.typed_amount
         (Some Scenario.mailer) Scenario.disk Scenario.alice_due "40").1
        "pune.xlsx" = Workbook df'
      ∧ holds "Amount" (PFloat 60) 0 df'
      ∧ holds "Status" (PStr "Paid") 0 df'.
Proof.
  assert (row_of Scenario.alice_due "pune.xlsx" 0) as Hrow
    by (split; vm_compute; reflexivity).
  assert (holds "Amount" (PFloat 100) 0 Scenario.ledger) as Ha.
  { split; [done|]. eexists. split; [reflexivity|]. vm_compute. reflexivity. }
  split; [exact Hrow|]. split; [exact Ha|].
  destruct (part_payment_marked_paid Scenario.no_dates Scenario.today
              Desk.now Scenario.show Desk.typed_amount (Some Scenario.mailer)
              Scenario.disk Scenario.alice_due "40" 40%float "pune.xlsx" 0
              Scenario.ledger (PFloat 100) eq_refl Hrow eq_refl)
    as (df' & rest & Hd' & Hsub & Hrest & Hst & _).
  - simpl. lia.
  - decided.
  - exact Ha.
  - vm_compute. reflexivity.
  - exists df'. split; [exact Hd'|]. split; [|exact Hst].
    vm_compute in Hsub. injection Hsub as <-. exact Hrest.
Defined.

Lemma reschedule_zeroes_amount_witness :
  row_of Scenario.alice_due "pune.xlsx" 0
  ∧ Scenario.alice_due !! "Amount" = Some (PFloat 100)
  ∧ ∃ df',
      (UIHandler.reschedule_payment Desk.now Scenario.show
         (Some Scenario.mailer) Scenario.disk Scenario.alice_due
         (Scenario.toordinal 2024 4 1) "2024-04-01" "").1
        "pune.xlsx" = Workbook df'
      ∧ holds "Amount" (PInt 0) 0 df'
      ∧ holds "Status" (PStr "Rescheduled") 0 df'.
Proof.
  assert (row_of Scenario.alice_due "pune.xlsx" 0) as Hrow
    by (split; vm_compute; reflexivity).
  assert (Scenario.alice_due !! "Amount" = Some (PFloat 100)) as Hamt
    by (vm_compute; reflexivity).
  assert (holds "Amount" (PFloat 100) 0 Scenario.ledger) as Ha.
  { split; [done|]. eexists. split; [reflexivity|]. vm_compute. reflexivity. }
  split; [exact Hrow|]. split; [exact Hamt|].
  destruct (reschedule_zeroes_amount Desk.now Scenario.show
              (Some Scenario.mailer) Scenario.disk Scenario.alice_due
              (Scenario.toordinal 2024 4 1) "2024-04-01" "" "pune.xlsx" 0
              Scenario.ledger (PFloat 100) Hrow Hamt eq_refl)
    as (df' & Hd' & Hzero & _ & Hst & _).
  - simpl. lia.
  - exact Ha.
  - vm_compute. reflexivity.
  - by left.
  - exists df'. split; [exact Hd'|]. split; [exact Hzero|exact Hst].
Defined.

(** * The stored files *)

Section PathFacts.
Import Paths.

Lemma app_cons a u v : (String a u ++ v)%string = String a (u ++ v).
Proof. reflexivity. Qed.

Lemma app_nil_l v : ("" ++ v)%string = v.
Proof. reflexivity. Qed.

Lemma app_assoc_str u v w : ((u ++ v) ++ w)%string = (u ++ v ++ w)%string.
Proof.
  induction u as [|a u IH]; [done|]. by rewrite !app_cons, IH.
Qed.

Lemma length_app_str u v :
  String.length (u ++ v) = (String.length u + String.length v)%nat.
Proof.
  induction u as [|a u IH]; [done|]. rewrite app_cons. simpl. by rewrite IH.
Qed.

Lemma rsplit_none c s : has_char c s = false → rsplit c s = None.
Proof.
  induction s as [|a s IH]; simpl; [done|].
  intros [Ha Hs]%orb_false_iff. by rewrite IH, Ha.
Qed.

Lemma rsplit_app c u t :
  has_char c t = false → rsplit c (u ++ String c t) = Some (u, t).
Proof.
  intros Ht. induction u as [|a u IH].
  - rewrite app_nil_l. simpl. by rewrite (rsplit_none _ _ Ht), Ascii.eqb_refl.
  - rewrite app_cons. simpl. by rewrite IH.
Qed.


Lemma eqb_length s t :
  String.length s ≠ String.length t → String.eqb s t = false.
Proof. intros Hl. apply String.eqb_neq. by intros ->. Qed.

Lemma endswith_app u e t :
  (String.length t ≤ String.length e)%nat →
  endswith (u ++ e) t = endswith e t.
Proof.
  intros Hl. induction u as [|a u IH]; [done|].
  rewrite app_cons. cbn [endswith]. rewrite IH.
  rewrite eqb_length; [done|].
  cbn [String.length]. rewrite length_app_str. lia.
Qed.

Lemma endswith_sep_inv a :
  endswith a "/" = true → ∃ u, a = (u ++ "/")%string.
Proof.
  induction a as [|b a IH]; [done|]. cbn [endswith].
  intros [E|E]%orb_true_iff.
  - apply String.eqb_eq in E as ->. by exists "".
  - destruct (IH E) as [u ->]. by exists (String b u).
Qed.

Lemma startswith_sep s :
  has_char "/" s = false → startswith s "/" = false.
Proof.
  destruct s as [|a s]; [done|]. simpl.
  intros [Ha _]%orb_false_iff. by rewrite Ha.
Qed.

(** A folder joined with a name: the folder itself or the folder and a
    separator, then the name. *)
Lemma join_name a name :
  has_char "/" name = false →
  join a name = name
  ∨ ∃ u, join a name = (u ++ String "/" name)%string.
Proof.
  intros Hn. unfold join. rewrite (startswith_sep _ Hn).
  destruct (String.eqb a "" || endswith a "/") eqn:E.
  - apply orb_true_iff in E as [->%String.eqb_eq|E]; [by left|].
    apply endswith_sep_inv in E as [u ->]. right. exists u.
    by rewrite app_assoc_str.
  - right. by exists a.
Qed.

Lemma basename_join a name :
  has_char "/" name = false → basename (join a name) = name.
Proof.
  intros Hn. unfold basename, split.
  destruct (join_name a name Hn) as [->|[u ->]].
  - by rewrite rsplit_none.
  - by rewrite rsplit_app.
Qed.

(** A name with no separator in it, and not empty, ends in a character
    that is no separator. *)
Lemma name_last s :
  s ≠ "" → has_char "/" s = false →
  ∃ u a, s = (u ++ String a "")%string ∧ Ascii.eqb a "/" = false.
Proof.
  induction s as [|b s IH]; [done|]. intros _. simpl.
  intros [Hb Hs]%orb_false_iff. destruct s as [|b' s'].
  - by exists "", b.
  - destruct IH as (u & a & Hu & Ha); [done|done|].
    exists (String b u), a. split; [|done]. by rewrite app_cons, <- Hu.
Qed.

Lemma rstrip_sep s a :
  Ascii.eqb a "/" = false →
  rstrip "/" ((s ++ String a "") ++ "/") = (s ++ String a "")%string.
Proof.
  intros Ha. induction s as [|b s IH].
  - rewrite !app_nil_l. simpl. by rewrite Ha.
  - rewrite !app_cons. cbn [rstrip]. rewrite IH.
    destruct s; by rewrite ?app_nil_l, ?app_cons.
Qed.

Lemma all_char_last s a :
  Ascii.eqb a "/" = false → all_char "/" ((s ++ String a "") ++ "/") = false.
Proof.
  intros Ha. induction s as [|b s IH].
  - rewrite !app_nil_l. simpl. by rewrite Ha.
  - rewrite !app_cons. cbn [all_char]. rewrite IH. apply andb_false_r.
Qed.

Lemma endswith_last s a :
  Ascii.eqb a "/" = false → endswith (s ++ String a "") "/" = false.
Proof.
  intros Ha. rewrite endswith_app by (simpl; lia). simpl. by rewrite Ha.
Qed.

(** The folder is found again from a path inside it: for a folder name and
    a file name as a directory listing gives them, not empty and with no
    separator in them. *)
Lemma dirname_join a name :
  has_char "/" name = false →
  (∃ u c, a = (u ++ String c "")%string ∧ Ascii.eqb c "/" = false) →
  dirname (join a name) = a.
Proof.
  intros Hn (u & c & -> & Hc). unfold dirname, split, join.
  rewrite (startswith_sep _ Hn), (endswith_last _ _ Hc).
  assert (String.eqb (u ++ String c "") "" = false) as ->
    by (by destruct u).
  simpl orb. cbv iota.
  change ("/" ++ name)%string with (String "/" name).
  rewrite rsplit_app by done. cbn [fst].
  by rewrite all_char_last, rstrip_sep.
Qed.

Lemma city_of_stored_path base_folder city_name filename :
  city_name ≠ "" → has_char "/" city_name = false →
  has_char "/" filename = false →
  basename (dirname (join (join base_folder city_name) filename)) = city_name.
Proof.
  intros Hne Hc Hf.
  destruct (name_last _ Hne Hc) as (u & c & Hu & Hlast).
  rewrite dirname_join; [by apply basename_join|done|].
  destruct (join_name base_folder city_name Hc) as [->|[v ->]].
  - by exists u, c.
  - exists (v ++ String "/" u)%string, c. split; [|done].
    by rewrite Hu, app_assoc_str, app_cons.
Qed.
End PathFacts.

(** ** What the manager lists *)

Section FileFacts.
Import Paths FileManager.
Variable base_folder : string.
Variable fs : filesystem.

Lemma scan_cities_spec items acc :
  scan_cities base_folder fs items acc
  = Ok (acc ++ flat_map
                 (λ c, city_entries (join base_folder c) c
                         (entries fs (join base_folder c)))
                 (List.filter (λ item, isdir fs (join base_folder item))
                    items))%list.
Proof.
  revert acc. induction items as [|c items IH]; intros acc; simpl.
  - by rewrite app_nil_r.
  - destruct (isdir fs (join base_folder c)) eqn:E; simpl; [|apply IH].
    unfold listdir. rewrite E. unfold mbind, result_bind. rewrite IH.
    by rewrite <- app_assoc.
Qed.

(** The three listings agree: [list_all_files] gives, city by city in the
    order of [list_all_cities], the files [get_city_files] gives for the
    city, each paired with the city; and [get_city_files] raises for none
    of these cities. *)
Theorem list_all_files_by_city cities :
  dirs_exist fs →
  list_all_cities base_folder fs = Ok cities →
  list_all_files base_folder fs
  = Ok (flat_map (λ c, (λ f, (f, c))
                         <$> returned (get_city_files base_folder fs c))
          cities)
  ∧ ∀ c, c ∈ cities → ∃ files, get_city_files base_folder fs c = Ok files.
Proof.
  intros Hdirs. unfold list_all_cities, list_all_files.
  destruct (path_exists fs base_folder); simpl.
  2: { intros [= <-]. split; [done|]. by intros c ?%not_elem_of_nil. }
  unfold listdir. destruct (isdir fs base_folder); [|done].
  unfold mbind, result_bind. intros [= <-].
  assert (∀ c, isdir fs (join base_folder c) = true →
               get_city_files base_folder fs c
               = Ok (join (join base_folder c)
                       <$> List.filter is_excel_name
                             (entries fs (join base_folder c)))) as Hcity.
  { intros c Hc. unfold get_city_files, listdir.
    by rewrite (Hdirs _ Hc), Hc. }
  split.
  - rewrite scan_cities_spec. f_equal. simpl.
    induction (entries fs base_folder) as [|c items IH]; [done|]. simpl.
    destruct (isdir fs (join base_folder c)) eqn:E; [|done]. simpl.
    rewrite IH, (Hcity _ E). f_equal. unfold city_entries. simpl.
    by rewrite <- list_fmap_compose.
  - intros c Hc. apply list_elem_of_In, filter_In in Hc as [_ Hc].
    rewrite (Hcity _ Hc). by eexists.
Qed.

(** Where an item of [list_all_files] comes from. *)
Lemma list_all_files_elem files file_path city_name :
  listing_names fs →
  list_all_files base_folder fs = Ok files →
  (file_path, city_name) ∈ files →
  ∃ filename,
    file_path = join (join base_folder city_name) filename
    ∧ city_name ≠ "" ∧ has_char "/" city_name = false
    ∧ has_char "/" filename = false ∧ is_excel_name filename = true.
Proof.
  intros Hnames. unfold list_all_files.
  destruct (path_exists fs base_folder); simpl;
    [|by intros [= <-] ?%not_elem_of_nil].
  unfold listdir. destruct (isdir fs base_folder); [|done].
  unfold mbind, result_bind. rewrite scan_cities_spec. intros [= <-].
  simpl. intros Hin. apply list_elem_of_In, in_flat_map in Hin
    as (c & Hc & Hin).
  apply filter_In in Hc as [Hc _]. apply list_elem_of_In in Hc.
  apply list_elem_of_In in Hin. unfold city_entries in Hin.
  apply list_elem_of_fmap in Hin as (filename & [= -> ->] & Hf).
  apply list_elem_of_In, filter_In in Hf as [Hf Hx].
  apply list_elem_of_In in Hf.
  destruct (Hnames _ _ Hc) as [? ?]. destruct (Hnames _ _ Hf) as [_ ?].
  by exists filename.
Qed.
End FileFacts.

(** ** The reminder queue *)

Section QueueFacts.
Import Paths FileManager ListView ExcelManager ReminderEngine.
Variable to_datetime : string → option Z.
Variable disk : string → file_state.
Variable today : Z.

Lemma annotate_entry_city file_path c i r e :
  annotate_entry to_datetime file_path (Some c) i r = Ok e →
  c ≠ "" →
  e !! "city" = Some (PStr c).
Proof.
  intros He Hc. apply String.eqb_neq in Hc.
  unfold annotate_entry, clean_due_date, dict_item, mbind, result_bind in He.
  rewrite Hc in He.
  set (e0 := <["city" := PStr c]> _) in He.
  assert (e0 !! "city" = Some (PStr c)) as H0
    by (subst e0; by rewrite lookup_insert_eq).
  clearbody e0. revert He.
  destruct (e0 !! "Due Date") as [due|]; [|done].
  assert (∀ v, (<["Due Date" := v]> e0) !! "city" = Some (PStr c)) as H1
    by (intros v; by rewrite lookup_insert_ne).
  assert (∀ e1, e1 !! "city" = Some (PStr c) →
                clean_status e1 = Ok e → e !! "city" = Some (PStr c)) as Hst.
  { intros e1 He1. unfold clean_status, dict_item, mbind, result_bind.
    destruct (e1 !! "Status") as [st|]; [|done].
    destruct (_ || _); intros [= <-]; [|done]. by rewrite lookup_insert_ne. }
  destruct due as [| | |s|d|d t]; try (by apply (Hst e0)).
  - destruct (to_datetime s); [by apply (Hst _ (H1 _))|by apply (Hst e0)].
  - by apply (Hst _ (H1 _)).
Qed.

Lemma mapM_id {A} (f : A → result A) (l : list A) :
  (∀ a, a ∈ l → f a = Ok a) → mapM f l = Ok l.
Proof.
  induction l as [|a l IH]; intros Hf; [done|].
  simpl. rewrite (Hf a) by left.
  rewrite IH by (intros b Hb; apply Hf; by right). done.
Qed.

(** The reminders queued by [check_due_payments], and by the check at
    start-up, are the due-list itself: for the files [list_all_files] gives,
    the city worked out from the path of each reminder is the city the
    engine had already put there. *)
Theorem reminders_keep_city base_folder fs files :
  listing_names fs →
  list_all_files base_folder fs = Ok files →
  queue_reminders to_datetime disk today files
  = Ok (match get_due_payments to_datetime disk today files with
        | [] => None
        | due_payments => Some due_payments
        end).
Proof.
  intros Hnames Hfiles. unfold queue_reminders.
  destruct (get_due_payments to_datetime disk today files) as [|a0 l] eqn:E;
    [done|].
  rewrite mapM_id; [done|]. intros a Ha. rewrite <- E in Ha.
  apply elem_of_get_due_payments, collect_due_elem in Ha
    as (p & c & es & e & d & Hsrc & Hes & He & _ & _ & _ & ->).
  destruct (list_all_files_elem base_folder fs files p c Hnames Hfiles Hsrc)
    as (filename & -> & Hne & Hc & Hf & _).
  apply list_elem_of_lookup in He as [i Hi].
  destruct (get_payment_entries_lookup _ _ _ _ _ _ _ Hes Hi)
    as (df & r & _ & _ & Hr).
  pose proof (annotate_entry_city _ _ _ _ _ Hr Hne) as Hcity.
  apply annotate_entry_fields in Hr as (Hp & _).
  unfold with_city, dict_item, due_entry, mbind, result_bind.
  rewrite !lookup_insert_ne, Hp by done. simpl.
  rewrite city_of_stored_path by done. f_equal.
  apply insert_id. by rewrite !lookup_insert_ne.
Qed.
End QueueFacts.

(** ** Stored and listed *)

Section SaveFacts.
Import Paths FileManager.






End SaveFacts.

(** ** The list view *)

Section ViewFacts.
Import Paths ListView.
Variable to_datetime : string → option Z.
Variable disk : string → file_state.
Variable str_of : pyval → string.
Variable search_var city_filter : string.

(** The list view never shows a row of a stored ledger: handed the items
    of [list_all_files], [update_list_view] clears the tree and then either
    reports 0 entries (no file is stored) or shows the error box; and
    [update_city_filter_combo] offers All alone (no file is stored) or
    leaves the combo box as it was. *)
Theorem stored_files_never_shown status_filter files values :
  update_list_view to_datetime disk str_of search_var city_filter
    status_filter (AItem <$> files)
  = match files with
    | [] => [ClearTree; StatusBar 0]
    | _ => [ClearTree; ErrorBox "Failed to update list"]
    end
  ∧ update_city_filter_combo (AItem <$> files) values
    = match files with
      | [] => ["All"]
      | _ => values
      end.
Proof. by destruct files. Qed.

End ViewFacts.

(** ** On the shelf *)

Lemma shelf_listing_names : FileManager.listing_names Shelf.fs.
Proof.
  intros p name Hin. simpl in Hin. unfold Shelf.names in Hin.
  destruct (String.eqb p "payment_data");
    [|destruct (String.eqb p "payment_data/Pune")];
    repeat (apply elem_of_cons in Hin as [->|Hin]; [done|]);
    by apply not_elem_of_nil in Hin.
Qed.

Lemma shelf_dirs_exist : FileManager.dirs_exist Shelf.fs.
Proof. intros p Hp. simpl in *. by rewrite Hp. Qed.

Lemma list_all_files_by_city_witness :
  FileManager.list_all_cities Shelf.base_folder Shelf.fs = Ok ["Pune"]
  ∧ FileManager.list_all_files Shelf.base_folder Shelf.fs = Ok Shelf.files
  ∧ FileManager.get_city_files Shelf.base_folder Shelf.fs "Pune"
    = Ok ["payment_data/Pune/ledger.xlsx"].
Proof.
  assert (FileManager.list_all_cities Shelf.base_folder Shelf.fs
          = Ok ["Pune"]) as H by (vm_compute; reflexivity).
  split; [exact H|].
  destruct (list_all_files_by_city Shelf.base_folder Shelf.fs ["Pune"]
              shelf_dirs_exist H) as [Hfiles _].
  split; [|vm_compute; reflexivity].
  rewrite Hfiles. vm_compute. reflexivity.
Defined.

Lemma reminders_keep_city_witness :
  FileManager.list_all_files Shelf.base_folder Shelf.fs = Ok Shelf.files
  ∧ ListView.queue_reminders Scenario.no_dates Shelf.disk Scenario.today
      Shelf.files
    = Ok (match ReminderEngine.get_due_payments Scenario.no_dates Shelf.disk
                  Scenario.today Shelf.files with
          | [] => None
          | due_payments => Some due_payments
          end).
Proof.
  assert (FileManager.list_all_files Shelf.base_folder Shelf.fs
          = Ok Shelf.files) as H by (vm_compute; reflexivity).
  split; [exact H|].
  exact (reminders_keep_city Scenario.no_dates Shelf.disk Scenario.today
           Shelf.base_folder Shelf.fs Shelf.files shelf_listing_names H).
Defined.

